(** * Lens protocol deployment scripts: verification client and deployment
      orchestrator

    A shallow embedding of [scripts/helpers/custom_verification.py]
    ([get_verification_info], [publish_source]) and of
    [scripts/full_deploy.py] ([main]).

    Python [str] values are modelled as [string] (ASCII text, one
    character per byte), Python [int] as [Z].  The remote explorer is a
    script of HTTP responses consumed one per request; every request,
    sleep and print is recorded in a trace. *)

From Stdlib Require Import ZArith List Bool Ascii String Lia.
Import ListNotations.

Local Open Scope string_scope.
Local Open Scope Z_scope.

(** ** Python string primitives *)

Module PyStr.

(** [s.startswith(p)] *)
Fixpoint startswith (p s : string) : bool :=
  match p with
  | EmptyString => true
  | String a p' =>
      match s with
      | EmptyString => false
      | String b s' => Ascii.eqb a b && startswith p' s'
      end
  end.

(** [sub in s] *)
Fixpoint contains (sub s : string) : bool :=
  startswith sub s ||
  match s with
  | EmptyString => false
  | String _ s' => contains sub s'
  end.

(** [c in s] for a single character *)
Fixpoint mem (c : ascii) (s : string) : bool :=
  match s with
  | EmptyString => false
  | String a s' => Ascii.eqb c a || mem c s'
  end.

Definition is_upper (c : ascii) : bool :=
  let n := nat_of_ascii c in (65 <=? n)%nat && (n <=? 90)%nat.

Definition lower_char (c : ascii) : ascii :=
  if is_upper c then ascii_of_nat (nat_of_ascii c + 32) else c.

(** [s.lower()] *)
Fixpoint lower (s : string) : string :=
  match s with
  | EmptyString => EmptyString
  | String c s' => String (lower_char c) (lower s')
  end.

(** [s[n:]] for [n >= 0] *)
Fixpoint drop (n : nat) (s : string) : string :=
  match n with
  | O => s
  | S k => match s with EmptyString => EmptyString | String _ s' => drop k s' end
  end.

(** [s[n:]] with the offset a non-negative Python int *)
Definition slice_from (n : Z) (s : string) : string := drop (Z.to_nat n) s.

(** [len(s)] *)
Definition len (s : string) : Z := Z.of_nat (String.length s).

(** [s.index(c)]: offset of the first occurrence, [None] where Python
    raises [ValueError("substring not found")] *)
Fixpoint index_char (c : ascii) (s : string) : option Z :=
  match s with
  | EmptyString => None
  | String a s' =>
      if Ascii.eqb c a then Some 0
      else option_map Z.succ (index_char c s')
  end.

(** The scan of [s.replace(old, new)] for a non-empty [old]: [skip] counts
    the characters of a match that are still to be passed over. *)
Fixpoint replace_scan (old new : string) (skip : nat) (s : string) : string :=
  match s with
  | EmptyString => EmptyString
  | String c s' =>
      match skip with
      | S k => replace_scan old new k s'
      | O =>
          if startswith old s
          then new ++ replace_scan old new (String.length old - 1) s'
          else String c (replace_scan old new O s')
      end
  end.

(** [new.join(s)] over the characters of [s], with [new] also put in front
    and at the end: what [replace] with an empty [old] gives. *)
Fixpoint interleave (new s : string) : string :=
  match s with
  | EmptyString => new
  | String c s' => new ++ String c (interleave new s')
  end.

(** [s.replace(old, new)]: every non-overlapping occurrence, leftmost first *)
Definition replace (old new s : string) : string :=
  match old with
  | EmptyString => interleave new s
  | String _ _ => replace_scan old new O s
  end.

(** The first and the last character of a string. *)
Definition head (s : string) : option ascii :=
  match s with
  | EmptyString => None
  | String a _ => Some a
  end.

Fixpoint last (s : string) : option ascii :=
  match s with
  | EmptyString => None
  | String a EmptyString => Some a
  | String _ s' => last s'
  end.

End PyStr.

(** ** License classification ([publish_source], "Select matching license code") *)

Definition license_code (license_identifier : string) : Z :=
  let identifier := PyStr.lower license_identifier in
  if PyStr.contains "unlicensed" identifier then 2
  else if PyStr.contains "mit" identifier then 3
  else if PyStr.contains "agpl" identifier && PyStr.contains "3.0" identifier then 13
  else if PyStr.contains "lgpl" identifier then
    if PyStr.contains "2.1" identifier then 6
    else if PyStr.contains "3.0" identifier then 7
    else 1
  else if PyStr.contains "gpl" identifier then
    if PyStr.contains "2.0" identifier then 4
    else if PyStr.contains "3.0" identifier then 5
    else 1
  else if PyStr.contains "bsd-2-clause" identifier then 8
  else if PyStr.contains "bsd-3-clause" identifier then 9
  else if PyStr.contains "mpl" identifier && PyStr.contains "2.0" identifier then 10
  else if PyStr.startswith "osl" identifier && PyStr.contains "3.0" identifier then 11
  else if PyStr.contains "apache" identifier && PyStr.contains "2.0" identifier then 12
  else 1.

(** The classification as the specification words it: a priority list of
    license families, the first family that applies decides. *)
Inductive license_rule :=
    (** the keyword occurs *)
| Keyword (k : string) (code : Z)
    (** keyword and version both occur; otherwise the next rule is tried *)
| Versioned (k v : string) (code : Z)
    (** the keyword selects the family, the first version that occurs picks
        the code, and without one the default stands *)
| Family (k : string) (versions : list (string * Z))
    (** the identifier starts with the keyword and the version occurs *)
| Prefixed (k v : string) (code : Z).

Definition default_license_code : Z := 1.

Definition license_priority : list license_rule :=
  [ Keyword "unlicensed" 2;
    Keyword "mit" 3;
    Versioned "agpl" "3.0" 13;
    Family "lgpl" [("2.1", 6); ("3.0", 7)];
    Family "gpl" [("2.0", 4); ("3.0", 5)];
    Keyword "bsd-2-clause" 8;
    Keyword "bsd-3-clause" 9;
    Versioned "mpl" "2.0" 10;
    Prefixed "osl" "3.0" 11;
    Versioned "apache" "2.0" 12 ].

Definition rule_applies (r : license_rule) (identifier : string) : bool :=
  match r with
  | Keyword k _ => PyStr.contains k identifier
  | Versioned k v _ => PyStr.contains k identifier && PyStr.contains v identifier
  | Family k _ => PyStr.contains k identifier
  | Prefixed k v _ => PyStr.startswith k identifier && PyStr.contains v identifier
  end.

Definition rule_code (r : license_rule) (identifier : string) : Z :=
  match r with
  | Keyword _ code | Versioned _ _ code | Prefixed _ _ code => code
  | Family _ versions =>
      match find (fun vc => PyStr.contains (fst vc) identifier) versions with
      | Some vc => snd vc
      | None => default_license_code
      end
  end.

Definition classify_by_priority (rules : list license_rule) (license_identifier : string) : Z :=
  let identifier := PyStr.lower license_identifier in
  match find (fun r => rule_applies r identifier) rules with
  | Some r => rule_code r identifier
  | None => default_license_code
  end.

(** ** Explorer responses, requests and errors *)

Module Py.

(** [int(s)] on ASCII text, as CPython 3.11 does it: blanks around the
    number (tab, line feed, vertical tab, form feed, carriage return and
    space; the separators 28 to 31 are blanks for [str.isspace] but not
    for [int] on ASCII text), an optional sign, then decimal digits, single
    underscores allowed between digits, and at most 4300 digits in all.
    [None] where Python raises [ValueError]. *)
Definition is_space (c : ascii) : bool :=
  let n := nat_of_ascii c in
  ((9 <=? n)%nat && (n <=? 13)%nat) || (n =? 32)%nat.

Fixpoint all_space (s : string) : bool :=
  match s with
  | EmptyString => true
  | String c s' => is_space c && all_space s'
  end.

Fixpoint lstrip (s : string) : string :=
  match s with
  | EmptyString => EmptyString
  | String c s' => if is_space c then lstrip s' else s
  end.

Definition digit_val (c : ascii) : option Z :=
  let n := nat_of_ascii c in
  if (48 <=? n)%nat && (n <=? 57)%nat then Some (Z.of_nat (n - 48)) else None.

Fixpoint parse_digits (acc : Z) (after_digit : bool) (s : string) : option Z :=
  match s with
  | EmptyString => if after_digit then Some acc else None
  | String c s' =>
      match digit_val c with
      | Some d => parse_digits (10 * acc + d) true s'
      | None =>
          if after_digit && Ascii.eqb c "_" then parse_digits acc false s'
          else if after_digit && all_space s then Some acc
          else None
      end
  end.

(** The number of digits of a literal. *)
Fixpoint digit_count (s : string) : Z :=
  match s with
  | EmptyString => 0
  | String c s' =>
      match digit_val c with
      | Some _ => 1 + digit_count s'
      | None => digit_count s'
      end
  end.

(** [sys.int_info.default_max_str_digits] *)
Definition max_str_digits : Z := 4300.

Definition int (s : string) : option Z :=
  if max_str_digits <? digit_count s then None
  else
    match lstrip s with
    | String "-" s' => option_map Z.opp (parse_digits 0 false s')
    | String "+" s' => parse_digits 0 false s'
    | s' => parse_digits 0 false s'
    end.

End Py.

(** One entry of the explorer's transaction list. *)
Record transaction := { input : string }.

(** The [result] field of an explorer reply: a message or GUID, or the
    list of transactions of a [txlist] query. *)
Inductive pyval :=
| PStr (s : string)
| PList (txs : list transaction).

(** [v == s] for a string literal [s] *)
Definition pyval_eq_str (v : pyval) (s : string) : bool :=
  match v with
  | PStr t => String.eqb t s
  | PList _ => false
  end.

(** The decoded JSON body [{status, message, result}]. *)
Record api_data := {
  status : string;
  message : string;
  result : pyval
}.

Record response := {
  status_code : Z;
  text : string;
  json : api_data
}.

Inductive exn :=
| ValueError (msg : string)
    (** [ValueError(f"{prefix}{value}")] with a reply's [result] interpolated *)
| ValueErrorWith (prefix : string) (value : pyval)
    (** the [ValueError] of [int(s)]: [s] is no integer literal, or has
        more digits than [int] converts *)
| InvalidLiteral (s : string)
    (** [ConnectionError(f"Status {status_code} when querying {url}: {text}")] *)
| ConnectionError (code : Z) (url : string) (body : string)
| TypeError (msg : string)
| IndexError
| AttributeError (msg : string).

Record txlist_params := {
  tx_apikey : string;
  tx_module : string;
  tx_action : string;
  tx_address : string;
  tx_page : Z;
  tx_sort : string;
  tx_offset : Z
}.

Record verification_payload := {
  apikey : string;
  module_ : string;
  action : string;
  contractaddress : string;
  sourceCode : string;
  codeformat : string;
  contractname : string;
  compilerversion : string;
  optimizationUsed : Z;
  runs : Z;
  constructorArguements : string;
  licenseType : Z
}.

Record status_params := {
  st_apikey : string;
  st_module : string;
  st_action : string;
  st_guid : pyval
}.

Inductive request :=
| GetTxList (url : string) (params : txlist_params)
| PostVerify (url : string) (data : verification_payload)
| GetStatus (url : string) (params : status_params).

Inductive print_line :=
| Waiting (url : string)
| Submitted
| Pending
| Complete (col : string) (result : pyval).

Inductive event :=
| Http (r : request)
| Sleep (seconds : Z)
| Print (line : print_line).

Definition trace := list event.

(** How a run ends: a value, an exception, or the script of explorer
    replies is used up while a request is outstanding. *)
Inductive outcome (A : Type) :=
| Returned (a : A)
| Raised (e : exn)
| Starved.

Arguments Returned {A} a.
Arguments Raised {A} e.
Arguments Starved {A}.

Definition is_http (e : event) : bool :=
  match e with Http _ => true | _ => false end.

(** Number of HTTP requests issued in a trace. *)
Definition requests (tr : trace) : nat := List.length (filter is_http tr).

(** The delays of a trace, in order. *)
Definition sleeps (tr : trace) : list Z :=
  flat_map (fun e => match e with Sleep n => [n] | _ => [] end) tr.

(** Prefix a run with the events that happened before it. *)
Definition after {A} (evs : trace) (run : outcome A * trace) : outcome A * trace :=
  (fst run, (evs ++ snd run)%list).

(** ** Build artifacts and the contract container *)

Record compiler_info := {
  version : string;
  optimizer_enabled : bool;
  optimizer_runs : Z;
  evm_version : string
}.

Record build := {
  language : string;
  contractName : string;
  compiler : compiler_info;
  bytecode : string;
  sourcePath : string
}.

Record flattener := {
  standard_input_json : string;
  license : string;
  contract_file : string;
  contract_name : string
}.

(** The [ContractContainer]: its build, the cached flattener, and what
    building a flattener for it comes to.  The building (the source path,
    the remappings, the libraries named in the bytecode with the addresses
    of their last deployments, and [Flattener(source_fp, name, remaps,
    compiler_settings)]) looks into the project and the file system and is
    external: it yields the flattener, or raises on the way, as with the
    [IndexError] for a library that has not been deployed. *)
Record container := {
  _build : build;
  _flattener : option flattener;
  Flattener : exn + flattener
}.

Record verification_info := {
  info_standard_json_input : string;
  info_contract_name : string;
  info_compiler_version : string;
  info_optimizer_enabled : bool;
  info_optimizer_runs : Z;
  license_identifier : string;
  bytecode_len : Z
}.

Definition get_verification_info (self : container)
  : (exn + verification_info) * container :=
  let language := language (_build self) in
  if String.eqb language "Vyper" then
    (inl (TypeError ("Etherscan does not support API verification of source code "
                     ++ "for vyper contracts. You need to verify the source manually")),
     self)
  else if String.eqb language "Solidity" then
    match (match _flattener self with
           | None => Flattener self
           | Some f => inr f
           end) with
    | inl e => (inl e, self)
    | inr fl =>
        let self' := {| _build := _build self;
                        _flattener := Some fl;
                        Flattener := Flattener self |} in
        let build_json := _build self' in
        (inr {| info_standard_json_input := standard_input_json fl;
                info_contract_name := contractName build_json;
                info_compiler_version := version (compiler build_json);
                info_optimizer_enabled := optimizer_enabled (compiler build_json);
                info_optimizer_runs := optimizer_runs (compiler build_json);
                license_identifier := license fl;
                bytecode_len := PyStr.len (bytecode build_json) |},
         self')
    end
  else
    (inl (TypeError ("Unsupported language for source verification: " ++ language)),
     self).

(** ** Runs: an outcome together with the trace of what was done *)

Definition run (A : Type) : Type := (outcome A * trace)%type.

Definition ret {A} (a : A) : run A := (Returned a, []).

Definition raise {A} (e : exn) : run A := (Raised e, []).

Definition emit (e : event) : run unit := (Returned tt, [e]).

Definition bind {A B} (m : run A) (k : A -> run B) : run B :=
  match fst m with
  | Returned a => after (snd m) (k a)
  | Raised e => (Raised e, snd m)
  | Starved => (Starved, snd m)
  end.

Declare Scope run_scope.
Delimit Scope run_scope with run.
Notation "x <- m ;; k" := (bind m (fun x => k))
  (at level 61, m at next level, right associativity) : run_scope.
Notation "m ;;; k" := (bind m (fun _ => k))
  (at level 61, right associativity) : run_scope.
Local Open Scope run_scope.

Definition lift {A} (r : exn + A) : run A :=
  match r with
  | inl e => raise e
  | inr a => ret a
  end.

(** [print(...)] unless [silent] *)
Definition say (silent : bool) (line : print_line) : run unit :=
  if silent then ret tt else emit (Print line).

(** ** The network location of a URL ([urlparse(url).netloc])

    After urllib's [urlsplit]: leading control characters and spaces are
    dropped, and tabs, carriage returns and line feeds wherever they are;
    a scheme is the text before the first colon when it starts with a
    letter and consists of scheme characters; the network location is what
    follows a leading double slash, up to the first slash, question mark or
    hash sign.  A network location with only one of the two square brackets
    is refused.  (The check of the address inside a pair of brackets, which
    the latest versions add, is not modelled.) *)

Module Url.

Definition is_alpha (c : ascii) : bool :=
  let n := nat_of_ascii c in
  ((65 <=? n)%nat && (n <=? 90)%nat) || ((97 <=? n)%nat && (n <=? 122)%nat).

Definition is_digit (c : ascii) : bool :=
  let n := nat_of_ascii c in (48 <=? n)%nat && (n <=? 57)%nat.

Definition is_scheme_char (c : ascii) : bool :=
  is_alpha c || is_digit c || Ascii.eqb c "+" || Ascii.eqb c "-" || Ascii.eqb c ".".

(** [_WHATWG_C0_CONTROL_OR_SPACE] *)
Definition is_c0_control_or_space (c : ascii) : bool :=
  (nat_of_ascii c <=? 32)%nat.

(** [url.lstrip(_WHATWG_C0_CONTROL_OR_SPACE)] *)
Fixpoint lstrip (url : string) : string :=
  match url with
  | EmptyString => EmptyString
  | String c url' => if is_c0_control_or_space c then lstrip url' else url
  end.

(** [_UNSAFE_URL_BYTES_TO_REMOVE]: tab, carriage return, line feed *)
Definition is_unsafe (c : ascii) : bool :=
  let n := nat_of_ascii c in
  (n =? 9)%nat || (n =? 13)%nat || (n =? 10)%nat.

Fixpoint remove_unsafe (url : string) : string :=
  match url with
  | EmptyString => EmptyString
  | String c url' =>
      if is_unsafe c then remove_unsafe url' else String c (remove_unsafe url')
  end.

(** The text before and after the first colon. *)
Fixpoint split_colon (s : string) : option (string * string) :=
  match s with
  | EmptyString => None
  | String c s' =>
      if Ascii.eqb c ":" then Some (EmptyString, s')
      else match split_colon s' with
           | Some (pre, post) => Some (String c pre, post)
           | None => None
           end
  end.

Fixpoint all_scheme_chars (s : string) : bool :=
  match s with
  | EmptyString => true
  | String c s' => is_scheme_char c && all_scheme_chars s'
  end.

Definition strip_scheme (url : string) : string :=
  match split_colon url with
  | Some (String c pre, post) =>
      if is_alpha c && all_scheme_chars pre then post else url
  | _ => url
  end.

Fixpoint until_delim (s : string) : string :=
  match s with
  | EmptyString => EmptyString
  | String c s' =>
      if Ascii.eqb c "/" || Ascii.eqb c "?" || Ascii.eqb c "#" then EmptyString
      else String c (until_delim s')
  end.

(** The network location [urlsplit] cuts out. *)
Definition netloc (url : string) : string :=
  match strip_scheme (remove_unsafe (lstrip url)) with
  | String "/" (String "/" rest) => until_delim rest
  | _ => EmptyString
  end.

(** [urlparse(url).netloc]: the network location, or the [ValueError] for
    one with an opening or a closing bracket only. *)
Definition urlparse_netloc (url : string) : exn + string :=
  let netloc := netloc url in
  if xorb (PyStr.mem "[" netloc) (PyStr.mem "]" netloc)
  then inl (ValueError "Invalid IPv6 URL")
  else inr netloc.

End Url.

(** ** [publish_source] *)

(** What [publish_source] reads from its surroundings: the active
    network's explorer URL, brownie's table of explorer host fragments and
    token names (in dictionary order), and the process environment. *)
Record environment := {
  explorer : option string;
  _explorer_tokens : list (string * string);
  getenv : string -> option string
}.

Definition token_required_message (host env_token : string) : string :=
  "An API token is required to verify contract source code. Visit https://"
  ++ host ++ "/ "
  ++ "to obtain a token, and then store it as the environment variable $"
  ++ env_token.

(** [next((v for k, v in _explorer_tokens.items() if k in url), None)] *)
Definition resolve_env_token (tokens : list (string * string)) (url : string)
  : option string :=
  option_map snd (find (fun kv => PyStr.contains (fst kv) url) tokens).

(** "Check required conditions for verifying": the explorer URL and the
    API key, or the error raised. *)
Definition api_credentials (env : environment) : exn + (string * string) :=
  match explorer env with
  | None => inl (ValueError "Explorer API not set for this network")
  | Some url =>
      match resolve_env_token (_explorer_tokens env) url with
      | None =>
          inl (ValueError ("Publishing source is only supported on "
                           ++ String.concat ", " (map fst (_explorer_tokens env))
                           ++ "," ++ "change the Explorer API"))
      | Some env_token =>
          match getenv env env_token with
          | Some (String c key) => inr (url, String c key)
          | _ =>
              match Url.urlparse_netloc url with
              | inl e => inl e
              | inr host =>
                  match PyStr.index_char "." host with
                  | None => inl (ValueError "substring not found")
                  | Some i =>
                      let host := PyStr.slice_from (i + 1) host in
                      inl (ValueError (token_required_message host env_token))
                  end
              end
          end
      end
  end.

(** The first [while True] loop: wait until the explorer lists the
    contract's transactions.  [i] is the loop counter, [script] the replies
    still to come; the reply that ends the loop is returned with the rest
    of the script. *)
Fixpoint await_indexing (url : string) (params : txlist_params) (silent : bool)
    (i : Z) (script : list response) : run (api_data * list response) :=
  after [Http (GetTxList url params)]
    match script with
    | [] => (Starved, [])
    | response :: script' =>
        if negb (status_code response =? 200) then
          raise (ConnectionError (status_code response) url (text response))
        else
          let data := json response in
          match Py.int (status data) with
          | None => raise (InvalidLiteral (status data))
          | Some st =>
              if st =? 1 then ret (data, script')
              else if i >=? 10 then
                raise (ValueErrorWith "API request failed with: " (result data))
              else
                (if (i =? 0) && negb silent then emit (Print (Waiting url))
                 else ret tt) ;;;
                emit (Sleep 10) ;;;
                await_indexing url params silent (i + 1) script'
          end
    end.

(** "get constructor arguments", after the loop *)
Definition constructor_arguments_of (data : api_data) (contract_info : verification_info)
  : exn + string :=
  if String.eqb (message data) "OK" then
    match result data with
    | PList (tx :: _) =>
        inr (PyStr.slice_from (bytecode_len contract_info + 2) (input tx))
    | PList [] => inl IndexError
    | PStr EmptyString => inl IndexError
    | PStr (String _ _) => inl (TypeError "string indices must be integers")
    end
  else inr EmptyString.

(** The second [while True] loop: query the verification status until it
    is no longer pending. *)
Fixpoint poll_status (url : string) (params : status_params) (silent : bool)
    (script : list response) : run bool :=
  after [Http (GetStatus url params)]
    match script with
    | [] => (Starved, [])
    | response :: script' =>
        if negb (status_code response =? 200) then
          raise (ConnectionError (status_code response) url (text response))
        else
          let data := json response in
          if pyval_eq_str (result data) "Pending in queue" then
            say silent Pending ;;;
            emit (Sleep 10) ;;;
            poll_status url params silent script'
          else
            say silent
              (Complete (if String.eqb (message data) "OK"
                         then "bright green" else "bright red")
                        (result data)) ;;;
            ret (String.eqb (message data) "OK")
    end.

(** One HTTP POST: the next reply of the script. *)
Definition post (url : string) (payload : verification_payload)
    (script : list response) : run (response * list response) :=
  after [Http (PostVerify url payload)]
    match script with
    | [] => (Starved, [])
    | response :: script' => ret (response, script')
    end.

(** The [params_tx] dictionary *)
Definition params_tx (api_key address : string) : txlist_params :=
  {| tx_apikey := api_key;
     tx_module := "account";
     tx_action := "txlist";
     tx_address := address;
     tx_page := 1;
     tx_sort := "asc";
     tx_offset := 1 |}.

(** The [payload_verification] dictionary *)
Definition payload_verification (api_key address : string) (fl : flattener)
    (contract_info : verification_info) (constructor_arguments : string)
    (license_code : Z) : verification_payload :=
  {| apikey := api_key;
     module_ := "contract";
     action := "verifysourcecode";
     contractaddress := address;
     sourceCode := standard_input_json fl;
     codeformat := "solidity-standard-json-input";
     contractname := contract_file fl ++ ":" ++ contract_name fl;
     compilerversion := "v" ++ info_compiler_version contract_info;
     optimizationUsed := if info_optimizer_enabled contract_info then 1 else 0;
     runs := info_optimizer_runs contract_info;
     constructorArguements := constructor_arguments;
     licenseType := license_code |}.

(** The [params_status] dictionary *)
Definition params_status (api_key : string) (guid : pyval) : status_params :=
  {| st_apikey := api_key;
     st_module := "contract";
     st_action := "checkverifystatus";
     st_guid := guid |}.

(** [self._flattener], whose attributes the payload reads; on [None] the
    first of them raises. *)
Definition flattener_of (self : container) : exn + flattener :=
  match _flattener self with
  | Some f => inr f
  | None =>
      inl (AttributeError "'NoneType' object has no attribute 'standard_input_json'")
  end.

(** What follows the POST: check the reply, then poll for the result. *)
Definition verification_result (url api_key : string) (silent : bool)
    (posted : response) (script : list response) : run bool :=
  let response := posted in
  (if negb (status_code response =? 200) then
     raise (ConnectionError (status_code response) url (text response))
   else ret tt) ;;;
  let data := json response in
  st <- lift (match Py.int (status data) with
              | Some st => inr st
              | None => inl (InvalidLiteral (status data))
              end) ;;
  (if negb (st =? 1) then
     raise (ValueErrorWith "Failed to submit verification request: " (result data))
   else ret tt) ;;;
  (* Status of request *)
  let guid := result data in
  say silent Submitted ;;;
  emit (Sleep 10) ;;;
  poll_status url (params_status api_key guid) silent script.

Definition publish_source (env : environment) (self : container)
    (contract_address : string) (silent : bool) (script : list response)
  : run bool :=
  (* Check required conditions for verifying *)
  cred <- lift (api_credentials env) ;;
  let url := fst cred in
  let api_key := snd cred in
  let address := contract_address in
  (* Get source code and contract/compiler information *)
  let info := get_verification_info self in
  contract_info <- lift (fst info) ;;
  let self := snd info in
  (* Select matching license code *)
  let license_code := license_code (license_identifier contract_info) in
  (* get constructor arguments *)
  indexed <- await_indexing url (params_tx api_key address) silent 0 script ;;
  let data := fst indexed in
  let script := snd indexed in
  constructor_arguments <- lift (constructor_arguments_of data contract_info) ;;
  (* Submit verification *)
  fl <- lift (flattener_of self) ;;
  posted <- post url (payload_verification api_key address fl
                        contract_info constructor_arguments license_code) script ;;
  verification_result url api_key silent (fst posted) (snd posted).

(** The replies the two loops tell apart. *)
Definition status_is_one (r : response) : option bool :=
  option_map (fun st => st =? 1) (Py.int (status (json r))).

Definition is_indexed (r : response) : bool :=
  (status_code r =? 200) &&
  match status_is_one r with Some b => b | None => false end.

Definition is_not_indexed (r : response) : bool :=
  (status_code r =? 200) &&
  match status_is_one r with Some b => negb b | None => false end.

Definition is_pending (r : response) : bool :=
  (status_code r =? 200) && pyval_eq_str (result (json r)) "Pending in queue".

Definition is_terminal (r : response) : bool :=
  (status_code r =? 200) && negb (pyval_eq_str (result (json r)) "Pending in queue").

(** The verification requests posted in a trace. *)
Definition posts (tr : trace) : list verification_payload :=
  flat_map (fun e => match e with
                     | Http (PostVerify _ payload) => [payload]
                     | _ => []
                     end) tr.

Local Close Scope run_scope.

(** ** The deployment orchestrator ([full_deploy.py]) *)

Definition TREASURY_FEE_BPS : Z := 50.
Definition LENS_HUB_NFT_NAME : string := "Lens Protocol Profiles".
Definition LENS_HUB_NFT_SYMBOL : string := "LPP".

(** The placeholders of the three logic libraries in LensHub's bytecode. *)
Definition PublishingLogic_token : string := "__$1f7cbacb1f9f5d323b85b0487838426c8d$__".
Definition InteractionLogic_token : string := "__$1e68a60ae0444699fe08192a29ecc09930$__".
Definition ProfileTokenURILogic_token : string := "__$f906f20d797116ee89ed79945048c6ad36$__".

(** The address without its [0x], lowercased: [replace] with an empty
    replacement, then [lower]. *)
Definition library_hex (address : string) : string :=
  PyStr.lower (PyStr.replace "0x" EmptyString address).

(** "Updating the LensHub Bytecode to replace the Logic Libs addresses" *)
Definition patch_libraries (publishingLogic interactionLogic profileTokenURILogic : string)
    (_bytecode_lh : string) : string :=
  let _bytecode_lh :=
    PyStr.replace PublishingLogic_token (library_hex publishingLogic) _bytecode_lh in
  let _bytecode_lh :=
    PyStr.replace InteractionLogic_token (library_hex interactionLogic) _bytecode_lh in
  let _bytecode_lh :=
    PyStr.replace ProfileTokenURILogic_token (library_hex profileTokenURILogic) _bytecode_lh in
  _bytecode_lh.

(** Unlinked bytecode as the compiler lays it out: stretches of hex code
    with library placeholders in between. *)
Inductive library := PublishingLogic | InteractionLogic | ProfileTokenURILogic.

Inductive segment :=
| Code (hex : string)
| Placeholder (lib : library).

Definition token (lib : library) : string :=
  match lib with
  | PublishingLogic => PublishingLogic_token
  | InteractionLogic => InteractionLogic_token
  | ProfileTokenURILogic => ProfileTokenURILogic_token
  end.

(** The text of a layout, with [link] saying what stands for a library. *)
Fixpoint render (link : library -> string) (layout : list segment) : string :=
  match layout with
  | [] => EmptyString
  | Code hex :: layout' => hex ++ render link layout'
  | Placeholder lib :: layout' => link lib ++ render link layout'
  end.

Definition is_hex_digit (c : ascii) : bool :=
  let n := nat_of_ascii c in
  ((48 <=? n)%nat && (n <=? 57)%nat)
  || ((97 <=? n)%nat && (n <=? 102)%nat)
  || ((65 <=? n)%nat && (n <=? 70)%nat).

Fixpoint is_hex (s : string) : bool :=
  match s with
  | EmptyString => true
  | String c s' => is_hex_digit c && is_hex s'
  end.

Definition code_is_hex (layout : list segment) : bool :=
  forallb (fun seg => match seg with Code hex => is_hex hex | Placeholder _ => true end)
          layout.

(** An account or contract address: [0x] and forty hex digits. *)
Definition is_address (a : string) : bool :=
  match a with
  | String "0" (String "x" digits) =>
      (String.length digits =? 40)%nat && is_hex digits
  | _ => false
  end.

(** Text that begins neither like the middle nor like the end of a
    placeholder. *)
Definition clean (rest : string) : Prop :=
  PyStr.startswith "$" rest = false /\ PyStr.startswith "_$" rest = false.

(** The address of each library. *)
Definition library_address (publishingLogic interactionLogic profileTokenURILogic : string)
    (lib : library) : string :=
  match lib with
  | PublishingLogic => publishingLogic
  | InteractionLogic => interactionLogic
  | ProfileTokenURILogic => profileTokenURILogic
  end.

(** The replacements for the libraries of [libs], in order. *)
Definition patch_only (libs : list library) (address : library -> string)
    (bytecode : string) : string :=
  fold_left (fun b lib => PyStr.replace (token lib) (library_hex (address lib)) b)
            libs bytecode.

Definition library_eqb (a b : library) : bool :=
  match a, b with
  | PublishingLogic, PublishingLogic
  | InteractionLogic, InteractionLogic
  | ProfileTokenURILogic, ProfileTokenURILogic => true
  | _, _ => false
  end.

(** What stands for a library while only some are resolved: the address
    text of a resolved one, the placeholder of the others. *)
Definition link_with (resolved : library -> option string) (lib : library) : string :=
  match resolved lib with
  | Some a => a
  | None => token lib
  end.

Definition resolve (lib : library) (a : string) (resolved : library -> option string)
  : library -> option string :=
  fun l => if library_eqb l lib then Some a else resolved l.

(** Arguments of constructors and calls. *)
Inductive arg :=
| Addr (a : string)
| Int (z : Z)
| Flag (b : bool)
| Encoded (method : string) (args : list string).

Inductive tx_kind :=
| Create (contract : string) (args : list arg) (publish_source : bool)
| Call (target : string) (method : string) (args : list arg).

(** A transaction as submitted: sender, explicit nonce, what it does, and
    for a creation the address the contract got. *)
Record sent_tx := {
  tx_from : string;
  tx_nonce : Z;
  tx_what : tx_kind;
  tx_created : option string
}.

(** The chain and the files the script touches. *)
Record world := {
  getTransactionCount : string -> Z;
  sent : list sent_tx;
  LensHub_deployedBytecode : string;
  lenshubAddresses_file : option (string * list (string * string));
  stdout : list string
}.

Inductive failure :=
| NotConnected (msg : string)
| NoSuchAccount (index : nat)
    (** the chain accepts a transaction only with the sender's next nonce *)
| TransactionOrderingError (sender : string) (nonce expected : Z).

Definition M (A : Type) : Type := world -> (failure + A) * world.

Definition mret {A} (a : A) : M A := fun w => (inr a, w).

Definition mfail {A} (f : failure) : M A := fun w => (inl f, w).

Definition mbind {A B} (m : M A) (k : A -> M B) : M B :=
  fun w => match m w with
           | (inr a, w') => k a w'
           | (inl f, w') => (inl f, w')
           end.

Declare Scope deploy_scope.
Delimit Scope deploy_scope with deploy.
Notation "x <- m ;; k" := (mbind m (fun x => k))
  (at level 61, m at next level, right associativity) : deploy_scope.
Notation "m ;;; k" := (mbind m (fun _ => k))
  (at level 61, right associativity) : deploy_scope.
Local Open Scope deploy_scope.

(** The world after a line is printed. *)
Definition say_line (line : string) (w : world) : world :=
  {| getTransactionCount := getTransactionCount w;
     sent := sent w;
     LensHub_deployedBytecode := LensHub_deployedBytecode w;
     lenshubAddresses_file := lenshubAddresses_file w;
     stdout := (stdout w ++ [line])%list |}.

Definition print (line : string) : M unit :=
  fun w => (inr tt, say_line line w).

(** [web3.eth.getTransactionCount(address)] *)
Definition transaction_count (address : string) : M Z :=
  fun w => (inr (getTransactionCount w address), w).

(** The chain's bookkeeping of an accepted transaction. *)
Definition record_tx (t : sent_tx) (w : world) : world :=
  {| getTransactionCount :=
       fun a => if String.eqb a (tx_from t)
                then getTransactionCount w a + 1
                else getTransactionCount w a;
     sent := (sent w ++ [t])%list;
     LensHub_deployedBytecode := LensHub_deployedBytecode w;
     lenshubAddresses_file := lenshubAddresses_file w;
     stdout := stdout w |}.

(** [build/contracts/LensHub.json] loaded, its [deployedBytecode] changed
    by [f], and dumped again. *)
Definition put_bytecode (f : string -> string) (w : world) : world :=
  {| getTransactionCount := getTransactionCount w;
     sent := sent w;
     LensHub_deployedBytecode := f (LensHub_deployedBytecode w);
     lenshubAddresses_file := lenshubAddresses_file w;
     stdout := stdout w |}.

Definition rewrite_LensHub_json (f : string -> string) : M unit :=
  fun w => (inr tt, put_bytecode f w).

Definition put_addresses (name : string) (registry : list (string * string))
    (w : world) : world :=
  {| getTransactionCount := getTransactionCount w;
     sent := sent w;
     LensHub_deployedBytecode := LensHub_deployedBytecode w;
     lenshubAddresses_file := Some (name, registry);
     stdout := stdout w |}.

Definition dump_addresses (name : string) (registry : list (string * string)) : M unit :=
  fun w => (inr tt, put_addresses name registry w).

(** What the script is started with. *)
Record settings := {
  NETWORK_ID : string;
  CONTRACT_VERIFICATION : bool;
  is_connected : bool;
  network_accounts : list string;
  DEPLOYER_PRIVATE_KEY : option string;
  GOVERNANCE_PRIVATE_KEY : option string;
  TREASURY_PRIVATE_KEY : option string
}.

Section Deployment.

(** The address a contract created by [sender] with [nonce] gets; it is
    also what [Account.get_deployment_address(nonce)] computes. *)
Variable get_deployment_address : string -> Z -> string.

(** The address of the account of a private key.  Every key is taken to
    be well formed: the error [accounts.add] raises on a malformed key is
    outside the model. *)
Variable address_of_key : string -> string.

(** [accounts.add(private_key)] for a configured key: the account is
    appended unless one with its address is there already. *)
Definition accounts_add (accounts : list string) (private_key : option string)
  : list string :=
  match private_key with
  | None => accounts
  | Some k =>
      if existsb (String.eqb (address_of_key k)) accounts then accounts
      else (accounts ++ [address_of_key k])%list
  end.

(** [accounts[i]] *)
Definition account (accounts : list string) (i : nat) : M string :=
  match nth_error accounts i with
  | Some a => mret a
  | None => mfail (NoSuchAccount i)
  end.

(** Submit a transaction with an explicit nonce.  The model's chain
    refuses a transaction for its nonce only; a deployment or call that
    reverts, and a source verification that fails after the deployment,
    are outside the model, as are the loading of the project and of
    [LensHub.json].  What is proved of a run is therefore about what [main]
    sends and writes as far as it gets. *)
Definition submit (sender : string) (nonce : Z) (what : tx_kind)
    (created : option string) : M unit :=
  fun w =>
    if nonce =? getTransactionCount w sender then
      (inr tt, record_tx {| tx_from := sender; tx_nonce := nonce;
                            tx_what := what; tx_created := created |} w)
    else (inl (TransactionOrderingError sender nonce (getTransactionCount w sender)), w).

(** [Container.deploy(args..., {"from": sender, "nonce": nonce}, publish_source=...)]:
    the address of the new contract *)
Definition deploy (contract : string) (args : list arg) (sender : string) (nonce : Z)
    (publish_source : bool) : M string :=
  let address := get_deployment_address sender nonce in
  submit sender nonce (Create contract args publish_source) (Some address) ;;;
  mret address.

(** [target.method(args..., {"from": sender, "nonce": nonce})] *)
Definition transact (target method : string) (args : list arg) (sender : string)
    (nonce : Z) : M unit :=
  submit sender nonce (Call target method args) None.

(** [main()] *)
Definition main (cfg : settings) : M unit :=
  (* Connect to the network *)
  (if is_connected cfg then print ("Connected to network: " ++ NETWORK_ID cfg)
   else mfail (NotConnected ("Could not connect to network: " ++ NETWORK_ID cfg))) ;;;
  (* Add accounts to the project from the environment variables *)
  let accounts :=
    fold_left accounts_add
      [DEPLOYER_PRIVATE_KEY cfg; GOVERNANCE_PRIVATE_KEY cfg; TREASURY_PRIVATE_KEY cfg]
      (network_accounts cfg) in
  deployer <- account accounts 0 ;;
  governance <- account accounts 1 ;;
  treasuryAddress <- account accounts 2 ;;
  let proxyAdminAddress := deployer in
  let profileCreatorAddress := deployer in
  let verify := CONTRACT_VERIFICATION cfg in
  (* Get the nonce of deployer *)
  deployerNonce <- transaction_count deployer ;;
  (* Deploy the Module Globals *)
  print "-- Deploying Module Globals" ;;;
  moduleGlobals <- deploy "ModuleGlobals"
                     [Addr governance; Addr treasuryAddress; Int TREASURY_FEE_BPS]
                     deployer deployerNonce verify ;;
  let deployerNonce := deployerNonce + 1 in
  (* Deploying Logic Libs *)
  print "-- Deploying Logic Libs" ;;;
  publishingLogic <- deploy "PublishingLogic" [] deployer deployerNonce verify ;;
  let deployerNonce := deployerNonce + 1 in
  interactionLogic <- deploy "InteractionLogic" [] deployer deployerNonce verify ;;
  let deployerNonce := deployerNonce + 1 in
  profileTokenURILogic <- deploy "ProfileTokenURILogic" [] deployer deployerNonce verify ;;
  let deployerNonce := deployerNonce + 1 in
  (* Updating the LensHub Bytecode to replace the Logic Libs addresses *)
  rewrite_LensHub_json
    (patch_libraries publishingLogic interactionLogic profileTokenURILogic) ;;;
  (* Here, we pre-compute the nonces and addresses used to deploy the contracts. *)
  let followNFTNonce := deployerNonce + 1 in
  let collectNFTNonce := deployerNonce + 2 in
  let hubProxyNonce := deployerNonce + 3 in
  let followNFTImplAddress := get_deployment_address deployer followNFTNonce in
  let collectNFTImplAddress := get_deployment_address deployer collectNFTNonce in
  let hubProxyAddress := get_deployment_address deployer hubProxyNonce in
  print "-- Deploying Hub Implementation" ;;;
  lensHubImpl <- deploy "LensHub"
                   [Addr followNFTImplAddress; Addr collectNFTImplAddress]
                   deployer deployerNonce verify ;;
  let deployerNonce := deployerNonce + 1 in
  print "-- Deploying Follow & Collect NFT Implementations" ;;;
  deploy "FollowNFT" [Addr hubProxyAddress] deployer deployerNonce verify ;;;
  let deployerNonce := deployerNonce + 1 in
  deploy "CollectNFT" [Addr hubProxyAddress] deployer deployerNonce verify ;;;
  let deployerNonce := deployerNonce + 1 in
  print "-- Deploying Hub Proxy" ;;;
  let data_lh_init :=
    Encoded "initialize" [LENS_HUB_NFT_NAME; LENS_HUB_NFT_SYMBOL; governance] in
  proxy <- deploy "TransparentUpgradeableProxy"
             [Addr lensHubImpl; Addr proxyAdminAddress; data_lh_init]
             deployer deployerNonce false ;;
  let deployerNonce := deployerNonce + 1 in
  (* Connect the hub proxy to the LensHub factory *)
  let lensHub := proxy in
  print "-- Deploying Lens Periphery" ;;;
  lensPeriphery <- deploy "LensPeriphery" [Addr lensHub] deployer deployerNonce false ;;
  let deployerNonce := deployerNonce + 1 in
  print "-- Deploying Currency" ;;;
  currency <- deploy "Currency" [] deployer deployerNonce false ;;
  let deployerNonce := deployerNonce + 1 in
  (* Deploy Collect modules *)
  print "-- Deploying feeCollectModule" ;;;
  feeCollectModule <- deploy "FeeCollectModule" [Addr lensHub; Addr moduleGlobals]
                        deployer deployerNonce false ;;
  let deployerNonce := deployerNonce + 1 in
  print "-- Deploying limitedFeeCollectModule" ;;;
  limitedFeeCollectModule <- deploy "LimitedFeeCollectModule"
                               [Addr lensHub; Addr moduleGlobals]
                               deployer deployerNonce false ;;
  let deployerNonce := deployerNonce + 1 in
  print "-- Deploying timedFeeCollectModule" ;;;
  timedFeeCollectModule <- deploy "TimedFeeCollectModule"
                             [Addr lensHub; Addr moduleGlobals]
                             deployer deployerNonce false ;;
  let deployerNonce := deployerNonce + 1 in
  print "-- Deploying limitedTimedFeeCollectModule" ;;;
  limitedTimedFeeCollectModule <- deploy "LimitedTimedFeeCollectModule"
                                    [Addr lensHub; Addr moduleGlobals]
                                    deployer deployerNonce false ;;
  let deployerNonce := deployerNonce + 1 in
  print "-- Deploying revertCollectModule" ;;;
  revertCollectModule <- deploy "RevertCollectModule" [] deployer deployerNonce false ;;
  let deployerNonce := deployerNonce + 1 in
  print "-- Deploying freeCollectModule" ;;;
  freeCollectModule <- deploy "FreeCollectModule" [Addr lensHub]
                         deployer deployerNonce false ;;
  let deployerNonce := deployerNonce + 1 in
  (* Deploy Follow modules *)
  print "-- Deploying feeFollowModule" ;;;
  feeFollowModule <- deploy "FeeFollowModule" [Addr lensHub; Addr moduleGlobals]
                       deployer deployerNonce false ;;
  let deployerNonce := deployerNonce + 1 in
  print "-- Deploying profileFollowModule" ;;;
  profileFollowModule <- deploy "ProfileFollowModule" [Addr lensHub]
                           deployer deployerNonce false ;;
  let deployerNonce := deployerNonce + 1 in
  print "-- Deploying revertFollowModule" ;;;
  revertFollowModule <- deploy "RevertFollowModule" [Addr lensHub]
                          deployer deployerNonce false ;;
  let deployerNonce := deployerNonce + 1 in
  (* Deploy reference module *)
  print "-- Deploying followerOnlyReferenceModule" ;;;
  followerOnlyReferenceModule <- deploy "FollowerOnlyReferenceModule" [Addr lensHub]
                                   deployer deployerNonce false ;;
  let deployerNonce := deployerNonce + 1 in
  (* Deploy UIDataProvider *)
  print "-- Deploying followerOnlyReferenceModule" ;;;
  uiDataProvider <- deploy "UIDataProvider" [Addr lensHub] deployer deployerNonce false ;;
  let deployerNonce := deployerNonce + 1 in
  print "-- Deploying profileCreationProxy" ;;;
  profileCreationProxy <- deploy "ProfileCreationProxy"
                            [Addr profileCreatorAddress; Addr lensHub]
                            deployer deployerNonce false ;;
  let deployerNonce := deployerNonce + 1 in
  (* Whitelist collect modules *)
  print "-- Whitelisting collect modules" ;;;
  governanceNonce <- transaction_count governance ;;
  transact lensHub "whitelistCollectModule" [Addr feeCollectModule; Flag true]
    governance governanceNonce ;;;
  let governanceNonce := governanceNonce + 1 in
  transact lensHub "whitelistCollectModule" [Addr limitedFeeCollectModule; Flag true]
    governance governanceNonce ;;;
  let governanceNonce := governanceNonce + 1 in
  transact lensHub "whitelistCollectModule" [Addr timedFeeCollectModule; Flag true]
    governance governanceNonce ;;;
  let governanceNonce := governanceNonce + 1 in
  transact lensHub "whitelistCollectModule" [Addr limitedTimedFeeCollectModule; Flag true]
    governance governanceNonce ;;;
  let governanceNonce := governanceNonce + 1 in
  transact lensHub "whitelistCollectModule" [Addr revertCollectModule; Flag true]
    governance governanceNonce ;;;
  let governanceNonce := governanceNonce + 1 in
  transact lensHub "whitelistCollectModule" [Addr freeCollectModule; Flag true]
    governance governanceNonce ;;;
  let governanceNonce := governanceNonce + 1 in
  print "-- Whitelisting follow modules" ;;;
  transact lensHub "whitelistFollowModule" [Addr feeFollowModule; Flag true]
    governance governanceNonce ;;;
  let governanceNonce := governanceNonce + 1 in
  transact lensHub "whitelistFollowModule" [Addr profileFollowModule; Flag true]
    governance governanceNonce ;;;
  let governanceNonce := governanceNonce + 1 in
  transact lensHub "whitelistFollowModule" [Addr revertFollowModule; Flag true]
    governance governanceNonce ;;;
  let governanceNonce := governanceNonce + 1 in
  print "-- Whitelisting reference modules" ;;;
  transact lensHub "whitelistReferenceModule" [Addr followerOnlyReferenceModule; Flag true]
    governance governanceNonce ;;;
  let governanceNonce := governanceNonce + 1 in
  (* Whitelist Currency *)
  print "-- Whitelisting Currency in Module Globals" ;;;
  transact moduleGlobals "whitelistCurrency" [Addr currency; Flag true]
    governance governanceNonce ;;;
  let governanceNonce := governanceNonce + 1 in
  (* Whitelist the profile creation proxy *)
  print "-- Whitelisting Profile Creation Proxy" ;;;
  transact lensHub "whitelistProfileCreator" [Addr profileCreationProxy; Flag true]
    governance governanceNonce ;;;
  let governanceNonce := governanceNonce + 1 in
  let lenshubAddresses :=
    [("lensHub proxy", lensHub);
     ("lensHub impl:", lensHubImpl);
     ("publishing logic lib", publishingLogic);
     ("interaction logic lib", interactionLogic);
     ("follow NFT impl", followNFTImplAddress);
     ("collect NFT impl", collectNFTImplAddress);
     ("currency", currency);
     ("lens periphery", lensPeriphery);
     ("module globals", moduleGlobals);
     ("fee collect module", feeCollectModule);
     ("limited fee collect module", limitedFeeCollectModule);
     ("timed fee collect module", timedFeeCollectModule);
     ("limited timed fee collect module", limitedTimedFeeCollectModule);
     ("revert collect module", revertCollectModule);
     ("free collect module", freeCollectModule);
     ("fee follow module", feeFollowModule);
     ("profile follow module", profileFollowModule);
     ("revert follow module", revertFollowModule);
     ("follower only reference module", followerOnlyReferenceModule);
     ("UI data provider", uiDataProvider);
     ("Profile creation proxy", profileCreationProxy)] in
  dump_addresses ("build/lenshubAddresses-" ++ NETWORK_ID cfg ++ ".json") lenshubAddresses.

End Deployment.

(** A chain state and the bytecode on disk, before the script runs. *)
Definition initial_world (counts : string -> Z) (deployedBytecode : string) : world :=
  {| getTransactionCount := counts;
     sent := [];
     LensHub_deployedBytecode := deployedBytecode;
     lenshubAddresses_file := None;
     stdout := [] |}.

(** ** Sample inputs *)

Definition etherscan_env (explorer_url : string) (key : option string) : environment :=
  {| explorer := Some explorer_url;
     _explorer_tokens := [("etherscan", "ETHERSCAN_TOKEN"); ("bscscan", "BSCSCAN_TOKEN")];
     getenv := fun k => if String.eqb k "ETHERSCAN_TOKEN" then key else None |}.

Definition sample_build (language : string) : build :=
  {| language := language;
     contractName := "LensHub";
     compiler := {| version := "0.8.10"; optimizer_enabled := true;
                    optimizer_runs := 200; evm_version := "london" |};
     bytecode := "aaaaaaaaaa";
     sourcePath := "contracts/core/LensHub.sol" |}.

Definition sample_flattener : flattener :=
  {| standard_input_json := "{}"; license := "MIT";
     contract_file := "LensHub.sol"; contract_name := "LensHub" |}.

Definition sample_container (language : string) : container :=
  {| _build := sample_build language;
     _flattener := None;
     Flattener := inr sample_flattener |}.

(** What [get_verification_info] returns for the sample container. *)
Definition sample_info : verification_info :=
  {| info_standard_json_input := "{}";
     info_contract_name := "LensHub";
     info_compiler_version := "0.8.10";
     info_optimizer_enabled := true;
     info_optimizer_runs := 200;
     license_identifier := "MIT";
     bytecode_len := 10 |}.

Definition reply (code : Z) (st msg : string) (res : pyval) : response :=
  {| status_code := code; text := EmptyString;
     json := {| status := st; message := msg; result := res |} |}.

Definition not_found : response := reply 200 "0" "No transactions found" (PList []).

Definition found (input : string) : response :=
  reply 200 "1" "OK" (PList [{| input := input |}]).

Definition sample_settings : settings :=
  {| NETWORK_ID := "live";
     CONTRACT_VERIFICATION := false;
     is_connected := true;
     network_accounts := ["0xD"; "0xG"; "0xT"];
     DEPLOYER_PRIVATE_KEY := None;
     GOVERNANCE_PRIVATE_KEY := None;
     TREASURY_PRIVATE_KEY := None |}.

Definition sample_counts (a : string) : Z :=
  if String.eqb a "0xD" then 7 else 0.

Definition sample_create (sender : string) (nonce : Z) : string :=
  sender ++ "#" ++ String (ascii_of_nat (Z.to_nat nonce + 48)) EmptyString.

Definition sample_library (digit : ascii) : string :=
  "0x" ++ "00000000000000000000000000000000000000A" ++ String digit EmptyString.

(** ** Views of a trace *)

Definition is_print (e : event) : bool :=
  match e with Print _ => true | _ => false end.

(** A trace without what was printed. *)
Definition quiet (tr : trace) : trace := filter (fun e => negb (is_print e)) tr.

(** The HTTP requests of a trace, in order. *)
Definition http (tr : trace) : list request :=
  flat_map (fun e => match e with Http r => [r] | _ => [] end) tr.

(** Two runs that differ in printing only: the same outcome, and the
    second trace is the first without its prints. *)
Definition same_but_prints {A} (loud silent : run A) : Prop :=
  fst loud = fst silent /\ quiet (snd loud) = snd silent.

(** A reply to the POST that the explorer did not accept: HTTP 200 with an
    integer status other than 1. *)
Definition is_rejected (r : response) : bool := is_not_indexed r.

(** A reply that did not get through: any HTTP status but 200. *)
Definition is_http_error (r : response) : bool := negb (status_code r =? 200).


(** ** Views of a deployment log *)

(** [creates log contract address]: a transaction of the log deployed
    [contract] and the contract got [address]. *)
Definition creates (log : list sent_tx) (contract address : string) : Prop :=
  exists t args publish,
    In t log /\ tx_what t = Create contract args publish /\
    tx_created t = Some address.

(** ** The module-level configuration of [full_deploy.py] *)

(** [os.getenv(name, default)] *)
Definition getenv_default (getenv : string -> option string) (name default : string)
  : string :=
  match getenv name with
  | Some value => value
  | None => default
  end.

(** What [distutils.util.strtobool] raises: ValueError, invalid truth
    value, with the lowercased value. *)
Inductive config_error :=
| InvalidTruthValue (val : string).

Definition truthy : list string := ["y"; "yes"; "t"; "true"; "on"; "1"].
Definition falsy : list string := ["n"; "no"; "f"; "false"; "off"; "0"].

(** [distutils.util.strtobool(val)]; its results 1 and 0 are used for
    their truth only and are given as [true] and [false]. *)
Definition strtobool (val : string) : config_error + bool :=
  let val := PyStr.lower val in
  if existsb (String.eqb val) truthy then inr true
  else if existsb (String.eqb val) falsy then inr false
  else inl (InvalidTruthValue val).

(** The assignments at the top of the script, in their order, for an
    environment [getenv]; the state of the connection and the accounts of
    the node complete the settings [main] runs with. *)
Definition module_settings (getenv : string -> option string) (connected : bool)
    (node_accounts : list string) : config_error + settings :=
  let NETWORK_ID := getenv_default getenv "NETWORK_ID" "live" in
  let NETWORK_TYPE := getenv_default getenv "NETWORK_TYPE" "local" in
  match strtobool (getenv_default getenv "CONTRACT_VERIFICATION" "True") with
  | inl e => inl e
  | inr CONTRACT_VERIFICATION =>
      let DEPLOYER_PRIVATE_KEY := getenv "DEPLOYER_PRIVATE_KEY" in
      let GOVERNANCE_PRIVATE_KEY := getenv "GOVERNANCE_PRIVATE_KEY" in
      let TREASURY_PRIVATE_KEY := getenv "TREASURY_PRIVATE_KEY" in
      let CONTRACT_VERIFICATION :=
        if String.eqb NETWORK_TYPE "local" then false else CONTRACT_VERIFICATION in
      inr {| NETWORK_ID := NETWORK_ID;
             CONTRACT_VERIFICATION := CONTRACT_VERIFICATION;
             is_connected := connected;
             network_accounts := node_accounts;
             DEPLOYER_PRIVATE_KEY := DEPLOYER_PRIVATE_KEY;
             GOVERNANCE_PRIVATE_KEY := GOVERNANCE_PRIVATE_KEY;
             TREASURY_PRIVATE_KEY := TREASURY_PRIVATE_KEY |}
  end.

(** An environment with the two variables that decide on verification. *)
Definition sample_getenv (network_type contract_verification : option string)
    (name : string) : option string :=
  if String.eqb name "NETWORK_TYPE" then network_type
  else if String.eqb name "CONTRACT_VERIFICATION" then contract_verification
  else None.

(** Well-formed addresses for the contracts of a sender. *)
Definition sample_address (sender : string) (nonce : Z) : string :=
  sample_library (ascii_of_nat (Z.to_nat (nonce mod 10) + 48)).

(** The sample settings with private keys configured as well. *)
Definition keyed_settings : settings :=
  {| NETWORK_ID := "live";
     CONTRACT_VERIFICATION := false;
     is_connected := true;
     network_accounts := ["0xD"; "0xG"; "0xT"];
     DEPLOYER_PRIVATE_KEY := Some "0xK1";
     GOVERNANCE_PRIVATE_KEY := Some "0xK2";
     TREASURY_PRIVATE_KEY := None |}.

(** A node without accounts; the keys stand for their own addresses. *)
Definition keys_only_settings : settings :=
  {| NETWORK_ID := "live";
     CONTRACT_VERIFICATION := false;
     is_connected := true;
     network_accounts := [];
     DEPLOYER_PRIVATE_KEY := Some "0xD";
     GOVERNANCE_PRIVATE_KEY := Some "0xG";
     TREASURY_PRIVATE_KEY := Some "0xT" |}.

(** A node with two accounts and no key configured. *)
Definition two_account_settings : settings :=
  {| NETWORK_ID := "live";
     CONTRACT_VERIFICATION := false;
     is_connected := true;
     network_accounts := ["0xD"; "0xG"];
     DEPLOYER_PRIVATE_KEY := None;
     GOVERNANCE_PRIVATE_KEY := None;
     TREASURY_PRIVATE_KEY := None |}.
(** * Properties *)

(** ** Facts about the string primitives *)

Module PyStrFacts.
Import PyStr.

Local Open Scope nat_scope.

Lemma append_nil_r (s : string) : s ++ EmptyString = s.
Proof. induction s as [|a s IH]; simpl; [reflexivity | now rewrite IH]. Qed.

Lemma append_assoc (a b c : string) : (a ++ b) ++ c = a ++ (b ++ c).
Proof. induction a as [|x a IH]; simpl; [reflexivity | now rewrite IH]. Qed.

Lemma length_append (a b : string) :
  String.length (a ++ b) = String.length a + String.length b.
Proof. induction a as [|x a IH]; simpl; [reflexivity | now rewrite IH]. Qed.

Lemma startswith_app (p s : string) : startswith p (p ++ s) = true.
Proof.
  induction p as [|a p IH]; simpl; [reflexivity|].
  now rewrite Ascii.eqb_refl, IH.
Qed.

Lemma startswith_split (p s : string) :
  startswith p s = true -> exists r, s = p ++ r.
Proof.
  revert s; induction p as [|a p IH]; intros s H.
  - now exists s.
  - destruct s as [|b s]; simpl in H; [discriminate|].
    apply andb_true_iff in H as [Hab Hp].
    apply Ascii.eqb_eq in Hab; subst b.
    destruct (IH _ Hp) as [r ->]. now exists r.
Qed.

Lemma startswith_refl (p : string) : startswith p p = true.
Proof. rewrite <- (append_nil_r p) at 2. apply startswith_app. Qed.

(** A prefix no longer than [a] of [a ++ b] is a prefix of [a]. *)
Lemma startswith_app_short (w a b : string) :
  String.length w <= String.length a ->
  startswith w (a ++ b) = true -> startswith w a = true.
Proof.
  revert a; induction w as [|x w IH]; intros a Hlen H; [reflexivity|].
  destruct a as [|y a]; simpl in Hlen; [lia|].
  simpl in *. apply andb_true_iff in H as [Hxy Hw].
  rewrite Hxy; simpl. apply IH; [lia | assumption].
Qed.

Lemma startswith_last_mem (w a : string) (c : ascii) :
  last w = Some c -> startswith w a = true -> mem c a = true.
Proof.
  revert a; induction w as [|x w IH]; intros a Hl H; [discriminate|].
  destruct a as [|y a]; simpl in H; [discriminate|].
  apply andb_true_iff in H as [Hxy Hw].
  apply Ascii.eqb_eq in Hxy; subst y.
  destruct w as [|x' w].
  - simpl in Hl. injection Hl as ->. simpl. now rewrite Ascii.eqb_refl.
  - simpl. rewrite (IH a Hl Hw). apply orb_true_r.
Qed.

Lemma contains_cons (w : string) (a : ascii) (s : string) :
  contains w (String a s) = startswith w (String a s) || contains w s.
Proof. reflexivity. Qed.

(** A word whose first character does not occur in [a] cannot start
    inside [a]. *)
Lemma contains_app_head (w a b : string) (c : ascii) :
  head w = Some c -> mem c a = false ->
  contains w (a ++ b) = contains w b.
Proof.
  intros Hh; induction a as [|x a IH]; intros Hm; [reflexivity|].
  simpl in Hm. apply orb_false_iff in Hm as [Hcx Hm].
  simpl append. rewrite contains_cons, (IH Hm).
  destruct w as [|y w]; [discriminate|].
  simpl in Hh; injection Hh as ->.
  simpl. now rewrite Hcx.
Qed.

Lemma scan_skip (old new u s : string) :
  replace_scan old new (String.length u) (u ++ s) = replace_scan old new 0 s.
Proof. induction u as [|a u IH]; simpl; [reflexivity | exact IH]. Qed.

(** An occurrence at the front is replaced and the scan goes on behind it. *)
Lemma scan_match (old new rest : string) :
  old <> EmptyString ->
  replace_scan old new 0 (old ++ rest) = new ++ replace_scan old new 0 rest.
Proof.
  intros Hne. destruct old as [|a o]; [congruence|].
  pose proof (startswith_app (String a o) rest) as Hs.
  simpl append in *. cbn [replace_scan]. rewrite Hs. f_equal.
  replace (String.length (String a o) - 1) with (String.length o)
    by (simpl; lia).
  apply scan_skip.
Qed.

Section Replace.

Variables old new : string.

Local Abbreviation scan := (replace_scan old new).

Lemma scan_nomatch (a : ascii) (s : string) :
  startswith old (String a s) = false ->
  scan 0 (String a s) = String a (scan 0 s).
Proof. intros H. cbn [replace_scan]. now rewrite H. Qed.

(** A text without [old] is left as it is. *)
Lemma scan_absent (s : string) :
  contains old s = false -> scan 0 s = s.
Proof.
  induction s as [|a s IH]; intros H; [reflexivity|].
  rewrite contains_cons in H. apply orb_false_iff in H as [H1 H2].
  rewrite (scan_nomatch _ _ H1). now rewrite (IH H2).
Qed.

(** Text free of the first character of [old] is copied. *)
Lemma scan_copy (c : ascii) (h rest : string) :
  head old = Some c -> mem c h = false ->
  scan 0 (h ++ rest) = h ++ scan 0 rest.
Proof.
  intros Hh; induction h as [|a h IH]; intros Hm; [reflexivity|].
  simpl in Hm. apply orb_false_iff in Hm as [Hca Hm].
  simpl append. rewrite scan_nomatch.
  - now rewrite (IH Hm).
  - destruct old as [|x o]; [discriminate|].
    simpl in Hh; injection Hh as ->. simpl. now rewrite Hca.
Qed.

Section Word.

(** A word [w] that ends in a character [c] foreign to [new]. *)
Variable c : ascii.
Hypothesis new_free : mem c new = false.

Lemma startswith_scan (s w : string) :
  last w = Some c ->
  String.length w <= String.length new ->
  startswith w (scan 0 s) = true -> startswith w s = true.
Proof.
  revert w; induction s as [|a s IH]; intros w Hl Hlen H; [exact H|].
  cbn [replace_scan] in H.
  destruct (startswith old (String a s)) eqn:E.
  - apply startswith_app_short in H; [|assumption].
    rewrite (startswith_last_mem _ _ _ Hl H) in new_free. discriminate.
  - destruct w as [|b w]; [reflexivity|].
    simpl in H |- *. apply andb_true_iff in H as [Hba Hw].
    rewrite Hba; simpl.
    destruct w as [|b' w]; [reflexivity|].
    apply IH; [exact Hl | simpl in *; lia | exact Hw].
Qed.

Lemma startswith_cons_scan (a : ascii) (s w : string) :
  last w = Some c ->
  String.length w <= String.length new + 1 ->
  startswith w (String a (scan 0 s)) = true ->
  startswith w (String a s) = true.
Proof.
  intros Hl Hlen H.
  destruct w as [|b w]; [reflexivity|].
  simpl in H |- *. apply andb_true_iff in H as [Hba Hw].
  rewrite Hba; simpl.
  destruct w as [|b' w]; [reflexivity|].
  apply startswith_scan; [exact Hl | simpl in *; lia | exact Hw].
Qed.

(** A word absent from the text is absent from the result. *)
Lemma absent_scan (w s : string) (k : nat) :
  head w = Some c -> last w = Some c ->
  String.length w <= String.length new + 1 ->
  contains w s = false ->
  contains w (scan k s) = false.
Proof.
  intros Hh Hl Hlen. revert k; induction s as [|a s IH]; intros k H.
  - destruct k; exact H.
  - rewrite contains_cons in H. apply orb_false_iff in H as [H1 H2].
    destruct k as [|k]; cbn [replace_scan]; [|now apply IH].
    destruct (startswith old (String a s)) eqn:E.
    + rewrite (contains_app_head _ _ _ _ Hh new_free). now apply IH.
    + rewrite contains_cons, (IH 0 H2), orb_false_r.
      destruct (startswith w (String a (scan 0 s))) eqn:F; [|reflexivity].
      rewrite (startswith_cons_scan _ _ _ Hl Hlen F) in H1. discriminate.
Qed.

(** After the scan no occurrence of [old] is left. *)
Lemma scan_removes (s : string) (k : nat) :
  head old = Some c -> last old = Some c ->
  String.length old <= String.length new + 1 ->
  contains old (scan k s) = false.
Proof.
  intros Hh Hl Hlen. revert k; induction s as [|a s IH]; intros k.
  - destruct k; simpl; destruct old; [discriminate | reflexivity | discriminate | reflexivity].
  - destruct k as [|k]; cbn [replace_scan]; [|now apply IH].
    destruct (startswith old (String a s)) eqn:E.
    + rewrite (contains_app_head _ _ _ _ Hh new_free). now apply IH.
    + rewrite contains_cons, (IH 0), orb_false_r.
      destruct (startswith old (String a (scan 0 s))) eqn:F; [|reflexivity].
      rewrite (startswith_cons_scan _ _ _ Hl Hlen F) in E. discriminate.
Qed.

End Word.

End Replace.

(** [drop] cuts a prefix of the requested length, or the whole text. *)
Lemma drop_suffix (n : nat) (s : string) :
  exists pre, s = pre ++ drop n s /\ String.length pre = Nat.min n (String.length s).
Proof.
  revert s; induction n as [|n IH]; intros s.
  - now exists EmptyString.
  - destruct s as [|a s]; [now exists EmptyString|].
    destruct (IH s) as [pre [E L]].
    exists (String a pre); simpl; split; [now rewrite <- E | now rewrite L].
Qed.

Lemma length_drop (n : nat) (s : string) :
  String.length (drop n s) = String.length s - n.
Proof.
  revert s; induction n as [|n IH]; intros s; simpl; [lia|].
  destruct s as [|a s]; simpl; [reflexivity | apply IH].
Qed.

End PyStrFacts.

(** ** License classification *)

Ltac guard_step :=
  match goal with
  | |- context [if ?b && _ then _ else _] => destruct b eqn:?; simpl andb
  | |- context [if ?b then _ else _] => destruct b eqn:?
  | |- context [match (if ?b then _ else _) with _ => _ end] => destruct b eqn:?
  end.

Ltac split_on_guards :=
  repeat match goal with
         | |- context [if ?b && _ then _ else _] => destruct b; simpl andb
         | |- context [if ?b then _ else _] => destruct b
         | |- context [match (if ?b then _ else _) with _ => _ end] => destruct b
         end.

Lemma license_code_refines (license_identifier : string) :
  license_code license_identifier
  = classify_by_priority license_priority license_identifier.
Proof.
  unfold license_code, classify_by_priority, license_priority, default_license_code.
  cbn [find rule_applies rule_code fst snd].
  generalize (PyStr.lower license_identifier) as identifier; intros identifier.
  repeat (guard_step;
          cbn [find rule_applies rule_code fst snd andb];
          repeat match goal with
                 | H : ?x = _ |- context [?x] => rewrite H
                 end;
          cbn [find rule_applies rule_code fst snd andb]);
    reflexivity.
Qed.

(** C2, as the code has it: the classification is a function of the
    lower-cased identifier alone and follows the priority list unlicensed
    (2), MIT (3), AGPL with 3.0 (13), LGPL (2.1 gives 6, 3.0 gives 7,
    otherwise the default), GPL (2.0 gives 4, 3.0 gives 5, otherwise the
    default), BSD-2-Clause (8), BSD-3-Clause (9), MPL with 2.0 (10), OSL as
    a prefix with 3.0 (11), Apache with 2.0 (12), default 1.  Versions are
    matched as the literal text 2.0, 2.1 or 3.0, so "GNU GPLv3 only" gets
    the default 1; "MIT License" gets 3, "SPDX: Unlicensed" 2 and "Weird
    custom text" 1. *)
Theorem license_classification :
  (forall license_identifier,
      license_code license_identifier
      = classify_by_priority license_priority license_identifier) /\
  license_code "MIT License" = 3 /\
  license_code "GNU GPLv3 only" = 1 /\
  license_code "SPDX: Unlicensed" = 2 /\
  license_code "Weird custom text" = 1.
Proof.
  split; [exact license_code_refines|].
  repeat split; reflexivity.
Qed.

(** C2 as stated fails: "GNU GPLv3 only" names the GPL family but carries
    no literal 3.0, and an OSL identifier is only recognised at the start
    of the text. *)
Lemma license_gplv3_counterexample :
  license_code "GNU GPLv3 only" <> 5 /\
  license_code "GNU GPLv3 only" = 1 /\
  PyStr.contains "osl" (PyStr.lower "SPDX: OSL-3.0") = true /\
  license_code "SPDX: OSL-3.0" = 1.
Proof. repeat split; try reflexivity. discriminate. Qed.

(** C10, as the code has it: among identifiers that contain neither
    "unlicensed" nor "mit", one with "lgpl" but neither "2.1" nor "3.0", and
    one with "gpl" (and neither "agpl" nor "lgpl") but neither "2.0" nor
    "3.0", get the default code 1; and no identifier containing "lgpl" ever
    gets a code of the generic GPL branch (4 or 5). *)
Theorem license_family_without_version (license_identifier : string) :
  let identifier := PyStr.lower license_identifier in
  (PyStr.contains "unlicensed" identifier = false ->
   PyStr.contains "mit" identifier = false ->
   PyStr.contains "lgpl" identifier = true ->
   PyStr.contains "2.1" identifier = false ->
   PyStr.contains "3.0" identifier = false ->
   license_code license_identifier = 1) /\
  (PyStr.contains "unlicensed" identifier = false ->
   PyStr.contains "mit" identifier = false ->
   PyStr.contains "gpl" identifier = true ->
   PyStr.contains "agpl" identifier = false ->
   PyStr.contains "lgpl" identifier = false ->
   PyStr.contains "2.0" identifier = false ->
   PyStr.contains "3.0" identifier = false ->
   license_code license_identifier = 1) /\
  (PyStr.contains "lgpl" identifier = true ->
   license_code license_identifier <> 4 /\ license_code license_identifier <> 5).
Proof.
  unfold license_code. cbv zeta.
  generalize (PyStr.lower license_identifier) as identifier; intros identifier.
  split; [|split].
  - intros -> -> -> -> ->. now rewrite andb_false_r.
  - intros -> -> -> -> -> -> ->. reflexivity.
  - intros ->. split; split_on_guards; discriminate.
Qed.

Lemma license_family_without_version_witness :
  license_code "LGPL-2.0-only" = 1 /\
  license_code "GPL-1.0-or-later" = 1 /\
  license_code "LGPL-3.0-only" <> 4.
Proof.
  split; [|split].
  - apply (proj1 (license_family_without_version "LGPL-2.0-only")); reflexivity.
  - apply (proj1 (proj2 (license_family_without_version "GPL-1.0-or-later"))); reflexivity.
  - refine (proj1 (proj2 (proj2 (license_family_without_version "LGPL-3.0-only")) _)).
    reflexivity.
Defined.

(** C10 as stated fails: the earlier rules of the priority list win. *)
Lemma license_lgpl_counterexample :
  let identifier := PyStr.lower "MIT OR LGPL-2.0-only" in
  PyStr.contains "lgpl" identifier = true /\
  PyStr.contains "2.1" identifier = false /\
  PyStr.contains "3.0" identifier = false /\
  license_code "MIT OR LGPL-2.0-only" = 3 /\
  license_code "MIT OR LGPL-2.0-only" <> 1.
Proof. repeat split; try reflexivity. discriminate. Qed.

(** ** The verification client *)

Section Traces.

Local Open Scope list_scope.

Lemma requests_app (tr1 tr2 : trace) :
  requests (tr1 ++ tr2) = (requests tr1 + requests tr2)%nat.
Proof. unfold requests. now rewrite filter_app, length_app. Qed.

Lemma sleeps_app (tr1 tr2 : trace) : sleeps (tr1 ++ tr2) = sleeps tr1 ++ sleeps tr2.
Proof. unfold sleeps. now rewrite flat_map_app. Qed.

Lemma posts_app (tr1 tr2 : trace) : posts (tr1 ++ tr2) = posts tr1 ++ posts tr2.
Proof. unfold posts. now rewrite flat_map_app. Qed.

Lemma after_after {A} (e1 e2 : trace) (r : run A) :
  after e1 (after e2 r) = after (e1 ++ e2) r.
Proof. unfold after; simpl. now rewrite app_assoc. Qed.

Lemma bind_returned {A B} (a : A) (tr : trace) (k : A -> run B) :
  bind (Returned a, tr) k = after tr (k a).
Proof. reflexivity. Qed.

Lemma bind_raised {A B} (e : exn) (tr : trace) (k : A -> run B) :
  bind (Raised e, tr) k = (Raised e, tr).
Proof. reflexivity. Qed.

Lemma bind_after {A B} (evs : trace) (m : run A) (k : A -> run B) :
  bind (after evs m) k = after evs (bind m k).
Proof.
  destruct m as [[a| e |] tr]; unfold bind, after; simpl;
    now rewrite ?app_assoc.
Qed.

End Traces.

Section Indexing.

Variables (url : string) (params : txlist_params) (silent : bool).

Lemma is_not_indexed_inv (r : response) :
  is_not_indexed r = true ->
  (status_code r =? 200) = true /\
  exists st, Py.int (status (json r)) = Some st /\ (st =? 1) = false.
Proof.
  unfold is_not_indexed, status_is_one. intros H.
  apply andb_true_iff in H as [H1 H2]. split; [exact H1|].
  destruct (Py.int (status (json r))) as [st|]; [|discriminate].
  exists st. split; [reflexivity|]. now apply negb_true_iff in H2.
Qed.

Lemma is_indexed_inv (r : response) :
  is_indexed r = true ->
  (status_code r =? 200) = true /\ Py.int (status (json r)) = Some 1.
Proof.
  unfold is_indexed, status_is_one. intros H.
  apply andb_true_iff in H as [H1 H2]. split; [exact H1|].
  destruct (Py.int (status (json r))) as [st|]; [|discriminate].
  simpl in H2. apply Z.eqb_eq in H2. now subst.
Qed.

(** A reply that breaks the loop. *)
Lemma await_indexing_indexed (i : Z) (r : response) (rest : list response) :
  is_indexed r = true ->
  await_indexing url params silent i (r :: rest)
  = (Returned (json r, rest), [Http (GetTxList url params)]).
Proof.
  intros H. apply is_indexed_inv in H as [H1 H2].
  cbn [await_indexing]. now rewrite H1, H2.
Qed.

(** A reply that makes the loop go round once more. *)
Lemma await_indexing_wait (i : Z) (r : response) (rest : list response) :
  is_not_indexed r = true -> i < 10 ->
  await_indexing url params silent i (r :: rest)
  = after (Http (GetTxList url params)
             :: (if (i =? 0) && negb silent then [Print (Waiting url)] else [])
             ++ [Sleep 10])%list
      (await_indexing url params silent (i + 1) rest).
Proof.
  intros H Hi. apply is_not_indexed_inv in H as [H1 [st [H2 H3]]].
  cbn [await_indexing]. rewrite H1, H2, H3. cbn [negb].
  replace (i >=? 10) with false by (rewrite Z.geb_leb; symmetry; apply Z.leb_gt; lia).
  destruct (await_indexing url params silent (i + 1) rest) as [o tr].
  destruct ((i =? 0) && negb silent); destruct o; reflexivity.
Qed.

(** The reply after which the loop gives up. *)
Lemma await_indexing_exhausted (i : Z) (r : response) (rest : list response) :
  is_not_indexed r = true -> 10 <= i ->
  await_indexing url params silent i (r :: rest)
  = (Raised (ValueErrorWith "API request failed with: " (result (json r))),
     [Http (GetTxList url params)]).
Proof.
  intros H Hi. apply is_not_indexed_inv in H as [H1 [st [H2 H3]]].
  cbn [await_indexing]. rewrite H1, H2, H3. cbn [negb].
  replace (i >=? 10) with true by (rewrite Z.geb_leb; symmetry; apply Z.leb_le; lia).
  reflexivity.
Qed.

(** Any number of rounds, as long as the counter stays within its cap. *)
Lemma await_indexing_waits (first rest : list response) (i : Z) :
  forallb is_not_indexed first = true ->
  i + Z.of_nat (List.length first) <= 10 ->
  let r := await_indexing url params silent i (first ++ rest) in
  let r' := await_indexing url params silent (i + Z.of_nat (List.length first)) rest in
  fst r = fst r' /\
  requests (snd r) = (List.length first + requests (snd r'))%nat /\
  sleeps (snd r) = (repeat 10 (List.length first) ++ sleeps (snd r'))%list.
Proof.
  revert i; induction first as [|x first IH]; intros i Hall Hi.
  - cbn [List.length Z.of_nat app repeat]. rewrite Z.add_0_r. now repeat split.
  - cbn [forallb] in Hall. apply andb_true_iff in Hall as [Hx Hall].
    cbn [List.length] in Hi |- *. rewrite Nat2Z.inj_succ in Hi |- *.
    cbn [app]. rewrite await_indexing_wait by (assumption || lia).
    replace (i + Z.succ (Z.of_nat (List.length first)))
      with ((i + 1) + Z.of_nat (List.length first)) by lia.
    destruct (IH (i + 1) Hall ltac:(lia)) as [E1 [E2 E3]].
    cbv zeta in E1, E2, E3. unfold after; cbn [fst snd].
    rewrite E1. split; [reflexivity|]. split.
    + change (?a :: ?l ++ ?t)%list with ((a :: l) ++ t)%list.
      rewrite requests_app, E2.
      destruct ((i =? 0) && negb silent); reflexivity.
    + change (?a :: ?l ++ ?t)%list with ((a :: l) ++ t)%list.
      rewrite sleeps_app, E3.
      destruct ((i =? 0) && negb silent); reflexivity.
Qed.

End Indexing.

Section StatusPolling.

Variables (url : string) (params : status_params) (silent : bool).

Lemma is_pending_inv (r : response) :
  is_pending r = true ->
  (status_code r =? 200) = true /\
  pyval_eq_str (result (json r)) "Pending in queue" = true.
Proof. unfold is_pending. intros H. now apply andb_true_iff in H. Qed.

Lemma is_terminal_inv (r : response) :
  is_terminal r = true ->
  (status_code r =? 200) = true /\
  pyval_eq_str (result (json r)) "Pending in queue" = false.
Proof.
  unfold is_terminal. intros H. apply andb_true_iff in H as [H1 H2].
  split; [exact H1 | now apply negb_true_iff in H2].
Qed.

Lemma poll_status_pending (r : response) (rest : list response) :
  is_pending r = true ->
  poll_status url params silent (r :: rest)
  = after (Http (GetStatus url params)
             :: (if silent then [] else [Print Pending]) ++ [Sleep 10])%list
      (poll_status url params silent rest).
Proof.
  intros H. apply is_pending_inv in H as [H1 H2].
  cbn [poll_status]. rewrite H1, H2. cbn [negb].
  destruct (poll_status url params silent rest) as [o tr].
  destruct silent; destruct o; reflexivity.
Qed.

Lemma poll_status_terminal (r : response) (rest : list response) :
  is_terminal r = true ->
  poll_status url params silent (r :: rest)
  = (Returned (String.eqb (message (json r)) "OK"),
     Http (GetStatus url params)
       :: (if silent then []
           else [Print (Complete (if String.eqb (message (json r)) "OK"
                                  then "bright green" else "bright red")
                                 (result (json r)))])).
Proof.
  intros H. apply is_terminal_inv in H as [H1 H2].
  cbn [poll_status]. rewrite H1, H2. cbn [negb].
  destruct silent; reflexivity.
Qed.

Lemma poll_status_pendings (pendings rest : list response) :
  forallb is_pending pendings = true ->
  let r := poll_status url params silent (pendings ++ rest) in
  let r' := poll_status url params silent rest in
  fst r = fst r' /\
  requests (snd r) = (List.length pendings + requests (snd r'))%nat /\
  sleeps (snd r) = (repeat 10 (List.length pendings) ++ sleeps (snd r'))%list /\
  posts (snd r) = posts (snd r').
Proof.
  induction pendings as [|x pendings IH]; intros Hall; [now repeat split|].
  cbn [forallb] in Hall. apply andb_true_iff in Hall as [Hx Hall].
  destruct (IH Hall) as [E1 [E2 [E3 E4]]]. cbv zeta in *.
  cbn [app List.length]. rewrite poll_status_pending by assumption.
  unfold after; cbn [fst snd]. rewrite E1.
  change (?a :: ?l ++ ?t)%list with ((a :: l) ++ t)%list.
  rewrite requests_app, sleeps_app, posts_app, E2, E3, E4.
  destruct silent; repeat split; reflexivity.
Qed.

(** The status loop posts nothing. *)
Lemma poll_status_posts (script : list response) :
  posts (snd (poll_status url params silent script)) = [].
Proof.
  induction script as [|r script IH]; [reflexivity|].
  cbn [poll_status].
  destruct (negb (status_code r =? 200)); [reflexivity|].
  destruct (pyval_eq_str (result (json r)) "Pending in queue").
  - destruct (poll_status url params silent script) as [o tr].
    cbn [snd] in IH. destruct silent; destruct o; cbn; exact IH.
  - destruct silent; reflexivity.
Qed.

End StatusPolling.

Section PublishSource.

Local Open Scope run_scope.

Variables (env : environment) (self : container) (address : string) (silent : bool).
Variables (url api_key : string) (contract_info : verification_info) (fl : flattener).

Hypothesis credentials : api_credentials env = inr (url, api_key).
Hypothesis info : fst (get_verification_info self) = inr contract_info.
Hypothesis flat : flattener_of (snd (get_verification_info self)) = inr fl.

Local Abbreviation payload_of constructor_arguments :=
  (payload_verification api_key address fl contract_info
     constructor_arguments (license_code (license_identifier contract_info))).

Lemma after_nil {A} (r : run A) : after [] r = r.
Proof. now destruct r. Qed.

Lemma publish_source_unfold (script : list response) :
  publish_source env self address silent script
  = (indexed <- await_indexing url (params_tx api_key address) silent 0 script ;;
     constructor_arguments <- lift (constructor_arguments_of (fst indexed) contract_info) ;;
     posted <- post url (payload_of constructor_arguments) (snd indexed) ;;
     verification_result url api_key silent (fst posted) (snd posted)).
Proof.
  unfold publish_source. rewrite credentials. cbn [lift].
  unfold ret at 1. rewrite bind_returned, after_nil. cbn [fst snd].
  rewrite info. cbn [lift]. unfold ret at 1.
  rewrite bind_returned, after_nil, flat. reflexivity.
Qed.

(** An error of the indexing loop is the error of [publish_source]. *)
Lemma publish_source_not_indexed (script : list response) (e : exn) :
  fst (await_indexing url (params_tx api_key address) silent 0 script) = Raised e ->
  publish_source env self address silent script
  = (Raised e, snd (await_indexing url (params_tx api_key address) silent 0 script)).
Proof.
  intros H. rewrite publish_source_unfold.
  destruct (await_indexing url (params_tx api_key address) silent 0 script) as [o tr].
  cbn [fst] in H. subst o. reflexivity.
Qed.

(** Once indexed, the request is posted with the extracted arguments. *)
Lemma publish_source_indexed (script script' : list response) (data : api_data)
    (constructor_arguments : string) :
  fst (await_indexing url (params_tx api_key address) silent 0 script)
  = Returned (data, script') ->
  constructor_arguments_of data contract_info = inr constructor_arguments ->
  publish_source env self address silent script
  = after (snd (await_indexing url (params_tx api_key address) silent 0 script)
             ++ [Http (PostVerify url (payload_of constructor_arguments))])%list
      match script' with
      | [] => (Starved, [])
      | r :: rest => verification_result url api_key silent r rest
      end.
Proof.
  intros H Hargs. rewrite publish_source_unfold.
  destruct (await_indexing url (params_tx api_key address) silent 0 script) as [o tr].
  cbn [fst snd] in H |- *. subst o.
  rewrite bind_returned. cbn [fst snd]. rewrite Hargs. cbn [lift].
  unfold ret at 1. rewrite bind_returned, after_nil.
  unfold post. rewrite bind_after, after_after. f_equal.
  destruct script' as [|r rest]; [reflexivity|].
  unfold ret. now rewrite bind_returned, after_nil.
Qed.

Lemma verification_result_posts (r : response) (rest : list response) :
  posts (snd (verification_result url api_key silent r rest)) = [].
Proof.
  unfold verification_result.
  destruct (negb (status_code r =? 200)); [reflexivity|].
  destruct (Py.int (status (json r))) as [st|]; [|reflexivity].
  destruct (negb (st =? 1)) eqn:E.
  - cbn. rewrite E. reflexivity.
  - pose proof (poll_status_posts url (params_status api_key (result (json r)))
                  silent rest) as P.
    destruct (poll_status url (params_status api_key (result (json r))) silent rest)
      as [o tr].
    cbn [snd] in P. cbn. rewrite E. destruct silent; destruct o; cbn; exact P.
Qed.

(** The indexing loop posts nothing. *)
Lemma await_indexing_posts (params : txlist_params) (script : list response) (i : Z) :
  posts (snd (await_indexing url params silent i script)) = [].
Proof.
  revert i; induction script as [|r script IH]; intros i; [reflexivity|].
  cbn [await_indexing].
  destruct (negb (status_code r =? 200)); [reflexivity|].
  destruct (Py.int (status (json r))) as [st|]; [|reflexivity].
  destruct (st =? 1); [reflexivity|].
  destruct (i >=? 10); [reflexivity|].
  specialize (IH (i + 1)).
  destruct (await_indexing url params silent (i + 1) script) as [o tr].
  cbn [snd] in IH. destruct ((i =? 0) && negb silent); destruct o; cbn; exact IH.
Qed.

(** Exactly one verification request is posted, with the extracted
    constructor arguments. *)
Lemma publish_source_posts (script script' : list response) (data : api_data)
    (constructor_arguments : string) :
  fst (await_indexing url (params_tx api_key address) silent 0 script)
  = Returned (data, script') ->
  constructor_arguments_of data contract_info = inr constructor_arguments ->
  posts (snd (publish_source env self address silent script))
  = [payload_of constructor_arguments].
Proof.
  intros H Hargs. rewrite (publish_source_indexed _ _ _ _ H Hargs).
  unfold after; cbn [snd]. rewrite !posts_app, await_indexing_posts.
  destruct script' as [|r rest]; [reflexivity|].
  now rewrite verification_result_posts.
Qed.

End PublishSource.

(** After [get_verification_info] has succeeded the container holds a
    flattener: the cached one, or the one just built. *)
Lemma info_flattener (self : container) (contract_info : verification_info) :
  fst (get_verification_info self) = inr contract_info ->
  exists fl,
    flattener_of (snd (get_verification_info self)) = inr fl /\
    (forall f, _flattener self = Some f -> fl = f) /\
    (_flattener self = None -> Flattener self = inr fl) /\
    standard_input_json fl = info_standard_json_input contract_info /\
    license fl = license_identifier contract_info.
Proof.
  unfold get_verification_info, flattener_of.
  destruct (String.eqb (language (_build self)) "Vyper"); [discriminate|].
  destruct (String.eqb (language (_build self)) "Solidity"); [|discriminate].
  destruct (_flattener self) as [f|] eqn:Ef.
  - cbn. intros [= <-]. exists f. cbn. repeat split; congruence.
  - destruct (Flattener self) as [e|f] eqn:Eb; [discriminate|].
    cbn. intros [= <-]. exists f. cbn. repeat split; congruence.
Qed.

(** The reply that ends the indexing loop normally has status 1. *)
Lemma await_indexing_returned (url : string) (params : txlist_params) (silent : bool)
    (script script' : list response) (i : Z) (data : api_data) :
  fst (await_indexing url params silent i script) = Returned (data, script') ->
  Py.int (status data) = Some 1.
Proof.
  revert i; induction script as [|r script IH]; intros i; [discriminate|].
  cbn [await_indexing].
  destruct (negb (status_code r =? 200)); [discriminate|].
  destruct (Py.int (status (json r))) as [st|] eqn:E; [|discriminate].
  destruct (st =? 1) eqn:E1.
  - cbn. intros [= <- _]. apply Z.eqb_eq in E1. now subst.
  - destruct (i >=? 10); [discriminate|].
    specialize (IH (i + 1)).
    destruct (await_indexing url params silent (i + 1) script) as [o tr].
    destruct ((i =? 0) && negb silent); destruct o; cbn in *;
      solve [discriminate | exact IH].
Qed.

(** C1: in the indexing loop of [publish_source], three replies with a
    status other than 1 followed by one with status 1 make exactly 4
    requests, the loop is left normally and [publish_source] goes on to post
    the verification request; eleven replies with a status other than 1
    make exactly 11 requests (the first and 10 retries), after which the
    loop, and with it [publish_source], fails with the [result] of the last
    reply. *)
Theorem indexing_poll_calls (url : string) (params : txlist_params) (silent : bool) :
  (forall r1 r2 r3 r4 rest,
      is_not_indexed r1 = true -> is_not_indexed r2 = true ->
      is_not_indexed r3 = true -> is_indexed r4 = true ->
      let run := await_indexing url params silent 0 (r1 :: r2 :: r3 :: r4 :: rest) in
      fst run = Returned (json r4, rest) /\
      requests (snd run) = 4%nat /\
      sleeps (snd run) = [10; 10; 10]) /\
  (forall env self address api_key contract_info constructor_arguments
          r1 r2 r3 r4 rest,
      api_credentials env = inr (url, api_key) ->
      fst (get_verification_info self) = inr contract_info ->
      is_not_indexed r1 = true -> is_not_indexed r2 = true ->
      is_not_indexed r3 = true -> is_indexed r4 = true ->
      constructor_arguments_of (json r4) contract_info = inr constructor_arguments ->
      let run := publish_source env self address silent
                   (r1 :: r2 :: r3 :: r4 :: rest) in
      exists polled payload tail,
        snd run = (polled ++ Http (PostVerify url payload) :: tail)%list /\
        requests polled = 4%nat /\
        posts polled = []) /\
  (forall first final rest,
      List.length first = 10%nat ->
      forallb is_not_indexed first = true -> is_not_indexed final = true ->
      let run := await_indexing url params silent 0 (first ++ final :: rest) in
      fst run = Raised (ValueErrorWith "API request failed with: " (result (json final))) /\
      requests (snd run) = 11%nat /\
      sleeps (snd run) = repeat 10 10) /\
  (forall env self address api_key contract_info first final rest,
      api_credentials env = inr (url, api_key) ->
      fst (get_verification_info self) = inr contract_info ->
      List.length first = 10%nat ->
      forallb is_not_indexed first = true -> is_not_indexed final = true ->
      let run := publish_source env self address silent (first ++ final :: rest) in
      fst run = Raised (ValueErrorWith "API request failed with: " (result (json final))) /\
      requests (snd run) = 11%nat).
Proof.
  assert (ready : forall p r1 r2 r3 r4 rest,
             is_not_indexed r1 = true -> is_not_indexed r2 = true ->
             is_not_indexed r3 = true -> is_indexed r4 = true ->
             let run := await_indexing url p silent 0 (r1 :: r2 :: r3 :: r4 :: rest) in
             fst run = Returned (json r4, rest) /\
             requests (snd run) = 4%nat /\
             sleeps (snd run) = [10; 10; 10]).
  { intros p r1 r2 r3 r4 rest H1 H2 H3 H4.
    destruct (await_indexing_waits url p silent [r1; r2; r3] (r4 :: rest) 0)
      as [E1 [E2 E3]].
    { cbn [forallb]. now rewrite H1, H2, H3. }
    { simpl; lia. }
    cbv zeta in *. cbn [app] in E1, E2, E3. rewrite E1, E2, E3.
    rewrite await_indexing_indexed by assumption. repeat split. }
  assert (cap : forall p first final rest,
             List.length first = 10%nat ->
             forallb is_not_indexed first = true -> is_not_indexed final = true ->
             let run := await_indexing url p silent 0 (first ++ final :: rest) in
             fst run = Raised (ValueErrorWith "API request failed with: "
                                 (result (json final))) /\
             requests (snd run) = 11%nat /\
             sleeps (snd run) = repeat 10 10).
  { intros p first final rest Hlen Hall Hfinal.
    destruct (await_indexing_waits url p silent first (final :: rest) 0 Hall
                ltac:(rewrite Hlen; simpl; lia)) as [E1 [E2 E3]].
    cbv zeta in *. rewrite E1, E2, E3, Hlen.
    rewrite await_indexing_exhausted by (assumption || simpl; lia).
    repeat split. }
  split; [|split; [|split]].
  - apply ready.
  - intros env self address api_key contract_info constructor_arguments
      r1 r2 r3 r4 rest Hcred Hinfo H1 H2 H3 H4 Hargs.
    destruct (info_flattener self contract_info Hinfo) as [fl [Hflat _]].
    destruct (ready (params_tx api_key address) r1 r2 r3 r4 rest H1 H2 H3 H4)
      as [E1 [E2 _]].
    cbv zeta in *.
    rewrite (publish_source_indexed env self address silent url api_key
               contract_info fl Hcred Hinfo Hflat _ _ _ _ E1 Hargs).
    unfold after; cbn [snd]. rewrite <- app_assoc. cbn [app].
    do 3 eexists. split; [reflexivity|]. split; [exact E2|].
    apply await_indexing_posts.
  - apply cap.
  - intros env self address api_key contract_info first final rest
      Hcred Hinfo Hlen Hall Hfinal.
    destruct (info_flattener self contract_info Hinfo) as [fl [Hflat _]].
    destruct (cap (params_tx api_key address) first final rest Hlen Hall Hfinal)
      as [E1 [E2 _]].
    cbv zeta in *.
    rewrite (publish_source_not_indexed env self address silent url api_key
               contract_info fl Hcred Hinfo Hflat _ _ E1).
    cbn [fst snd]. now split.
Qed.

Lemma indexing_poll_calls_witness :
  let url := "https://api.etherscan.io/api" in
  let params := params_tx "K" "0xabc" in
  fst (await_indexing url params false 0
         [not_found; not_found; not_found; found "0xaaaaaaaaaabeef"])
  = Returned (json (found "0xaaaaaaaaaabeef"), []) /\
  requests (snd (publish_source (etherscan_env url (Some "K"))
                   (sample_container "Solidity") "0xabc" false
                   (repeat not_found 10 ++ [not_found]))) = 11%nat.
Proof.
  split.
  - apply (proj1 (indexing_poll_calls _ _ false)); reflexivity.
  - eapply (proj2 (proj2 (proj2 (indexing_poll_calls "https://api.etherscan.io/api"
                                    (params_tx "K" "0xabc") false)))); reflexivity.
Defined.

(** C3: for a transaction list accepted with message OK, the constructor
    arguments are the transaction input from offset [bytecode_len + 2] on,
    [bytecode_len] being the length of the build's [bytecode] text: the
    input splits into a prefix of that length (or all of a shorter input)
    and the arguments; and these are the arguments [publish_source] posts. *)
Theorem constructor_arguments_suffix (self : container) (contract_info : verification_info)
    (data : api_data) (tx : transaction) (txs : list transaction) :
  fst (get_verification_info self) = inr contract_info ->
  message data = "OK" ->
  result data = PList (tx :: txs) ->
  let constructor_arguments :=
    PyStr.slice_from (bytecode_len contract_info + 2) (input tx) in
  bytecode_len contract_info = PyStr.len (bytecode (_build self)) /\
  constructor_arguments_of data contract_info = inr constructor_arguments /\
  (exists pre,
      input tx = pre ++ constructor_arguments /\
      String.length pre
      = Nat.min (String.length (bytecode (_build self)) + 2) (String.length (input tx))) /\
  (forall env address silent url api_key script script',
      api_credentials env = inr (url, api_key) ->
      fst (await_indexing url (params_tx api_key address) silent 0 script)
      = Returned (data, script') ->
      map constructorArguements
          (posts (snd (publish_source env self address silent script)))
      = [constructor_arguments]).
Proof.
  intros Hinfo Hmsg Hres constructor_arguments.
  assert (Hlen : bytecode_len contract_info = PyStr.len (bytecode (_build self))).
  { unfold get_verification_info in Hinfo.
    destruct (String.eqb (language (_build self)) "Vyper"); [discriminate|].
    destruct (String.eqb (language (_build self)) "Solidity"); [|discriminate].
    destruct (match _flattener self with
              | Some f => inr f
              | None => Flattener self
              end); [discriminate|].
    cbn in Hinfo. injection Hinfo as <-. reflexivity. }
  assert (Hargs : constructor_arguments_of data contract_info = inr constructor_arguments).
  { unfold constructor_arguments_of. now rewrite Hmsg, Hres. }
  split; [exact Hlen|]. split; [exact Hargs|]. split.
  - unfold constructor_arguments, PyStr.slice_from. rewrite Hlen. unfold PyStr.len.
    replace (Z.to_nat (Z.of_nat (String.length (bytecode (_build self))) + 2))
      with (String.length (bytecode (_build self)) + 2)%nat by lia.
    apply PyStrFacts.drop_suffix.
  - intros env address silent url api_key script script' Hcred Hix.
    destruct (info_flattener self contract_info Hinfo) as [fl [Hflat _]].
    now rewrite (publish_source_posts env self address silent url api_key
                   contract_info fl Hcred Hinfo Hflat _ _ _ _ Hix Hargs).
Qed.

Lemma constructor_arguments_suffix_witness :
  bytecode_len sample_info = 10 /\
  constructor_arguments_of (json (found "0xaaaaaaaaaabeef")) sample_info = inr "beef".
Proof.
  destruct (constructor_arguments_suffix (sample_container "Solidity") sample_info
              (json (found "0xaaaaaaaaaabeef"))
              {| input := "0xaaaaaaaaaabeef" |} [] eq_refl eq_refl eq_refl)
    as [_ [Hargs _]].
  split; [reflexivity | exact Hargs].
Defined.

(** C9: when the reply that ends the indexing loop (status 1) has a
    message other than OK, [publish_source] posts the verification request
    with an empty constructor-arguments text; the slice of the transaction
    input is posted only for the message OK. *)
Theorem constructor_arguments_need_ok (env : environment) (self : container)
    (address : string) (silent : bool) (url api_key : string)
    (contract_info : verification_info) (script script' : list response)
    (data : api_data) :
  api_credentials env = inr (url, api_key) ->
  fst (get_verification_info self) = inr contract_info ->
  fst (await_indexing url (params_tx api_key address) silent 0 script)
  = Returned (data, script') ->
  let posted := posts (snd (publish_source env self address silent script)) in
  Py.int (status data) = Some 1 /\
  (message data <> "OK" ->
   map constructorArguements posted = [EmptyString]) /\
  (forall tx txs,
      message data = "OK" -> result data = PList (tx :: txs) ->
      map constructorArguements posted
      = [PyStr.slice_from (bytecode_len contract_info + 2) (input tx)]).
Proof.
  intros Hcred Hinfo Hix posted. subst posted.
  destruct (info_flattener self contract_info Hinfo) as [fl [Hflat _]].
  split; [exact (await_indexing_returned _ _ _ _ _ _ _ Hix)|]. split.
  - intros Hmsg.
    assert (Hargs : constructor_arguments_of data contract_info = inr EmptyString).
    { unfold constructor_arguments_of.
      apply String.eqb_neq in Hmsg. now rewrite Hmsg. }
    now rewrite (publish_source_posts env self address silent url api_key
                   contract_info fl Hcred Hinfo Hflat _ _ _ _ Hix Hargs).
  - intros tx txs Hmsg Hres.
    assert (Hargs : constructor_arguments_of data contract_info
                    = inr (PyStr.slice_from (bytecode_len contract_info + 2) (input tx))).
    { unfold constructor_arguments_of. now rewrite Hmsg, Hres. }
    now rewrite (publish_source_posts env self address silent url api_key
                   contract_info fl Hcred Hinfo Hflat _ _ _ _ Hix Hargs).
Qed.

Lemma constructor_arguments_need_ok_witness :
  map constructorArguements
      (posts (snd (publish_source (etherscan_env "https://api.etherscan.io/api" (Some "K"))
                     (sample_container "Solidity") "0xabc" true
                     [reply 200 "1" "NOTOK" (PList [{| input := "0xaaaaaaaaaabeef" |}])])))
  = [EmptyString].
Proof.
  refine (proj1 (proj2 (constructor_arguments_need_ok
                          (etherscan_env "https://api.etherscan.io/api" (Some "K"))
                          (sample_container "Solidity") "0xabc" true
                          "https://api.etherscan.io/api" "K" sample_info
                          [reply 200 "1" "NOTOK" (PList [{| input := "0xaaaaaaaaaabeef" |}])]
                          []
                          (json (reply 200 "1" "NOTOK"
                                   (PList [{| input := "0xaaaaaaaaaabeef" |}])))
                          eq_refl eq_refl eq_refl)) _).
  discriminate.
Defined.

(** C6: the status loop of [publish_source] goes round again, after a
    10-second sleep, exactly on a reply whose [result] is "Pending in
    queue"; any other reply ends it with one request and no sleep, and the
    value returned is whether the [message] of that reply is exactly "OK".
    So [publish_source] returns true if and only if the first reply that is
    not pending has the message "OK". *)
Theorem status_poll_machine (url : string) (silent : bool) :
  (forall params r rest,
      is_pending r = true ->
      poll_status url params silent (r :: rest)
      = after (Http (GetStatus url params)
                 :: (if silent then [] else [Print Pending]) ++ [Sleep 10])%list
          (poll_status url params silent rest)) /\
  (forall params r rest,
      is_terminal r = true ->
      let run := poll_status url params silent (r :: rest) in
      fst run = Returned (String.eqb (message (json r)) "OK") /\
      requests (snd run) = 1%nat /\
      sleeps (snd run) = []) /\
  (forall params pendings final rest,
      forallb is_pending pendings = true -> is_terminal final = true ->
      let run := poll_status url params silent (pendings ++ final :: rest) in
      (exists b, fst run = Returned b) /\
      (fst run = Returned true <-> message (json final) = "OK") /\
      requests (snd run) = S (List.length pendings) /\
      sleeps (snd run) = repeat 10 (List.length pendings)) /\
  (forall env self address api_key contract_info constructor_arguments
          waits listed accepted pendings final rest,
      api_credentials env = inr (url, api_key) ->
      fst (get_verification_info self) = inr contract_info ->
      forallb is_not_indexed waits = true -> (List.length waits <= 10)%nat ->
      is_indexed listed = true ->
      constructor_arguments_of (json listed) contract_info = inr constructor_arguments ->
      is_indexed accepted = true ->
      forallb is_pending pendings = true -> is_terminal final = true ->
      let run := publish_source env self address silent
                   (waits ++ listed :: accepted :: pendings ++ final :: rest) in
      (exists b, fst run = Returned b) /\
      (fst run = Returned true <-> message (json final) = "OK")).
Proof.
  assert (loop : forall params pendings final rest,
             forallb is_pending pendings = true -> is_terminal final = true ->
             let run := poll_status url params silent (pendings ++ final :: rest) in
             fst run = Returned (String.eqb (message (json final)) "OK") /\
             requests (snd run) = S (List.length pendings) /\
             sleeps (snd run) = repeat 10 (List.length pendings)).
  { intros params pendings final rest Hall Hfinal.
    destruct (poll_status_pendings url params silent pendings (final :: rest) Hall)
      as [E1 [E2 [E3 _]]].
    cbv zeta in *. rewrite E1, E2, E3.
    rewrite poll_status_terminal by assumption. cbn [fst snd].
    split; [reflexivity|]. split.
    - destruct silent; cbn; lia.
    - destruct silent; cbn; now rewrite app_nil_r. }
  assert (exact_ok : forall (o : outcome bool) m,
             o = Returned (String.eqb m "OK") ->
             (exists b, o = Returned b) /\ (o = Returned true <-> m = "OK")).
  { intros o m ->. split; [now eexists|]. split.
    - intros [= H]. now apply String.eqb_eq.
    - intros ->. reflexivity. }
  split; [|split; [|split]].
  - intros params r rest H. now apply poll_status_pending.
  - intros params r rest H. cbv zeta.
    rewrite poll_status_terminal by assumption.
    destruct silent; repeat split.
  - intros params pendings final rest Hall Hfinal.
    destruct (loop params pendings final rest Hall Hfinal) as [E1 [E2 E3]].
    cbv zeta in *.
    destruct (exact_ok _ _ E1) as [Hb Hiff].
    split; [exact Hb|]. split; [exact Hiff|]. split; assumption.
  - intros env self address api_key contract_info constructor_arguments
      waits listed accepted pendings final rest
      Hcred Hinfo Hwaits Hlen Hlisted Hargs Haccepted Hall Hfinal.
    destruct (info_flattener self contract_info Hinfo) as [fl [Hflat _]].
    cbv zeta. apply exact_ok.
    destruct (await_indexing_waits url (params_tx api_key address) silent waits
                (listed :: accepted :: pendings ++ final :: rest) 0 Hwaits
                ltac:(lia)) as [E1 _].
    cbv zeta in E1.
    rewrite await_indexing_indexed in E1 by assumption. cbn [fst] in E1.
    rewrite (publish_source_indexed env self address silent url api_key contract_info fl
               Hcred Hinfo Hflat _ _ _ _ E1 Hargs).
    unfold after; cbn [fst].
    apply is_indexed_inv in Haccepted as [A1 A2].
    unfold verification_result. rewrite A1, A2. cbn [negb lift Z.eqb Pos.eqb].
    destruct (loop (params_status api_key (result (json accepted)))
                pendings final rest Hall Hfinal) as [L1 _].
    cbv zeta in L1.
    destruct (poll_status url (params_status api_key (result (json accepted))) silent
                (pendings ++ final :: rest)) as [o tr].
    cbn [fst] in L1. subst o. destruct silent; reflexivity.
Qed.

Lemma status_poll_machine_witness :
  fst (publish_source (etherscan_env "https://api.etherscan.io/api" (Some "K"))
         (sample_container "Solidity") "0xabc" false
         ([not_found] ++ found "0xaaaaaaaaaabeef"
            :: reply 200 "1" "OK" (PStr "guid")
            :: [reply 200 "0" "NOTOK" (PStr "Pending in queue")]
            ++ reply 200 "1" "OK" (PStr "Pass - Verified") :: []))
  = Returned true.
Proof.
  refine (proj2 (proj2 (proj2 (proj2 (proj2
            (status_poll_machine "https://api.etherscan.io/api" false)))
            (etherscan_env "https://api.etherscan.io/api" (Some "K"))
            (sample_container "Solidity") "0xabc" "K" sample_info "beef"
            [not_found] (found "0xaaaaaaaaaabeef")
            (reply 200 "1" "OK" (PStr "guid"))
            [reply 200 "0" "NOTOK" (PStr "Pending in queue")]
            (reply 200 "1" "OK" (PStr "Pass - Verified")) []
            eq_refl eq_refl eq_refl _ eq_refl eq_refl eq_refl eq_refl eq_refl)) _).
  - simpl; lia.
  - reflexivity.
Defined.

(** C7: a build whose language is not "Solidity" ("Vyper" included)
    makes [get_verification_info] raise a [TypeError], the container left
    as it was; [publish_source] then ends with an exception at once, with
    no request, no sleep and no retry. *)
Theorem unsupported_language (self : container) :
  language (_build self) <> "Solidity" ->
  (exists msg, get_verification_info self = (inl (TypeError msg), self)) /\
  (forall env address silent script,
      let run := publish_source env self address silent script in
      snd run = [] /\
      (exists e, fst run = Raised e) /\
      (forall cred, api_credentials env = inr cred ->
                    exists msg, fst run = Raised (TypeError msg))).
Proof.
  intros Hlang. apply String.eqb_neq in Hlang.
  assert (Hinfo : exists msg, get_verification_info self = (inl (TypeError msg), self)).
  { unfold get_verification_info. rewrite Hlang.
    destruct (String.eqb (language (_build self)) "Vyper"); now eexists. }
  split; [exact Hinfo|].
  destruct Hinfo as [msg Hinfo].
  intros env address silent script. cbv zeta. unfold publish_source.
  destruct (api_credentials env) as [e|cred].
  - repeat split; [now eexists | discriminate].
  - cbn [lift]. unfold ret at 1. rewrite bind_returned, after_nil.
    rewrite Hinfo. repeat split; now eexists.
Qed.

Lemma unsupported_language_witness :
  exists msg,
    get_verification_info (sample_container "Vyper")
    = (inl (TypeError msg), sample_container "Vyper").
Proof.
  apply (proj1 (unsupported_language (sample_container "Vyper") ltac:(discriminate))).
Defined.

(** ** Credentials *)

Lemma contains_suffix (w a : string) : PyStr.contains w (a ++ w) = true.
Proof.
  induction a as [|x a IH].
  - destruct w; simpl; [reflexivity|].
    now rewrite Ascii.eqb_refl, PyStrFacts.startswith_refl.
  - simpl append. rewrite PyStrFacts.contains_cons, IH. apply orb_true_r.
Qed.

(** For an explorer host with a dot, a missing (or empty) token variable
    is reported by name, before any request. *)
Lemma api_token_required (env : environment) (url env_token host : string) (i : Z) :
  explorer env = Some url ->
  resolve_env_token (_explorer_tokens env) url = Some env_token ->
  getenv env env_token = None \/ getenv env env_token = Some EmptyString ->
  Url.urlparse_netloc url = inr host ->
  PyStr.index_char "." host = Some i ->
  exists msg,
    PyStr.contains env_token msg = true /\
    forall self address silent script,
      publish_source env self address silent script = (Raised (ValueError msg), []).
Proof.
  intros Hurl Htok Henv Hhost Hdot.
  exists (token_required_message (PyStr.slice_from (i + 1) host) env_token).
  split.
  - unfold token_required_message.
    rewrite <- !PyStrFacts.append_assoc. apply contains_suffix.
  - intros self address silent script. unfold publish_source, api_credentials.
    rewrite Hurl, Htok. destruct Henv as [-> | ->]; now rewrite Hhost, Hdot.
Qed.

(** C8 fails on the code for an explorer whose host has no dot: with the
    token variable unset, [publish_source] stops before any request, but on
    the [str.index] of the host, with an error that does not name the
    variable. *)
Theorem api_token_error_host_without_dot :
  let url := "http://localhost:8545/etherscan" in
  let env := etherscan_env url None in
  resolve_env_token (_explorer_tokens env) url = Some "ETHERSCAN_TOKEN" /\
  getenv env "ETHERSCAN_TOKEN" = None /\
  Url.netloc url = "localhost:8545" /\
  (forall self address silent script,
      publish_source env self address silent script
      = (Raised (ValueError "substring not found"), [])) /\
  PyStr.contains "ETHERSCAN_TOKEN" "substring not found" = false.
Proof. repeat split. Qed.

(** ** Patching the library placeholders *)

Section HexText.

Import PyStr.

Lemma hex_digit_lower (c : ascii) :
  is_hex_digit c = true ->
  is_hex_digit (lower_char c) = true /\
  Ascii.eqb "_" (lower_char c) = false /\
  Ascii.eqb "_" c = false /\
  Ascii.eqb "$" c = false /\
  Ascii.eqb "x" c = false.
Proof.
  destruct c as [[] [] [] [] [] [] [] []]; intros H;
    solve [discriminate H | repeat split].
Qed.

Lemma is_hex_lower (h : string) :
  is_hex h = true ->
  is_hex (lower h) = true /\
  mem "_" (lower h) = false /\
  String.length (lower h) = String.length h.
Proof.
  induction h as [|c h IH]; intros H; [now repeat split|].
  cbn [is_hex] in H. apply andb_true_iff in H as [Hc Hh].
  destruct (IH Hh) as [I1 [I2 I3]].
  destruct (hex_digit_lower c Hc) as [C1 [C2 _]].
  cbn [lower is_hex mem String.length]. now rewrite C1, C2, I1, I2, I3.
Qed.

Lemma is_hex_no_underscore (h : string) : is_hex h = true -> mem "_" h = false.
Proof.
  induction h as [|c h IH]; intros H; [reflexivity|].
  cbn [is_hex] in H. apply andb_true_iff in H as [Hc Hh].
  destruct (hex_digit_lower c Hc) as [_ [_ [C3 _]]].
  cbn [mem]. now rewrite C3, (IH Hh).
Qed.

Lemma is_hex_no_0x (h : string) : is_hex h = true -> contains "0x" h = false.
Proof.
  induction h as [|c h IH]; intros H; [reflexivity|].
  cbn [is_hex] in H. apply andb_true_iff in H as [Hc Hh].
  rewrite PyStrFacts.contains_cons, (IH Hh), orb_false_r.
  destruct h as [|d h]; cbn [startswith]; [now rewrite andb_false_r|].
  cbn [is_hex] in Hh. apply andb_true_iff in Hh as [Hd _].
  destruct (hex_digit_lower d Hd) as [_ [_ [_ [_ C5]]]].
  rewrite C5. cbn [andb]. now rewrite andb_false_r.
Qed.

(** The text put in for a library: the forty digits of its address,
    lowercased. *)
Lemma library_hex_address (a : string) :
  is_address a = true ->
  library_hex a = lower (drop 2 a) /\
  is_hex (library_hex a) = true /\
  mem "_" (library_hex a) = false /\
  String.length (library_hex a) = 40%nat.
Proof.
  unfold is_address. intros H.
  destruct a as [|c0 [|c1 digits]]; try discriminate;
    [destruct c0 as [[] [] [] [] [] [] [] []]; discriminate|].
  destruct (Ascii.eqb_spec c0 "0") as [->|N0];
    [|destruct c0 as [[] [] [] [] [] [] [] []]; try discriminate; congruence].
  destruct (Ascii.eqb_spec c1 "x") as [->|N1];
    [|destruct c1 as [[] [] [] [] [] [] [] []]; try discriminate; congruence].
  apply andb_true_iff in H as [Hlen Hhex]. apply Nat.eqb_eq in Hlen.
  assert (E : library_hex (String "0" (String "x" digits)) = lower digits).
  { unfold library_hex, replace. cbn [replace_scan startswith Ascii.eqb Bool.eqb andb
                                    String.length Nat.sub append].
    now rewrite (PyStrFacts.scan_absent _ _ _ (is_hex_no_0x _ Hhex)). }
  rewrite E. destruct (is_hex_lower _ Hhex) as [L1 [L2 L3]].
  cbn [drop]. rewrite L3. now repeat split.
Qed.

End HexText.

Section Placeholders.

Import PyStr.

Lemma token_shape (lib : library) :
  head (token lib) = Some "_"%char /\
  last (token lib) = Some "_"%char /\
  String.length (token lib) = 40%nat /\
  token lib <> EmptyString.
Proof. destruct lib; repeat split; discriminate. Qed.

Lemma library_eqb_eq (a b : library) : library_eqb a b = true <-> a = b.
Proof. destruct a, b; simpl; split; congruence. Qed.

Ltac copy_chars :=
  repeat (rewrite PyStrFacts.scan_nomatch by reflexivity).

(** Scanning for one placeholder copies another one. *)
Lemma scan_copy_token (lib l : library) (new rest : string) :
  lib <> l -> clean rest ->
  replace_scan (token lib) new 0 (token l ++ rest)
  = token l ++ replace_scan (token lib) new 0 rest.
Proof.
  intros Hne [H1 H2].
  assert (T1 : forall k, startswith (token k) (String "_" (String "_" rest)) = false).
  { intros k. destruct rest as [|b rest]; [now destruct k|].
    cbn [startswith] in H1. rewrite andb_true_r in H1.
    destruct k; cbn [token PublishingLogic_token InteractionLogic_token
                       ProfileTokenURILogic_token startswith];
      now rewrite !Ascii.eqb_refl, H1. }
  assert (T2 : forall k, startswith (token k) (String "_" rest) = false).
  { intros k. destruct rest as [|b [|b2 rest]]; [now destruct k| |].
    - destruct k; cbn [token PublishingLogic_token InteractionLogic_token
                         ProfileTokenURILogic_token startswith];
        now rewrite andb_false_r.
    - cbn [startswith] in H2. rewrite andb_true_r in H2.
      destruct k; cbn [token PublishingLogic_token InteractionLogic_token
                         ProfileTokenURILogic_token startswith];
        rewrite Ascii.eqb_refl; cbn [andb];
        destruct (Ascii.eqb "_" b); cbn [andb] in *; try reflexivity;
        now rewrite H2. }
  specialize (T1 lib). specialize (T2 lib).
  destruct lib, l; try congruence;
    cbn [token PublishingLogic_token InteractionLogic_token
           ProfileTokenURILogic_token append] in *;
    copy_chars;
    rewrite (PyStrFacts.scan_nomatch _ _ _ _ T1);
    rewrite (PyStrFacts.scan_nomatch _ _ _ _ T2);
    reflexivity.
Qed.

Lemma clean_hex_app (h rest : string) :
  is_hex h = true -> clean rest -> clean (h ++ rest).
Proof.
  intros Hh Hr. destruct h as [|c h]; [exact Hr|].
  cbn [is_hex] in Hh. apply andb_true_iff in Hh as [Hc _].
  destruct (hex_digit_lower c Hc) as [_ [_ [C3 [C4 _]]]].
  split; cbn [append startswith]; [now rewrite C4 | now rewrite C3].
Qed.

Section Linking.

Variable resolved : library -> option string.
Hypothesis resolved_hex : forall l a, resolved l = Some a -> is_hex a = true.

Lemma render_clean (layout : list segment) :
  code_is_hex layout = true -> clean (render (link_with resolved) layout).
Proof.
  induction layout as [|seg layout IH]; intros H; [now split|].
  cbn [code_is_hex forallb] in H. apply andb_true_iff in H as [Hseg Hl].
  specialize (IH Hl). destruct seg as [h|l]; cbn [render].
  - now apply clean_hex_app.
  - unfold link_with. destruct (resolved l) as [a|] eqn:E.
    + apply clean_hex_app; [now apply (resolved_hex l) | exact IH].
    + now destruct l.
Qed.

(** Replacing the placeholder of [lib] in a layout resolves [lib] and
    leaves everything else in place. *)
Lemma replace_render (lib : library) (new : string) (layout : list segment) :
  resolved lib = None ->
  code_is_hex layout = true ->
  replace (token lib) new (render (link_with resolved) layout)
  = render (link_with (resolve lib new resolved)) layout.
Proof.
  intros Hlib.
  assert (R : forall s, replace (token lib) new s = replace_scan (token lib) new 0 s)
    by now destruct lib.
  rewrite R. destruct (token_shape lib) as [Hhead [_ [_ Hne]]].
  induction layout as [|seg layout IH]; intros H; [reflexivity|].
  cbn [code_is_hex forallb] in H. apply andb_true_iff in H as [Hseg Hl].
  specialize (IH Hl). destruct seg as [h|l]; cbn [render].
  - rewrite (PyStrFacts.scan_copy _ _ _ _ _ Hhead (is_hex_no_underscore _ Hseg)).
    now rewrite IH.
  - unfold link_with at 1 3, resolve.
    destruct (library_eqb l lib) eqn:El.
    + apply library_eqb_eq in El; subst l. rewrite Hlib.
      rewrite PyStrFacts.scan_match by assumption. now rewrite IH.
    + assert (Hne' : lib <> l).
      { intros ->. destruct l; discriminate. }
      destruct (resolved l) as [a|] eqn:E.
      * rewrite (PyStrFacts.scan_copy _ _ _ _ _ Hhead
                   (is_hex_no_underscore _ (resolved_hex _ _ E))).
        now rewrite IH.
      * rewrite scan_copy_token by (assumption || now apply render_clean).
        now rewrite IH.
Qed.

End Linking.

End Placeholders.

(** ** The deployment run *)

Section MainRun.

Local Open Scope deploy_scope.

Variable get_deployment_address : string -> Z -> string.
Variable address_of_key : string -> string.

Lemma run_print {A} (line : string) (k : unit -> M A) (w : world) :
  mbind (print line) k w = k tt (say_line line w).
Proof. reflexivity. Qed.

Lemma run_ret {A B} (a : A) (k : A -> M B) (w : world) :
  mbind (mret a) k w = k a w.
Proof. reflexivity. Qed.

Lemma run_count {A} (a : string) (k : Z -> M A) (w : world) :
  mbind (transaction_count a) k w = k (getTransactionCount w a) w.
Proof. reflexivity. Qed.

Lemma run_rewrite {A} (f : string -> string) (k : unit -> M A) (w : world) :
  mbind (rewrite_LensHub_json f) k w = k tt (put_bytecode f w).
Proof. reflexivity. Qed.

Lemma run_deploy {A} (contract : string) (args : list arg) (sender : string)
    (nonce : Z) (publish : bool) (k : string -> M A) (w : world) :
  getTransactionCount w sender = nonce ->
  mbind (deploy get_deployment_address contract args sender nonce publish) k w
  = k (get_deployment_address sender nonce)
      (record_tx {| tx_from := sender; tx_nonce := nonce;
                    tx_what := Create contract args publish;
                    tx_created := Some (get_deployment_address sender nonce) |} w).
Proof.
  intros H. cbv beta zeta delta [mbind deploy submit mret].
  now rewrite H, Z.eqb_refl.
Qed.

Lemma run_transact {A} (target method : string) (args : list arg) (sender : string)
    (nonce : Z) (k : unit -> M A) (w : world) :
  getTransactionCount w sender = nonce ->
  mbind (transact target method args sender nonce) k w
  = k tt (record_tx {| tx_from := sender; tx_nonce := nonce;
                       tx_what := Call target method args;
                       tx_created := None |} w).
Proof.
  intros H. cbv beta zeta delta [mbind transact submit].
  now rewrite H, Z.eqb_refl.
Qed.

(** The sender's count goes up by one with each transaction of its own;
    printing and writing files leave the counts alone. *)
Lemma count_record (sender : string) (nonce : Z) (what : tx_kind)
    (created : option string) (w : world) :
  getTransactionCount
    (record_tx {| tx_from := sender; tx_nonce := nonce;
                  tx_what := what; tx_created := created |} w) sender
  = getTransactionCount w sender + 1.
Proof. cbn. now rewrite String.eqb_refl. Qed.

Lemma count_say (line : string) (w : world) (a : string) :
  getTransactionCount (say_line line w) a = getTransactionCount w a.
Proof. reflexivity. Qed.

Lemma count_put_bytecode (f : string -> string) (w : world) (a : string) :
  getTransactionCount (put_bytecode f w) a = getTransactionCount w a.
Proof. reflexivity. Qed.

Ltac count_reached :=
  repeat (rewrite count_record || rewrite count_say || rewrite count_put_bytecode);
  reflexivity.

Ltac run_step H :=
  first [ rewrite run_print in H
        | rewrite run_ret in H
        | rewrite run_count in H
        | rewrite run_rewrite in H
        | rewrite run_deploy in H by count_reached
        | rewrite run_transact in H by count_reached ];
  cbv beta zeta in H.

(** Bring sums of a count and literals into the form [count + literal]. *)
Ltac normalize_nonces :=
  cbv zeta;
  rewrite <- ?Z.add_assoc;
  cbn [Z.add Pos.add Pos.succ Pos.add_carry Z.of_nat Pos.of_succ_nat];
  rewrite ?Z.add_0_r.

(** Run [main] in [H : r = main ... w], up to its last statement. *)
Ltac run_main H Hc Hacc :=
  unfold main in H; rewrite Hc, Hacc in H;
  unfold account in H; cbn [nth_error] in H; cbv iota in H;
  do 5 run_step H;
  cbn [getTransactionCount say_line initial_world] in H;
  do 43 run_step H;
  match type of H with
  | _ = mbind _ _ ?w => set (wg := w) in H
  end;
  repeat run_step H.

Lemma dump_addresses_run (name : string) (registry : list (string * string)) (w : world) :
  dump_addresses name registry w = (inr tt, put_addresses name registry w).
Proof. reflexivity. Qed.

Lemma filter_all {A} (p : A -> bool) (l : list A) :
  forallb p l = true -> filter p l = l.
Proof.
  induction l as [|x l IH]; [reflexivity|].
  cbn [forallb filter]. intros H. apply andb_true_iff in H as [Hx Hl].
  now rewrite Hx, (IH Hl).
Qed.

Lemma filter_none {A} (p : A -> bool) (l : list A) :
  forallb (fun x => negb (p x)) l = true -> filter p l = [].
Proof.
  induction l as [|x l IH]; [reflexivity|].
  cbn [forallb filter]. intros H. apply andb_true_iff in H as [Hx Hl].
  apply negb_true_iff in Hx. now rewrite Hx, (IH Hl).
Qed.

(** The patched bytecode [main] leaves on disk. *)
Lemma main_patches_LensHub (cfg : settings) (counts : string -> Z)
    (deployedBytecode : string) (deployer governance treasury : string)
    (others : list string) :
  is_connected cfg = true ->
  fold_left (accounts_add address_of_key)
    [DEPLOYER_PRIVATE_KEY cfg; GOVERNANCE_PRIVATE_KEY cfg; TREASURY_PRIVATE_KEY cfg]
    (network_accounts cfg)
  = deployer :: governance :: treasury :: others ->
  let n0 := counts deployer in
  LensHub_deployedBytecode
    (snd (main get_deployment_address address_of_key cfg
            (initial_world counts deployedBytecode)))
  = patch_libraries (get_deployment_address deployer (n0 + 1))
      (get_deployment_address deployer (n0 + 2))
      (get_deployment_address deployer (n0 + 3)) deployedBytecode.
Proof.
  intros Hc Hacc n0.
  remember (main get_deployment_address address_of_key cfg
              (initial_world counts deployedBytecode)) as r eqn:Hr.
  run_main Hr Hc Hacc.
  rewrite dump_addresses_run in Hr.
  rewrite Hr. cbn [snd]. subst wg.
  cbn [LensHub_deployedBytecode put_addresses record_tx say_line put_bytecode
         initial_world].
  subst n0. normalize_nonces. reflexivity.
Qed.

(** C4: in a run of [main] every transaction is accepted; the first 22
    are the deployer's deployments, the k-th of them (counting from 0) sent
    with the nonce [getTransactionCount(deployer) + k] and creating the
    contract at the address of that nonce; the nonces precomputed as
    [deployerNonce + 1], [+ 2] and [+ 3] for FollowNFT, CollectNFT and the
    hub proxy are the nonces later passed to those three deployments, so
    the addresses handed to LensHub (and to the two NFT contracts) are the
    addresses these contracts get. *)
Theorem deployer_nonce_sequence (cfg : settings) (counts : string -> Z)
    (deployedBytecode : string) (deployer governance treasury : string)
    (others : list string) :
  is_connected cfg = true ->
  fold_left (accounts_add address_of_key)
    [DEPLOYER_PRIVATE_KEY cfg; GOVERNANCE_PRIVATE_KEY cfg; TREASURY_PRIVATE_KEY cfg]
    (network_accounts cfg)
  = deployer :: governance :: treasury :: others ->
  let n0 := counts deployer in
  let r := main get_deployment_address address_of_key cfg
             (initial_world counts deployedBytecode) in
  let log := sent (snd r) in
  fst r = inr tt /\
  List.length log = 34%nat /\
  (forall k t,
      (k < 22)%nat -> nth_error log k = Some t ->
      tx_from t = deployer /\
      tx_nonce t = n0 + Z.of_nat k /\
      tx_created t = Some (get_deployment_address deployer (n0 + Z.of_nat k))) /\
  (forall k t,
      (22 <= k)%nat -> nth_error log k = Some t ->
      tx_from t = governance /\ tx_created t = None) /\
  (governance <> deployer ->
   filter (fun t => String.eqb (tx_from t) deployer) log = firstn 22 log) /\
  (exists hub follow collect proxy proxy_args,
      nth_error log 4 = Some hub /\
      nth_error log 5 = Some follow /\
      nth_error log 6 = Some collect /\
      nth_error log 7 = Some proxy /\
      let deployerNonce := n0 + 4 in
      let followNFTNonce := deployerNonce + 1 in
      let collectNFTNonce := deployerNonce + 2 in
      let hubProxyNonce := deployerNonce + 3 in
      let followNFTImplAddress := get_deployment_address deployer followNFTNonce in
      let collectNFTImplAddress := get_deployment_address deployer collectNFTNonce in
      let hubProxyAddress := get_deployment_address deployer hubProxyNonce in
      tx_what hub = Create "LensHub"
                      [Addr followNFTImplAddress; Addr collectNFTImplAddress]
                      (CONTRACT_VERIFICATION cfg) /\
      tx_nonce hub = deployerNonce /\
      tx_what follow = Create "FollowNFT" [Addr hubProxyAddress]
                         (CONTRACT_VERIFICATION cfg) /\
      tx_nonce follow = followNFTNonce /\
      tx_created follow = Some followNFTImplAddress /\
      tx_what collect = Create "CollectNFT" [Addr hubProxyAddress]
                          (CONTRACT_VERIFICATION cfg) /\
      tx_nonce collect = collectNFTNonce /\
      tx_created collect = Some collectNFTImplAddress /\
      tx_what proxy = Create "TransparentUpgradeableProxy" proxy_args false /\
      tx_nonce proxy = hubProxyNonce /\
      tx_created proxy = Some hubProxyAddress).
Proof.
  intros Hc Hacc n0 r log.
  remember (main get_deployment_address address_of_key cfg
              (initial_world counts deployedBytecode)) as r' eqn:Hr.
  run_main Hr Hc Hacc.
  rewrite dump_addresses_run in Hr.
  subst r'. subst r. cbn [fst].
  cbn [fst snd sent put_addresses record_tx say_line] in (value of log).
  let W := eval unfold wg in wg in
  let L := eval cbn [sent record_tx say_line put_bytecode initial_world app]
           in (sent W) in
  change (sent wg) with L in (value of log).
  cbn [app] in (value of log).
  set (g0 := getTransactionCount wg governance) in (value of log).
  clearbody g0. clear wg.
  subst n0. cbn [fst].
  split; [reflexivity|]. split; [reflexivity|]. split; [|split; [|split]].
  - intros k t Hk. subst log.
    do 22 (destruct k as [|k];
           [cbn [nth_error]; intros [= <-]; cbn [tx_from tx_nonce tx_created Z.of_nat
                                                  Pos.of_succ_nat Pos.succ];
            split; [reflexivity|]; split; [|do 2 f_equal]; lia|]).
    lia.
  - intros k t Hk. subst log.
    do 22 (destruct k as [|k]; [lia|]).
    do 12 (destruct k as [|k]; [cbn [nth_error]; intros [= <-]; split; reflexivity|]).
    destruct k; discriminate.
  - intros Hgd. apply String.eqb_neq in Hgd.
    rewrite <- (firstn_skipn 22 log) at 1. rewrite filter_app.
    subst log. cbn [firstn skipn].
    rewrite filter_all, filter_none; [reflexivity | |];
      cbn [forallb tx_from]; rewrite ?String.eqb_refl, ?Hgd; reflexivity.
  - subst log. do 5 eexists. cbn [nth_error].
    repeat (split; [reflexivity|]).
    cbn [tx_what tx_nonce tx_created]. normalize_nonces. repeat split.
Qed.


(** *** Further properties of the deployment run *)

(** The count of an account after a transaction of any sender. *)
Lemma count_record_any (t : sent_tx) (w : world) (a : string) :
  getTransactionCount (record_tx t w) a
  = getTransactionCount w a + (if String.eqb a (tx_from t) then 1 else 0).
Proof. cbn. destruct (String.eqb a (tx_from t)); lia. Qed.

Lemma creates_nth (log : list sent_tx) (j : nat) (t : sent_tx)
    (contract address : string) (args : list arg) (publish : bool) :
  nth_error log j = Some t ->
  tx_what t = Create contract args publish ->
  tx_created t = Some address ->
  creates log contract address.
Proof.
  intros Hj Hw Hc. exists t, args, publish.
  split; [now apply (nth_error_In log j) | now split].
Qed.

(** The log and the registry of a run of [main] in [r], as lists. *)
Ltac main_log r log Hc Hacc :=
  let Hr := fresh "Hr" in
  let r' := fresh "r" in
  let R := eval cbv delta [r] in r in
  remember R as r' eqn:Hr;
  run_main Hr Hc Hacc;
  rewrite dump_addresses_run in Hr;
  subst r'; subst r; cbn [fst];
  cbn [fst snd sent put_addresses record_tx say_line] in (value of log);
  lazymatch goal with
  | g := ?W : world |- _ =>
      let L := eval cbn [sent record_tx say_line put_bytecode initial_world app]
               in (sent W) in
      change (sent g) with L in (value of log)
  end;
  cbn [app] in (value of log).

(** Find, among the first [n] transactions of the log, the deployment of
    a contract at an address. *)
Ltac find_creation n :=
  first [ solve [ eapply (creates_nth _ n); reflexivity ]
        | lazymatch n with
          | S ?m => find_creation m
          end ].

(** X12: after the 22 deployments, [main] sends 12 calls from the
    governance account with consecutive nonces, starting at the count the
    chain has for that account at that moment (which includes the 22
    deployments when governance and deployer are the same account).  Each
    call whitelists, with the flag [True], the address of a contract this
    run deployed: the six collect modules, the three follow modules, the
    reference module and the profile creation proxy on the hub proxy, the
    currency on ModuleGlobals. *)
Theorem governance_whitelists (cfg : settings) (counts : string -> Z)
    (deployedBytecode : string) (deployer governance treasury : string)
    (others : list string) :
  is_connected cfg = true ->
  fold_left (accounts_add address_of_key)
    [DEPLOYER_PRIVATE_KEY cfg; GOVERNANCE_PRIVATE_KEY cfg; TREASURY_PRIVATE_KEY cfg]
    (network_accounts cfg)
  = deployer :: governance :: treasury :: others ->
  let r := main get_deployment_address address_of_key cfg
             (initial_world counts deployedBytecode) in
  let log := sent (snd r) in
  let calls := skipn 22 log in
  let governanceNonce :=
    counts governance + (if String.eqb governance deployer then 22 else 0) in
  map (fun t => (tx_from t, tx_nonce t)) calls
  = map (fun k => (governance, governanceNonce + Z.of_nat k)) (seq 0 12) /\
  Forall2
    (fun t '(on, method, what) =>
       exists target module,
         tx_what t = Call target method [Addr module; Flag true] /\
         creates log on target /\ creates log what module)
    calls
    [("TransparentUpgradeableProxy", "whitelistCollectModule", "FeeCollectModule");
     ("TransparentUpgradeableProxy", "whitelistCollectModule", "LimitedFeeCollectModule");
     ("TransparentUpgradeableProxy", "whitelistCollectModule", "TimedFeeCollectModule");
     ("TransparentUpgradeableProxy", "whitelistCollectModule",
      "LimitedTimedFeeCollectModule");
     ("TransparentUpgradeableProxy", "whitelistCollectModule", "RevertCollectModule");
     ("TransparentUpgradeableProxy", "whitelistCollectModule", "FreeCollectModule");
     ("TransparentUpgradeableProxy", "whitelistFollowModule", "FeeFollowModule");
     ("TransparentUpgradeableProxy", "whitelistFollowModule", "ProfileFollowModule");
     ("TransparentUpgradeableProxy", "whitelistFollowModule", "RevertFollowModule");
     ("TransparentUpgradeableProxy", "whitelistReferenceModule",
      "FollowerOnlyReferenceModule");
     ("ModuleGlobals", "whitelistCurrency", "Currency");
     ("TransparentUpgradeableProxy", "whitelistProfileCreator", "ProfileCreationProxy")].
Proof.
  intros Hc Hacc r log calls governanceNonce.
  main_log r log Hc Hacc.
  assert (Hg : getTransactionCount wg governance = governanceNonce).
  { subst wg governanceNonce.
    repeat (rewrite count_record_any || rewrite count_say || rewrite count_put_bytecode).
    cbn [tx_from getTransactionCount initial_world].
    destruct (String.eqb governance deployer); lia. }
  set (g0 := getTransactionCount wg governance) in *.
  clearbody g0. clear wg. subst g0.
  subst calls. split.
  - subst log. cbn [skipn map seq tx_from tx_nonce Z.of_nat Pos.of_succ_nat Pos.succ].
    normalize_nonces. reflexivity.
  - subst log. cbn [skipn].
    repeat (constructor;
            [do 2 eexists; split; [reflexivity|]; split; find_creation 21%nat|]).
    constructor.
Qed.

(** Find the transaction that created an address, subject to a side
    condition on its position. *)
Ltac find_creator n :=
  first [ solve [ exists n; eexists; split; [reflexivity|]; split;
                  [first [reflexivity | cbn [tx_created]; do 2 f_equal; lia] | lia] ]
        | lazymatch n with
          | S ?m => find_creator m
          end ].

Ltac each_address :=
  repeat match goal with
         | H : In _ [] |- _ => destruct H
         | H : In _ (_ :: _) |- _ =>
             destruct H as [H | H];
             [ first [ discriminate H
                     | injection H as H; subst;
                       first [ left; cbn [In]; tauto | right; find_creator 21%nat ] ]
             | ]
         end.

(** X13: every address passed to a constructor is an account of the
    run (deployer, governance, treasury) or the address of a contract this
    run deploys.  It is the address of an earlier deployment, except for
    the precomputed ones: LensHub (position 4) gets the addresses of the
    next two deployments, FollowNFT and CollectNFT (5 and 6) get the
    address of the hub proxy (7).  The hub proxy is created over the
    LensHub implementation with the deployer as admin and initialised with
    the governance account. *)
Theorem constructor_wiring (cfg : settings) (counts : string -> Z)
    (deployedBytecode : string) (deployer governance treasury : string)
    (others : list string) :
  is_connected cfg = true ->
  fold_left (accounts_add address_of_key)
    [DEPLOYER_PRIVATE_KEY cfg; GOVERNANCE_PRIVATE_KEY cfg; TREASURY_PRIVATE_KEY cfg]
    (network_accounts cfg)
  = deployer :: governance :: treasury :: others ->
  let r := main get_deployment_address address_of_key cfg
             (initial_world counts deployedBytecode) in
  let log := sent (snd r) in
  (forall k t contract args publish a,
      nth_error log k = Some t ->
      tx_what t = Create contract args publish ->
      In (Addr a) args ->
      In a [deployer; governance; treasury] \/
      exists j d,
        nth_error log j = Some d /\ tx_created d = Some a /\
        (j < k \/ (k = 4 /\ (j = 5 \/ j = 6)) \/ ((k = 5 \/ k = 6) /\ j = 7))%nat) /\
  (exists proxy lensHubImpl,
      nth_error log 7 = Some proxy /\
      creates log "LensHub" lensHubImpl /\
      tx_what proxy
      = Create "TransparentUpgradeableProxy"
          [Addr lensHubImpl; Addr deployer;
           Encoded "initialize" [LENS_HUB_NFT_NAME; LENS_HUB_NFT_SYMBOL; governance]]
          false).
Proof.
  intros Hc Hacc r log.
  main_log r log Hc Hacc.
  set (g0 := getTransactionCount wg governance) in *.
  clearbody g0. clear wg.
  split.
  - intros k t contract args publish a. subst log.
    do 22 (destruct k as [|k];
           [cbn [nth_error]; intros [= <-]; cbn [tx_what]; intros [= <- <- <-] Ha;
            each_address|]).
    do 12 (destruct k as [|k]; [cbn [nth_error]; intros [= <-]; discriminate|]).
    destruct k; discriminate.
  - subst log. do 2 eexists. split; [reflexivity|]. split; [|reflexivity].
    find_creation 21%nat.
Qed.

Ltac find_creation_nonce n :=
  first [ solve [ eapply (creates_nth _ n);
                  [reflexivity | reflexivity
                  | first [reflexivity | cbn [tx_created]; do 2 f_equal; lia] ] ]
        | lazymatch n with
          | S ?m => find_creation_nonce m
          end ].

(** X14: a run that gets to its end writes the registry
    [build/lenshubAddresses-<NETWORK_ID>.json] with 21 entries, in this
    order and under these labels; each address in it is the address of a
    contract of the named kind that this run deployed (for the follow and
    collect NFT the registry holds the precomputed address, which is the
    deployed one).  ProfileTokenURILogic is deployed but not
    registered. *)
Theorem address_registry (cfg : settings) (counts : string -> Z)
    (deployedBytecode : string) (deployer governance treasury : string)
    (others : list string) :
  is_connected cfg = true ->
  fold_left (accounts_add address_of_key)
    [DEPLOYER_PRIVATE_KEY cfg; GOVERNANCE_PRIVATE_KEY cfg; TREASURY_PRIVATE_KEY cfg]
    (network_accounts cfg)
  = deployer :: governance :: treasury :: others ->
  let r := main get_deployment_address address_of_key cfg
             (initial_world counts deployedBytecode) in
  let log := sent (snd r) in
  exists lenshubAddresses,
    lenshubAddresses_file (snd r)
    = Some ("build/lenshubAddresses-" ++ NETWORK_ID cfg ++ ".json", lenshubAddresses) /\
    Forall2
      (fun '(label, address) '(expected, contract) =>
         label = expected /\ creates log contract address)
      lenshubAddresses
      [("lensHub proxy", "TransparentUpgradeableProxy");
       ("lensHub impl:", "LensHub");
       ("publishing logic lib", "PublishingLogic");
       ("interaction logic lib", "InteractionLogic");
       ("follow NFT impl", "FollowNFT");
       ("collect NFT impl", "CollectNFT");
       ("currency", "Currency");
       ("lens periphery", "LensPeriphery");
       ("module globals", "ModuleGlobals");
       ("fee collect module", "FeeCollectModule");
       ("limited fee collect module", "LimitedFeeCollectModule");
       ("timed fee collect module", "TimedFeeCollectModule");
       ("limited timed fee collect module", "LimitedTimedFeeCollectModule");
       ("revert collect module", "RevertCollectModule");
       ("free collect module", "FreeCollectModule");
       ("fee follow module", "FeeFollowModule");
       ("profile follow module", "ProfileFollowModule");
       ("revert follow module", "RevertFollowModule");
       ("follower only reference module", "FollowerOnlyReferenceModule");
       ("UI data provider", "UIDataProvider");
       ("Profile creation proxy", "ProfileCreationProxy")].
Proof.
  intros Hc Hacc r log.
  main_log r log Hc Hacc.
  cbn [snd lenshubAddresses_file put_addresses].
  set (g0 := getTransactionCount wg governance) in *.
  clearbody g0. clear wg.
  eexists. split; [reflexivity|]. subst log.
  repeat (constructor; [split; [reflexivity | find_creation_nonce 21%nat]|]).
  constructor.
Qed.

Ltac find_deployment n :=
  first [ solve [ do 2 eexists; split;
                  [eapply (nth_error_In _ n); reflexivity | reflexivity] ]
        | lazymatch n with
          | S ?m => find_deployment m
          end ].

(** X15: only the first seven deployments, ModuleGlobals, the three
    logic libraries, LensHub, FollowNFT and CollectNFT, can ask for source
    verification, and they do exactly when CONTRACT_VERIFICATION is on; the
    hub proxy, the periphery, the currency and all modules are deployed
    with [publish_source=False] whatever the setting. *)
Theorem verification_flags (cfg : settings) (counts : string -> Z)
    (deployedBytecode : string) (deployer governance treasury : string)
    (others : list string) :
  is_connected cfg = true ->
  fold_left (accounts_add address_of_key)
    [DEPLOYER_PRIVATE_KEY cfg; GOVERNANCE_PRIVATE_KEY cfg; TREASURY_PRIVATE_KEY cfg]
    (network_accounts cfg)
  = deployer :: governance :: treasury :: others ->
  let r := main get_deployment_address address_of_key cfg
             (initial_world counts deployedBytecode) in
  let log := sent (snd r) in
  let verified := ["ModuleGlobals"; "PublishingLogic"; "InteractionLogic";
                   "ProfileTokenURILogic"; "LensHub"; "FollowNFT"; "CollectNFT"] in
  (forall t contract args publish,
      In t log -> tx_what t = Create contract args publish ->
      publish = CONTRACT_VERIFICATION cfg && existsb (String.eqb contract) verified) /\
  (forall contract,
      In contract verified ->
      exists t args,
        In t log /\ tx_what t = Create contract args (CONTRACT_VERIFICATION cfg)).
Proof.
  intros Hc Hacc r log verified.
  main_log r log Hc Hacc.
  set (g0 := getTransactionCount wg governance) in *.
  clearbody g0. clear wg.
  split.
  - intros t contract args publish Ht. subst log verified.
    repeat (destruct Ht as [<- | Ht];
            [cbn [tx_what];
             first [ discriminate
                   | intros [= <- <- <-]; cbn; now rewrite ?andb_true_r, ?andb_false_r ]|]).
    destruct Ht.
  - intros contract Hin. subst log verified.
    repeat (destruct Hin as [<- | Hin]; [find_deployment 6%nat|]).
    destruct Hin.
Qed.

(** *** Starting and stopping *)

Lemma main_not_connected (cfg : settings) (w : world) :
  is_connected cfg = false ->
  main get_deployment_address address_of_key cfg w
  = (inl (NotConnected ("Could not connect to network: " ++ NETWORK_ID cfg)), w).
Proof. intros H. unfold main. rewrite H. reflexivity. Qed.

Lemma main_too_few_accounts (cfg : settings) (w : world) :
  let accounts :=
    fold_left (accounts_add address_of_key)
      [DEPLOYER_PRIVATE_KEY cfg; GOVERNANCE_PRIVATE_KEY cfg; TREASURY_PRIVATE_KEY cfg]
      (network_accounts cfg) in
  is_connected cfg = true ->
  (List.length accounts < 3)%nat ->
  main get_deployment_address address_of_key cfg w
  = (inl (NoSuchAccount (List.length accounts)),
     say_line ("Connected to network: " ++ NETWORK_ID cfg) w).
Proof.
  intros accounts Hc Hlen. unfold main. fold accounts. rewrite Hc.
  destruct accounts as [|d [|g [|t others]]]; cbn [List.length] in *;
    [reflexivity | reflexivity | reflexivity | lia].
Qed.

Lemma main_returns (cfg : settings) (counts : string -> Z)
    (deployedBytecode : string) (deployer governance treasury : string)
    (others : list string) :
  is_connected cfg = true ->
  fold_left (accounts_add address_of_key)
    [DEPLOYER_PRIVATE_KEY cfg; GOVERNANCE_PRIVATE_KEY cfg; TREASURY_PRIVATE_KEY cfg]
    (network_accounts cfg)
  = deployer :: governance :: treasury :: others ->
  fst (main get_deployment_address address_of_key cfg
         (initial_world counts deployedBytecode)) = inr tt.
Proof.
  intros Hc Hacc.
  remember (main get_deployment_address address_of_key cfg
              (initial_world counts deployedBytecode)) as r eqn:Hr.
  run_main Hr Hc Hacc.
  rewrite dump_addresses_run in Hr. now rewrite Hr.
Qed.


Lemma accounts_add_prefix (accounts : list string) (private_key : option string) :
  exists added,
    accounts_add address_of_key accounts private_key = (accounts ++ added)%list.
Proof.
  unfold accounts_add. destruct private_key as [k|].
  - destruct (existsb _ accounts).
    + exists []. now rewrite app_nil_r.
    + now exists [address_of_key k].
  - exists []. now rewrite app_nil_r.
Qed.

Lemma accounts_fold_prefix (keys : list (option string)) (accounts : list string) :
  exists added,
    fold_left (accounts_add address_of_key) keys accounts = (accounts ++ added)%list.
Proof.
  revert accounts. induction keys as [|k keys IH]; intros accounts.
  - exists []. now rewrite app_nil_r.
  - cbn [fold_left]. destruct (accounts_add_prefix accounts k) as [a1 ->].
    destruct (IH (accounts ++ a1)%list) as [a2 ->].
    exists (a1 ++ a2)%list. now rewrite app_assoc.
Qed.


(** The three logic libraries are deployed second to fourth. *)
Lemma main_deploys_libraries (cfg : settings) (counts : string -> Z)
    (deployedBytecode : string) (deployer governance treasury : string)
    (others : list string) :
  is_connected cfg = true ->
  fold_left (accounts_add address_of_key)
    [DEPLOYER_PRIVATE_KEY cfg; GOVERNANCE_PRIVATE_KEY cfg; TREASURY_PRIVATE_KEY cfg]
    (network_accounts cfg)
  = deployer :: governance :: treasury :: others ->
  let n0 := counts deployer in
  let r := main get_deployment_address address_of_key cfg
             (initial_world counts deployedBytecode) in
  let log := sent (snd r) in
  creates log "PublishingLogic" (get_deployment_address deployer (n0 + 1)) /\
  creates log "InteractionLogic" (get_deployment_address deployer (n0 + 2)) /\
  creates log "ProfileTokenURILogic" (get_deployment_address deployer (n0 + 3)).
Proof.
  intros Hc Hacc n0 r log.
  main_log r log Hc Hacc.
  set (g0 := getTransactionCount wg governance) in *.
  clearbody g0. clear wg. subst log n0.
  split; [|split]; find_creation_nonce 21%nat.
Qed.

(** Who sends what in a run that has its three accounts. *)
Lemma main_senders (cfg : settings) (counts : string -> Z)
    (deployedBytecode : string) (deployer governance treasury : string)
    (others : list string) :
  is_connected cfg = true ->
  fold_left (accounts_add address_of_key)
    [DEPLOYER_PRIVATE_KEY cfg; GOVERNANCE_PRIVATE_KEY cfg; TREASURY_PRIVATE_KEY cfg]
    (network_accounts cfg)
  = deployer :: governance :: treasury :: others ->
  let r := main get_deployment_address address_of_key cfg
             (initial_world counts deployedBytecode) in
  forall t,
    In t (sent (snd r)) ->
    (forall contract args publish,
        tx_what t = Create contract args publish -> tx_from t = deployer) /\
    (forall target method args,
        tx_what t = Call target method args -> tx_from t = governance) /\
    (forall args publish,
        tx_what t = Create "ModuleGlobals" args publish ->
        args = [Addr governance; Addr treasury; Int TREASURY_FEE_BPS]).
Proof.
  intros Hc Hacc r.
  set (log := sent (snd r)).
  main_log r log Hc Hacc.
  set (g0 := getTransactionCount wg governance) in *.
  clearbody g0. clear wg.
  intros t Ht. subst log.
  repeat (destruct Ht as [<- | Ht];
          [cbn [tx_what tx_from];
           split; [|split];
           [ intros ? ? ?; first [discriminate | reflexivity]
           | intros ? ? ?; first [discriminate | reflexivity]
           | intros ? ?; first [discriminate | now intros [= <- <-]] ]|]).
  destruct Ht.
Qed.

(** X16: [main] gets to its end only if the network is connected and,
    with the configured keys added, there are at least three accounts.
    Without a connection it raises the ConnectionError at once, nothing
    printed; connected but short of three accounts it prints that it is
    connected and stops.  Either way no transaction has been sent and no
    file written. *)
Theorem main_needs_connection_and_accounts (cfg : settings) (counts : string -> Z)
    (deployedBytecode : string) :
  let accounts :=
    fold_left (accounts_add address_of_key)
      [DEPLOYER_PRIVATE_KEY cfg; GOVERNANCE_PRIVATE_KEY cfg; TREASURY_PRIVATE_KEY cfg]
      (network_accounts cfg) in
  let w := initial_world counts deployedBytecode in
  let r := main get_deployment_address address_of_key cfg w in
  (fst r = inr tt -> is_connected cfg = true /\ (3 <= List.length accounts)%nat) /\
  (is_connected cfg = false ->
   r = (inl (NotConnected ("Could not connect to network: " ++ NETWORK_ID cfg)), w)) /\
  (is_connected cfg = true -> (List.length accounts < 3)%nat ->
   fst r <> inr tt /\
   stdout (snd r) = ["Connected to network: " ++ NETWORK_ID cfg]) /\
  (is_connected cfg = false \/ (List.length accounts < 3)%nat ->
   sent (snd r) = [] /\
   lenshubAddresses_file (snd r) = None /\
   LensHub_deployedBytecode (snd r) = deployedBytecode).
Proof.
  intros accounts w r.
  assert (Hfew : is_connected cfg = true -> (List.length accounts < 3)%nat ->
                 r = (inl (NoSuchAccount (List.length accounts)),
                      say_line ("Connected to network: " ++ NETWORK_ID cfg) w)).
  { intros Hc Hlen. now apply main_too_few_accounts. }
  split; [|split; [|split]].
  - intros Hr. destruct (is_connected cfg) eqn:Hc.
    + split; [reflexivity|].
      destruct (Nat.lt_ge_cases (List.length accounts) 3) as [Hlen|Hlen];
        [|exact Hlen].
      rewrite (Hfew eq_refl Hlen) in Hr. discriminate.
    + subst r. rewrite (main_not_connected cfg w Hc) in Hr. discriminate.
  - apply main_not_connected.
  - intros Hc Hlen. rewrite (Hfew Hc Hlen). split; [discriminate | reflexivity].
  - intros H. destruct (is_connected cfg) eqn:Hc.
    + destruct H as [H|Hlen]; [discriminate|].
      rewrite (Hfew eq_refl Hlen). now repeat split.
    + subst r. rewrite (main_not_connected cfg w Hc). now repeat split.
Qed.

(** *** Who plays which role *)

(** X17: the roles go by position in the account list, and the
    accounts of the node come first.  So on a node that has three accounts
    the configured private keys never change who does what: whatever they
    are, every deployment of the run is sent by the node's first account
    and every call by its second, and ModuleGlobals is set up with the
    second as governance and the third as treasury. *)
Theorem node_accounts_take_the_roles (cfg : settings) (counts : string -> Z)
    (deployedBytecode : string) (deployer governance treasury : string)
    (rest : list string) :
  network_accounts cfg = deployer :: governance :: treasury :: rest ->
  let r := main get_deployment_address address_of_key cfg
             (initial_world counts deployedBytecode) in
  forall t,
    In t (sent (snd r)) ->
    (forall contract args publish,
        tx_what t = Create contract args publish -> tx_from t = deployer) /\
    (forall target method args,
        tx_what t = Call target method args -> tx_from t = governance) /\
    (forall args publish,
        tx_what t = Create "ModuleGlobals" args publish ->
        args = [Addr governance; Addr treasury; Int TREASURY_FEE_BPS]).
Proof.
  intros Hnet r t Ht.
  destruct (is_connected cfg) eqn:Hc.
  - destruct (accounts_fold_prefix
                [DEPLOYER_PRIVATE_KEY cfg; GOVERNANCE_PRIVATE_KEY cfg;
                 TREASURY_PRIVATE_KEY cfg] (network_accounts cfg)) as [added E].
    rewrite Hnet in E at 2. cbn [app] in E.
    exact (main_senders cfg counts deployedBytecode deployer governance treasury
             (rest ++ added)%list Hc E t Ht).
  - subst r. rewrite (main_not_connected cfg _ Hc) in Ht. destruct Ht.
Qed.

(** X18: on a node without accounts the three keys provide them, an
    address being added only once.  The run gets to its end only if it is
    connected and all three keys are set and belong to three different
    addresses: with a key left out, or one key used for two roles, it stops
    before anything is sent.  The deployments are then sent from the
    address of the deployer key and the calls from that of the governance
    key. *)
Theorem roles_from_three_keys (cfg : settings) (counts : string -> Z)
    (deployedBytecode : string) :
  network_accounts cfg = [] ->
  let r := main get_deployment_address address_of_key cfg
             (initial_world counts deployedBytecode) in
  let three_keys :=
    exists d g t,
      DEPLOYER_PRIVATE_KEY cfg = Some d /\
      GOVERNANCE_PRIVATE_KEY cfg = Some g /\
      TREASURY_PRIVATE_KEY cfg = Some t /\
      address_of_key d <> address_of_key g /\
      address_of_key d <> address_of_key t /\
      address_of_key g <> address_of_key t in
  (fst r = inr tt -> is_connected cfg = true /\ three_keys) /\
  (~ three_keys -> fst r <> inr tt /\ sent (snd r) = []) /\
  (forall d g tx,
      DEPLOYER_PRIVATE_KEY cfg = Some d ->
      GOVERNANCE_PRIVATE_KEY cfg = Some g ->
      In tx (sent (snd r)) ->
      (forall contract args publish,
          tx_what tx = Create contract args publish ->
          tx_from tx = address_of_key d) /\
      (forall target method args,
          tx_what tx = Call target method args -> tx_from tx = address_of_key g)).
Proof.
  intros Hnet r three_keys.
  set (accounts :=
         fold_left (accounts_add address_of_key)
           [DEPLOYER_PRIVATE_KEY cfg; GOVERNANCE_PRIVATE_KEY cfg;
            TREASURY_PRIVATE_KEY cfg] (network_accounts cfg)).
  assert (Hthree :
            ((3 <= List.length accounts)%nat <-> three_keys) /\
            (forall d g,
                DEPLOYER_PRIVATE_KEY cfg = Some d ->
                GOVERNANCE_PRIVATE_KEY cfg = Some g ->
                (3 <= List.length accounts)%nat ->
                exists t, accounts = [address_of_key d; address_of_key g; t])).
  { subst accounts three_keys. rewrite Hnet.
    destruct (DEPLOYER_PRIVATE_KEY cfg) as [d|],
             (GOVERNANCE_PRIVATE_KEY cfg) as [g|],
             (TREASURY_PRIVATE_KEY cfg) as [t|];
      cbn [fold_left accounts_add existsb app orb];
      repeat match goal with
             | |- context [String.eqb ?a ?b] =>
                 let E := fresh "E" in
                 destruct (String.eqb a b) eqn:E;
                 [apply String.eqb_eq in E | apply String.eqb_neq in E];
                 cbn [orb app existsb List.length]
             end;
      cbn [List.length];
      (split;
       [ split;
         [ intros Hlen; try lia;
           exists d, g, t; repeat (split; [reflexivity|]); repeat split; congruence
         | intros [d' [g' [t' [Hd [Hg [Ht [N1 [N2 N3]]]]]]]];
           try discriminate;
           injection Hd as <-; injection Hg as <-; injection Ht as <-;
           first [lia | congruence] ]
       | intros d' g' Hd Hg Hlen; try discriminate; try lia;
         injection Hd as <-; injection Hg as <-; now eexists ]). }
  destruct Hthree as [Hthree Hwho].
  assert (Hfew : is_connected cfg = true -> (List.length accounts < 3)%nat ->
                 r = (inl (NoSuchAccount (List.length accounts)),
                      say_line ("Connected to network: " ++ NETWORK_ID cfg)
                        (initial_world counts deployedBytecode))).
  { intros Hc Hlen. now apply main_too_few_accounts. }
  split; [|split].
  - intros Hr. destruct (is_connected cfg) eqn:Hc.
    + split; [reflexivity|]. apply Hthree.
      destruct (Nat.lt_ge_cases (List.length accounts) 3) as [Hlen|Hlen];
        [|exact Hlen].
      rewrite (Hfew eq_refl Hlen) in Hr. discriminate.
    + subst r. rewrite (main_not_connected cfg _ Hc) in Hr. discriminate.
  - intros Hno. destruct (is_connected cfg) eqn:Hc.
    + destruct (Nat.lt_ge_cases (List.length accounts) 3) as [Hlen|Hlen].
      * rewrite (Hfew eq_refl Hlen). split; [discriminate | reflexivity].
      * exfalso. now apply Hno, Hthree.
    + subst r. rewrite (main_not_connected cfg _ Hc). split; [discriminate | reflexivity].
  - intros d g tx Hd Hg Htx. destruct (is_connected cfg) eqn:Hc.
    + destruct (Nat.lt_ge_cases (List.length accounts) 3) as [Hlen|Hlen].
      * rewrite (Hfew eq_refl Hlen) in Htx. destruct Htx.
      * destruct (Hwho d g Hd Hg Hlen) as [t E].
        destruct (main_senders cfg counts deployedBytecode (address_of_key d)
                    (address_of_key g) t [] Hc E tx Htx) as [S1 [S2 _]].
        now split.
    + subst r. rewrite (main_not_connected cfg _ Hc) in Htx. destruct Htx.
Qed.
End MainRun.

Lemma deployer_nonce_sequence_witness :
  let r := main sample_create (fun k => k) sample_settings
             (initial_world sample_counts EmptyString) in
  fst r = inr tt /\ map tx_nonce (firstn 8 (sent (snd r))) = [7; 8; 9; 10; 11; 12; 13; 14].
Proof.
  split.
  - apply (deployer_nonce_sequence sample_create (fun k => k) sample_settings
             sample_counts EmptyString "0xD" "0xG" "0xT" [] eq_refl eq_refl).
  - reflexivity.
Defined.

Section Patching.

Import PyStr.

Variables publishingLogic interactionLogic profileTokenURILogic : string.

Hypothesis publishingLogic_address : is_address publishingLogic = true.
Hypothesis interactionLogic_address : is_address interactionLogic = true.
Hypothesis profileTokenURILogic_address : is_address profileTokenURILogic = true.

Local Abbreviation address :=
  (library_address publishingLogic interactionLogic profileTokenURILogic).
Local Abbreviation patch :=
  (patch_libraries publishingLogic interactionLogic profileTokenURILogic).

Lemma address_is_address (lib : library) : is_address (address lib) = true.
Proof. now destruct lib. Qed.

Lemma replace_token (lib : library) (new s : string) :
  replace (token lib) new s = replace_scan (token lib) new 0 s.
Proof. now destruct lib. Qed.

(** Replacing one placeholder by an address text brings no placeholder
    back. *)
Lemma replace_keeps_absent (lib l : library) (a s : string) :
  is_address a = true ->
  contains (token l) s = false ->
  contains (token l) (replace (token lib) (library_hex a) s) = false.
Proof.
  intros Ha Hs. destruct (library_hex_address a Ha) as [_ [_ [Hfree Hlen]]].
  destruct (token_shape l) as [Hh [Hl [Hn _]]].
  rewrite replace_token.
  apply (PyStrFacts.absent_scan _ _ "_"%char Hfree); try assumption.
  rewrite Hn, Hlen. lia.
Qed.

Lemma replace_removes (lib : library) (a s : string) :
  is_address a = true ->
  contains (token lib) (replace (token lib) (library_hex a) s) = false.
Proof.
  intros Ha. destruct (library_hex_address a Ha) as [_ [_ [Hfree Hlen]]].
  destruct (token_shape lib) as [Hh [Hl [Hn _]]].
  rewrite replace_token.
  apply (PyStrFacts.scan_removes _ _ "_"%char Hfree); try assumption.
  rewrite Hn, Hlen. lia.
Qed.

Lemma replace_absent (lib : library) (new s : string) :
  contains (token lib) s = false -> replace (token lib) new s = s.
Proof. intros H. rewrite replace_token. now apply PyStrFacts.scan_absent. Qed.

Lemma render_ext (f g : library -> string) (layout : list segment) :
  (forall lib, f lib = g lib) -> render f layout = render g layout.
Proof.
  intros E. induction layout as [|[h|l] layout IH]; cbn [render];
    [reflexivity | now rewrite IH | now rewrite E, IH].
Qed.

Lemma patch_layout (layout : list segment) :
  code_is_hex layout = true ->
  patch (render token layout)
  = render (fun lib => library_hex (address lib)) layout.
Proof.
  intros Hcode.
  set (r0 := fun _ : library => @None string).
  set (r1 := resolve PublishingLogic (library_hex publishingLogic) r0).
  set (r2 := resolve InteractionLogic (library_hex interactionLogic) r1).
  set (r3 := resolve ProfileTokenURILogic (library_hex profileTokenURILogic) r2).
  assert (hex : forall lib, is_hex (library_hex (address lib)) = true).
  { intros lib. now destruct (library_hex_address _ (address_is_address lib))
      as [_ [H _]]. }
  pose proof (hex PublishingLogic) as H1.
  pose proof (hex InteractionLogic) as H2.
  pose proof (hex ProfileTokenURILogic) as H3.
  cbn [library_address] in H1, H2, H3.
  unfold patch_libraries.
  rewrite (render_ext token (link_with r0)) by reflexivity.
  change PublishingLogic_token with (token PublishingLogic).
  change InteractionLogic_token with (token InteractionLogic).
  change ProfileTokenURILogic_token with (token ProfileTokenURILogic).
  rewrite (replace_render r0) by (discriminate || reflexivity || assumption).
  fold r1.
  rewrite (replace_render r1); [|intros [] a [= <-]; assumption | reflexivity | assumption].
  fold r2.
  rewrite (replace_render r2);
    [|intros [] a [= <-]; assumption | reflexivity | assumption].
  apply render_ext. now intros [].
Qed.

(** What the three replacements do to any bytecode, for well-formed
    library addresses. *)
Lemma patch_libraries_facts :
  (forall lib,
      library_hex (address lib) = lower (drop 2 (address lib)) /\
      String.length (library_hex (address lib)) = 40%nat) /\
  (forall bytecode lib, contains (token lib) (patch bytecode) = false) /\
  (forall layout,
      code_is_hex layout = true ->
      patch (render token layout)
      = render (fun lib => library_hex (address lib)) layout) /\
  (forall bytecode lib,
      contains (token lib) bytecode = false ->
      patch bytecode
      = patch_only (filter (fun l => negb (library_eqb l lib))
                      [PublishingLogic; InteractionLogic; ProfileTokenURILogic])
          address bytecode) /\
  (forall bytecode,
      (forall lib, contains (token lib) bytecode = false) ->
      patch bytecode = bytecode).
Proof.
  split; [|split; [|split; [|split]]].
  - intros lib.
    now destruct (library_hex_address _ (address_is_address lib)) as [E [_ [_ L]]].
  - intros bytecode lib. unfold patch_libraries.
    change PublishingLogic_token with (token PublishingLogic).
    change InteractionLogic_token with (token InteractionLogic).
    change ProfileTokenURILogic_token with (token ProfileTokenURILogic).
    destruct lib.
    + do 2 (apply replace_keeps_absent; [assumption|]).
      now apply replace_removes.
    + apply replace_keeps_absent; [assumption|]. now apply replace_removes.
    + now apply replace_removes.
  - exact patch_layout.
  - intros bytecode lib H. unfold patch_libraries, patch_only.
    change PublishingLogic_token with (token PublishingLogic).
    change InteractionLogic_token with (token InteractionLogic).
    change ProfileTokenURILogic_token with (token ProfileTokenURILogic).
    destruct lib; cbn [filter library_eqb negb fold_left library_address].
    + now rewrite (replace_absent PublishingLogic _ _ H).
    + now rewrite (replace_absent InteractionLogic _ _
                     (replace_keeps_absent _ _ _ _ publishingLogic_address H)).
    + now rewrite (replace_absent ProfileTokenURILogic _ _
                     (replace_keeps_absent _ _ _ _ interactionLogic_address
                        (replace_keeps_absent _ _ _ _ publishingLogic_address H))).
  - intros bytecode H. unfold patch_libraries.
    change PublishingLogic_token with (token PublishingLogic).
    change InteractionLogic_token with (token InteractionLogic).
    change ProfileTokenURILogic_token with (token ProfileTokenURILogic).
    rewrite (replace_absent PublishingLogic _ _ (H _)).
    rewrite (replace_absent InteractionLogic _ _ (H _)).
    now rewrite (replace_absent ProfileTokenURILogic _ _ (H _)).
Qed.

End Patching.

Section PatchedArtifact.

Import PyStr.

Variable get_deployment_address : string -> Z -> string.
Variable address_of_key : string -> string.

(** C5: [main] rewrites the [deployedBytecode] of [LensHub.json] with
    the addresses of the three logic libraries it has just deployed (the
    second to fourth deployments of the deployer).  With these addresses
    well formed, none of the three placeholders occurs in the rewritten
    bytecode any more; in bytecode laid out as hex code with placeholders
    in between, every placeholder has become the address of its library,
    lowercased and without the 0x, and the code is untouched; a placeholder
    that does not occur makes its replacement a no-op (the patch is that of
    the other libraries alone, and bytecode without placeholders is left as
    it is); and whatever the bytecode, the run goes on to its end. *)
Theorem patch_libraries_resolves (cfg : settings) (counts : string -> Z)
    (deployedBytecode : string) (deployer governance treasury : string)
    (others : list string) :
  is_connected cfg = true ->
  fold_left (accounts_add address_of_key)
    [DEPLOYER_PRIVATE_KEY cfg; GOVERNANCE_PRIVATE_KEY cfg; TREASURY_PRIVATE_KEY cfg]
    (network_accounts cfg)
  = deployer :: governance :: treasury :: others ->
  let n0 := counts deployer in
  let publishingLogic := get_deployment_address deployer (n0 + 1) in
  let interactionLogic := get_deployment_address deployer (n0 + 2) in
  let profileTokenURILogic := get_deployment_address deployer (n0 + 3) in
  let address := library_address publishingLogic interactionLogic profileTokenURILogic in
  is_address publishingLogic = true ->
  is_address interactionLogic = true ->
  is_address profileTokenURILogic = true ->
  let r := main get_deployment_address address_of_key cfg
             (initial_world counts deployedBytecode) in
  let log := sent (snd r) in
  let patched := LensHub_deployedBytecode (snd r) in
  fst r = inr tt /\
  (creates log "PublishingLogic" publishingLogic /\
   creates log "InteractionLogic" interactionLogic /\
   creates log "ProfileTokenURILogic" profileTokenURILogic) /\
  (forall lib,
      library_hex (address lib) = lower (drop 2 (address lib)) /\
      String.length (library_hex (address lib)) = 40%nat) /\
  (forall lib, contains (token lib) patched = false) /\
  (forall layout,
      code_is_hex layout = true ->
      deployedBytecode = render token layout ->
      patched = render (fun lib => library_hex (address lib)) layout) /\
  (forall lib,
      contains (token lib) deployedBytecode = false ->
      patched
      = patch_only (filter (fun l => negb (library_eqb l lib))
                      [PublishingLogic; InteractionLogic; ProfileTokenURILogic])
          address deployedBytecode) /\
  ((forall lib, contains (token lib) deployedBytecode = false) ->
   patched = deployedBytecode).
Proof.
  intros Hc Hacc n0 publishingLogic interactionLogic profileTokenURILogic address
    H1 H2 H3 r log patched.
  destruct (patch_libraries_facts publishingLogic interactionLogic
              profileTokenURILogic H1 H2 H3) as [F1 [F2 [F3 [F4 F5]]]].
  assert (Hpatched : patched
                     = patch_libraries publishingLogic interactionLogic
                         profileTokenURILogic deployedBytecode).
  { exact (main_patches_LensHub get_deployment_address address_of_key cfg counts
             deployedBytecode deployer governance treasury others Hc Hacc). }
  split; [exact (main_returns get_deployment_address address_of_key cfg counts
                   deployedBytecode deployer governance treasury others Hc Hacc)|].
  split; [exact (main_deploys_libraries get_deployment_address address_of_key cfg
                   counts deployedBytecode deployer governance treasury others
                   Hc Hacc)|].
  split; [exact F1|].
  rewrite Hpatched. split; [intros lib; apply F2|]. split.
  - intros layout Hcode ->. now apply F3.
  - split; [intros lib; apply F4 | apply F5].
Qed.

End PatchedArtifact.

Lemma patch_libraries_resolves_witness :
  LensHub_deployedBytecode
    (snd (main sample_address (fun k => k) sample_settings
            (initial_world sample_counts
               (render token [Code "6080"; Placeholder InteractionLogic; Code "5b";
                              Placeholder PublishingLogic;
                              Placeholder InteractionLogic]))))
  = "6080" ++ "00000000000000000000000000000000000000a9" ++ "5b"
    ++ "00000000000000000000000000000000000000a8"
    ++ "00000000000000000000000000000000000000a9".
Proof.
  apply (proj1 (proj2 (proj2 (proj2 (proj2
           (patch_libraries_resolves sample_address (fun k => k) sample_settings
              sample_counts
              (render token [Code "6080"; Placeholder InteractionLogic; Code "5b";
                             Placeholder PublishingLogic;
                             Placeholder InteractionLogic])
              "0xD" "0xG" "0xT" [] eq_refl eq_refl eq_refl eq_refl eq_refl)))))
           [Code "6080"; Placeholder InteractionLogic; Code "5b";
            Placeholder PublishingLogic; Placeholder InteractionLogic]);
    reflexivity.
Defined.

(** * Further properties of the verification client *)

Section TraceViews.

Local Open Scope list_scope.

Lemma quiet_app (tr1 tr2 : trace) : quiet (tr1 ++ tr2) = quiet tr1 ++ quiet tr2.
Proof. unfold quiet. apply filter_app. Qed.

Lemma http_app (tr1 tr2 : trace) : http (tr1 ++ tr2) = http tr1 ++ http tr2.
Proof. unfold http. apply flat_map_app. Qed.

Lemma requests_http (tr : trace) : requests tr = List.length (http tr).
Proof.
  unfold requests, http. induction tr as [|[r|n|l] tr IH]; cbn; congruence.
Qed.

Lemma same_after {A} (evs : trace) (r1 r2 : run A) :
  quiet evs = evs -> same_but_prints r1 r2 ->
  same_but_prints (after evs r1) (after evs r2).
Proof.
  intros He [H1 H2]. split; cbn; [exact H1|]. now rewrite quiet_app, He, H2.
Qed.

Lemma same_bind {A B} (m1 m2 : run A) (k1 k2 : A -> run B) :
  same_but_prints m1 m2 ->
  (forall a, same_but_prints (k1 a) (k2 a)) ->
  same_but_prints (bind m1 k1) (bind m2 k2).
Proof.
  destruct m1 as [o1 t1], m2 as [o2 t2]. intros [H1 H2] Hk.
  cbn in H1, H2. subst o2 t2.
  destruct o1 as [a| e |]; unfold bind; cbn [fst snd];
    [|split; reflexivity|split; reflexivity].
  destruct (Hk a) as [K1 K2]. split; cbn; [exact K1|].
  now rewrite quiet_app, K2.
Qed.

Lemma same_refl {A} (r : run A) : quiet (snd r) = snd r -> same_but_prints r r.
Proof. now split. Qed.

End TraceViews.

Section Silent.

Local Open Scope run_scope.

Lemma http_quiet (tr : trace) : http (quiet tr) = http tr.
Proof.
  unfold http, quiet. induction tr as [|[r|n|l] tr IH]; cbn; congruence.
Qed.

Lemma sleeps_quiet (tr : trace) : sleeps (quiet tr) = sleeps tr.
Proof.
  unfold sleeps, quiet. induction tr as [|[r|n|l] tr IH]; cbn; congruence.
Qed.

Lemma same_say (line : print_line) : same_but_prints (say false line) (say true line).
Proof. now split. Qed.

Lemma await_indexing_silent (url : string) (params : txlist_params)
    (script : list response) (i : Z) :
  same_but_prints (await_indexing url params false i script)
                  (await_indexing url params true i script).
Proof.
  revert i; induction script as [|r script IH]; intros i;
    cbn [await_indexing]; apply same_after; try reflexivity.
  - now split.
  - destruct (negb (status_code r =? 200)); [now split|].
    destruct (Py.int (status (json r))) as [st|]; [|now split].
    destruct (st =? 1); [now split|].
    destruct (i >=? 10); [now split|].
    apply same_bind; [destruct (i =? 0); now split|]. intros _.
    apply same_bind; [now split|]. intros _. apply IH.
Qed.

Lemma poll_status_silent (url : string) (params : status_params)
    (script : list response) :
  same_but_prints (poll_status url params false script)
                  (poll_status url params true script).
Proof.
  induction script as [|r script IH];
    cbn [poll_status]; apply same_after; try reflexivity.
  - now split.
  - destruct (negb (status_code r =? 200)); [now split|].
    destruct (pyval_eq_str (result (json r)) "Pending in queue").
    + apply same_bind; [apply same_say|]. intros _.
      apply same_bind; [now split|]. intros _. apply IH.
    + apply same_bind; [apply same_say|]. intros _. now split.
Qed.

Lemma publish_source_silent (env : environment) (self : container)
    (address : string) (script : list response) :
  same_but_prints (publish_source env self address false script)
                  (publish_source env self address true script).
Proof.
  unfold publish_source.
  apply same_bind; [now apply same_refl; destruct (api_credentials env)|].
  intros cred.
  apply same_bind;
    [now apply same_refl; destruct (fst (get_verification_info self))|].
  intros contract_info.
  apply same_bind; [apply await_indexing_silent|]. intros indexed.
  apply same_bind;
    [now apply same_refl;
         destruct (constructor_arguments_of (fst indexed) contract_info)|].
  intros constructor_arguments.
  apply same_bind;
    [now apply same_refl;
         destruct (flattener_of (snd (get_verification_info self)))|].
  intros fl.
  apply same_bind.
  { unfold post. apply same_after; [reflexivity|].
    now destruct (snd indexed). }
  intros posted. unfold verification_result.
  apply same_bind;
    [now apply same_refl; destruct (negb (status_code (fst posted) =? 200))|].
  intros _.
  apply same_bind;
    [now apply same_refl; destruct (Py.int (status (json (fst posted))))|].
  intros st.
  apply same_bind; [now apply same_refl; destruct (negb (st =? 1))|].
  intros _.
  apply same_bind; [apply same_say|]. intros _.
  apply same_bind; [now split|]. intros _.
  apply poll_status_silent.
Qed.

(** X1: the [silent] flag changes nothing but the printing: with and
    without it [publish_source] ends the same way, and the silent trace is
    the loud one with its prints removed, so the requests and the sleeps
    are the same. *)
Theorem silent_only_silences (env : environment) (self : container)
    (address : string) (script : list response) :
  let loud := publish_source env self address false script in
  let silent := publish_source env self address true script in
  fst silent = fst loud /\
  snd silent = quiet (snd loud) /\
  http (snd silent) = http (snd loud) /\
  sleeps (snd silent) = sleeps (snd loud).
Proof.
  destruct (publish_source_silent env self address script) as [H1 H2].
  cbv zeta. rewrite <- H2, http_quiet, sleeps_quiet. now repeat split.
Qed.

End Silent.

Section Protocol.

Local Open Scope run_scope.
Local Open Scope list_scope.

Lemma repeat_snoc {A} (x : A) (n : nat) : repeat x n ++ [x] = x :: repeat x n.
Proof. induction n as [|n IH]; cbn; [reflexivity | now rewrite IH]. Qed.

(** The indexing loop only asks for the transaction list, at most
    [11 - i] times, and sleeps 10 seconds between two requests. *)
Lemma http_Http (r : request) (tr : trace) : http (Http r :: tr) = r :: http tr.
Proof. reflexivity. Qed.

Lemma http_Sleep (n : Z) (tr : trace) : http (Sleep n :: tr) = http tr.
Proof. reflexivity. Qed.

Lemma http_Print (l : print_line) (tr : trace) : http (Print l :: tr) = http tr.
Proof. reflexivity. Qed.

Lemma sleeps_Http (r : request) (tr : trace) : sleeps (Http r :: tr) = sleeps tr.
Proof. reflexivity. Qed.

Lemma sleeps_Sleep (n : Z) (tr : trace) : sleeps (Sleep n :: tr) = n :: sleeps tr.
Proof. reflexivity. Qed.

Lemma sleeps_Print (l : print_line) (tr : trace) : sleeps (Print l :: tr) = sleeps tr.
Proof. reflexivity. Qed.

Ltac view_trace :=
  repeat first [ rewrite http_Http | rewrite http_Sleep | rewrite http_Print
               | rewrite sleeps_Http | rewrite sleeps_Sleep | rewrite sleeps_Print ].

Ltac shape_done :=
  cbn [fst snd after bind raise ret emit say app];
  view_trace;
  repeat match goal with H : _ = repeat _ _ |- _ => rewrite H; clear H end;
  cbn [http sleeps flat_map app repeat List.length];
  repeat split; try reflexivity; try lia.

Lemma await_indexing_shape (url : string) (params : txlist_params) (silent : bool)
    (script : list response) (i : Z) :
  0 <= i <= 10 ->
  exists n,
    http (snd (await_indexing url params silent i script))
    = repeat (GetTxList url params) (S n) /\
    sleeps (snd (await_indexing url params silent i script)) = repeat 10 n /\
    i + Z.of_nat n <= 10 /\
    (n <= List.length script)%nat.
Proof.
  revert i; induction script as [|r script IH]; intros i Hi;
    cbn [await_indexing].
  - exists 0%nat. split; [|split; [|split]]; shape_done.
  - destruct (negb (status_code r =? 200));
      [exists 0%nat; split; [|split; [|split]]; shape_done|].
    destruct (Py.int (status (json r))) as [st|];
      [|exists 0%nat; split; [|split; [|split]]; shape_done].
    destruct (st =? 1); [exists 0%nat; split; [|split; [|split]]; shape_done|].
    destruct (i >=? 10) eqn:E;
      [exists 0%nat; split; [|split; [|split]]; shape_done|].
    rewrite Z.geb_leb in E. apply Z.leb_gt in E.
    destruct (IH (i + 1) ltac:(lia)) as [n [H1 [H2 [H3 H4]]]].
    exists (S n).
    destruct (await_indexing url params silent (i + 1) script) as [o tr].
    cbn [snd] in H1, H2.
    destruct ((i =? 0) && negb silent); destruct o;
      (split; [|split; [|split]]); shape_done.
Qed.

Lemma poll_status_shape (url : string) (params : status_params) (silent : bool)
    (script : list response) :
  exists m,
    http (snd (poll_status url params silent script))
    = repeat (GetStatus url params) (S m) /\
    sleeps (snd (poll_status url params silent script)) = repeat 10 m /\
    (m <= List.length script)%nat.
Proof.
  induction script as [|r script IH]; cbn [poll_status].
  - exists 0%nat. split; [|split]; shape_done.
  - destruct (negb (status_code r =? 200));
      [exists 0%nat; split; [|split]; shape_done|].
    destruct (pyval_eq_str (result (json r)) "Pending in queue").
    + destruct IH as [m [H1 [H2 H3]]]. exists (S m).
      destruct (poll_status url params silent script) as [o tr].
      cbn [snd] in H1, H2.
      destruct silent; destruct o; (split; [|split]); shape_done.
    + exists 0%nat. destruct silent; (split; [|split]); shape_done.
Qed.

Lemma verification_result_shape (url api_key : string) (silent : bool)
    (r : response) (rest : list response) :
  exists m k,
    http (snd (verification_result url api_key silent r rest))
    = repeat (GetStatus url (params_status api_key (result (json r)))) m /\
    sleeps (snd (verification_result url api_key silent r rest)) = repeat 10 k.
Proof.
  unfold verification_result.
  destruct (negb (status_code r =? 200)); [exists 0%nat, 0%nat; now split|].
  destruct (Py.int (status (json r))) as [st|]; [|exists 0%nat, 0%nat; now split].
  destruct (negb (st =? 1)) eqn:E;
    [exists 0%nat, 0%nat;
     cbn [bind lift raise ret after fst snd app]; rewrite E; now split|].
  destruct (poll_status_shape url (params_status api_key (result (json r)))
              silent rest) as [m [H1 [H2 _]]].
  exists (S m), (S m).
  destruct (poll_status url (params_status api_key (result (json r))) silent rest)
    as [o tr].
  cbn [snd] in H1, H2.
  cbn [bind lift raise ret after fst snd app]. rewrite E.
  destruct silent; destruct o; split; shape_done.
Qed.

(** What the indexing loop hands on is the script without the replies
    to its requests. *)
Lemma await_indexing_rest (url : string) (params : txlist_params) (silent : bool)
    (script script' : list response) (i : Z) (data : api_data) :
  fst (await_indexing url params silent i script) = Returned (data, script') ->
  skipn (List.length (http (snd (await_indexing url params silent i script)))) script
  = script'.
Proof.
  revert i; induction script as [|r script IH]; intros i; [discriminate|].
  cbn [await_indexing].
  destruct (negb (status_code r =? 200)); [discriminate|].
  destruct (Py.int (status (json r))) as [st|]; [|discriminate].
  destruct (st =? 1); [now intros [= <- <-]|].
  destruct (i >=? 10); [discriminate|].
  specialize (IH (i + 1)).
  destruct (await_indexing url params silent (i + 1) script) as [o tr].
  cbn [fst snd] in IH. intros H.
  assert (Ho : o = Returned (data, script')).
  { destruct ((i =? 0) && negb silent); destruct o; cbn in H;
      solve [discriminate | exact H]. }
  specialize (IH Ho).
  destruct ((i =? 0) && negb silent);
    cbn [fst snd after bind raise ret emit say app]; view_trace;
    cbn [List.length skipn]; rewrite ?http_app; cbn [http flat_map app];
    exact IH.
Qed.

Lemma skipn_nth_error {A} (n : nat) (l rest : list A) (x : A) :
  skipn n l = x :: rest -> nth_error l n = Some x.
Proof.
  revert l; induction n as [|n IH]; intros [|y l]; cbn; try discriminate.
  - now intros [= -> _].
  - apply IH.
Qed.

Ltac protocol_done :=
  split; [|split; [lia|split; [cbn [List.length]; lia
                              |split; [try discriminate; reflexivity
                                      |split; [try (intros M; now destruct M)|]]]]].

(** X2: whatever the explorer replies, the requests of [publish_source]
    come in this order: the transaction-list query, at most 11 times; then
    at most one POST of the verification request; then, only after a POST,
    status queries, all with the same GUID, which is the [result] of the
    reply to the POST (the reply that follows those to the
    transaction-list queries).  They all go to the configured explorer URL
    with the API key of the environment, and every sleep is one of 10
    seconds.  Without credentials nothing at all is done. *)
Theorem request_protocol (env : environment) (self : container) (address : string)
    (silent : bool) (script : list response) :
  (forall e, api_credentials env = inl e ->
             publish_source env self address silent script = (Raised e, [])) /\
  (forall url api_key,
      api_credentials env = inr (url, api_key) ->
      let tr := snd (publish_source env self address silent script) in
      exists n posted m guid k,
        http tr
        = repeat (GetTxList url (params_tx api_key address)) n
          ++ map (PostVerify url) posted
          ++ repeat (GetStatus url (params_status api_key guid)) m /\
        (n <= 11)%nat /\
        (List.length posted <= 1)%nat /\
        (posted = [] -> m = 0%nat) /\
        (m <> 0%nat ->
         exists accepted,
           nth_error script n = Some accepted /\ guid = result (json accepted)) /\
        sleeps tr = repeat 10 k).
Proof.
  split.
  - intros e H. unfold publish_source. now rewrite H.
  - intros url api_key Hcred tr. subst tr.
    remember (publish_source env self address silent script) as run eqn:Hrun.
    destruct (fst (get_verification_info self)) as [e|contract_info] eqn:Hinfo.
    { exists 0%nat, [], 0%nat, (PStr EmptyString), 0%nat.
      unfold publish_source in Hrun. rewrite Hcred in Hrun. cbn [lift] in Hrun.
      unfold ret at 1 in Hrun. rewrite bind_returned, after_nil, Hinfo in Hrun.
      subst run. protocol_done; reflexivity. }
    destruct (info_flattener self contract_info Hinfo) as [fl [Hflat _]].
    rewrite (publish_source_unfold env self address silent url api_key contract_info fl
               Hcred Hinfo Hflat) in Hrun.
    destruct (await_indexing_shape url (params_tx api_key address) silent script 0
                ltac:(lia)) as [n [H1 [H2 [H3 _]]]].
    pose proof (await_indexing_rest url (params_tx api_key address) silent script) as Hrest.
    destruct (await_indexing url (params_tx api_key address) silent 0 script)
      as [[[data script']| e |] tr] eqn:Hix; cbn [snd] in H1, H2.
    2, 3: exists (S n), [], 0%nat, (PStr EmptyString), n;
          unfold bind in Hrun; cbn [fst snd] in Hrun; subst run;
          cbn [fst snd map app repeat];
          rewrite H1, H2, app_nil_r; protocol_done; reflexivity.
    specialize (Hrest script' 0 data). rewrite Hix in Hrest. cbn [fst snd] in Hrest.
    specialize (Hrest eq_refl). rewrite H1, repeat_length in Hrest.
    rewrite bind_returned in Hrun. cbn [fst snd] in Hrun.
    destruct (constructor_arguments_of data contract_info) as [e|args].
    { exists (S n), [], 0%nat, (PStr EmptyString), n.
      cbn [lift] in Hrun. unfold raise, bind, after in Hrun.
      cbn [fst snd] in Hrun. subst run. cbn [snd map app repeat].
      rewrite !app_nil_r, H1, H2. protocol_done; reflexivity. }
    cbn [lift] in Hrun. unfold ret at 1 in Hrun.
    rewrite bind_returned, after_nil in Hrun.
    unfold post in Hrun. rewrite bind_after, after_after in Hrun.
    destruct script' as [|r rest].
    { exists (S n), [payload_verification api_key address fl contract_info args
                       (license_code (license_identifier contract_info))],
        0%nat, (PStr EmptyString), n.
      unfold bind, after in Hrun. cbn [fst snd] in Hrun. subst run.
      cbn [snd map repeat].
      rewrite !app_nil_r, http_app, sleeps_app, H1, H2.
      protocol_done; cbn [http sleeps flat_map app]; now rewrite ?app_nil_r. }
    unfold ret in Hrun. rewrite bind_returned, after_nil in Hrun.
    cbn [fst snd] in Hrun.
    destruct (verification_result_shape url api_key silent r rest)
      as [m [k [V1 V2]]].
    exists (S n), [payload_verification api_key address fl contract_info args
                     (license_code (license_identifier contract_info))],
      m, (result (json r)), (n + k)%nat.
    unfold after in Hrun. subst run. cbn [snd].
    rewrite !http_app, !sleeps_app, H1, H2, V1, V2.
    split; [|split; [lia|split; [cbn [List.length]; lia
                                |split; [discriminate|split]]]];
      cbn [http sleeps flat_map app map].
    + now rewrite <- app_assoc.
    + intros _. exists r. split; [|reflexivity].
      now apply (skipn_nth_error _ _ rest).
    + now rewrite app_nil_r, repeat_app.
Qed.

Lemma request_protocol_witness :
  let script := [not_found; found "0xaaaaaaaaaabeef";
                 reply 200 "1" "OK" (PStr "guid");
                 reply 200 "1" "OK" (PStr "Pass - Verified")] in
  let tr := snd (publish_source
                   (etherscan_env "https://api.etherscan.io/api" (Some "K"))
                   (sample_container "Solidity") "0xabc" true script) in
  exists n posted m guid k,
    http tr
    = repeat (GetTxList "https://api.etherscan.io/api" (params_tx "K" "0xabc")) n
      ++ map (PostVerify "https://api.etherscan.io/api") posted
      ++ repeat (GetStatus "https://api.etherscan.io/api" (params_status "K" guid)) m /\
    (n <= 11)%nat /\
    (List.length posted <= 1)%nat /\
    (posted = [] -> m = 0%nat) /\
    (m <> 0%nat ->
     exists accepted,
       nth_error script n = Some accepted /\ guid = result (json accepted)) /\
    sleeps tr = repeat 10 k.
Proof.
  exact (proj2 (request_protocol
                  (etherscan_env "https://api.etherscan.io/api" (Some "K"))
                  (sample_container "Solidity") "0xabc" true
                  [not_found; found "0xaaaaaaaaaabeef";
                   reply 200 "1" "OK" (PStr "guid");
                   reply 200 "1" "OK" (PStr "Pass - Verified")])
           "https://api.etherscan.io/api" "K" eq_refl).
Defined.

End Protocol.

Section Failures.

Local Open Scope run_scope.
Local Open Scope list_scope.

Variables (env : environment) (self : container) (address : string) (silent : bool).
Variables (url api_key : string) (contract_info : verification_info) (fl : flattener).

Hypothesis credentials : api_credentials env = inr (url, api_key).
Hypothesis info : fst (get_verification_info self) = inr contract_info.
Hypothesis flat : flattener_of (snd (get_verification_info self)) = inr fl.

(** After some waiting the explorer lists the contract: what
    [publish_source] has done by then, and what is left to do. *)
Lemma publish_source_listed (waits : list response) (listed : response)
    (rest : list response) (constructor_arguments : string) :
  forallb is_not_indexed waits = true -> (List.length waits <= 10)%nat ->
  is_indexed listed = true ->
  constructor_arguments_of (json listed) contract_info = inr constructor_arguments ->
  exists polled payload,
    publish_source env self address silent (waits ++ listed :: rest)
    = after (polled ++ [Http (PostVerify url payload)])
        match rest with
        | [] => (Starved, [])
        | r :: rest' => verification_result url api_key silent r rest'
        end /\
    requests polled = S (List.length waits) /\
    constructorArguements payload = constructor_arguments.
Proof.
  intros Hwaits Hlen Hlisted Hargs.
  destruct (await_indexing_waits url (params_tx api_key address) silent waits
              (listed :: rest) 0 Hwaits ltac:(lia)) as [E1 [E2 _]].
  cbv zeta in E1, E2.
  rewrite await_indexing_indexed in E1, E2 by assumption. cbn [fst snd] in E1, E2.
  do 2 eexists. split; [|split].
  - apply (publish_source_indexed env self address silent url api_key contract_info
             fl credentials info flat _ _ _ _ E1 Hargs).
  - rewrite E2. cbn. lia.
  - reflexivity.
Qed.

Lemma await_indexing_http_error (params : txlist_params) (i : Z) (bad : response)
    (rest : list response) :
  is_http_error bad = true ->
  await_indexing url params silent i (bad :: rest)
  = (Raised (ConnectionError (status_code bad) url (text bad)),
     [Http (GetTxList url params)]).
Proof. unfold is_http_error. intros H. cbn [await_indexing]. now rewrite H. Qed.

Lemma poll_status_http_error (params : status_params) (bad : response)
    (rest : list response) :
  is_http_error bad = true ->
  poll_status url params silent (bad :: rest)
  = (Raised (ConnectionError (status_code bad) url (text bad)),
     [Http (GetStatus url params)]).
Proof. unfold is_http_error. intros H. cbn [poll_status]. now rewrite H. Qed.

Lemma verification_result_http_error (bad : response) (rest : list response) :
  is_http_error bad = true ->
  verification_result url api_key silent bad rest
  = (Raised (ConnectionError (status_code bad) url (text bad)), []).
Proof. unfold is_http_error, verification_result. intros H. now rewrite H. Qed.

Lemma verification_result_rejected (r : response) (rest : list response) :
  is_rejected r = true ->
  verification_result url api_key silent r rest
  = (Raised (ValueErrorWith "Failed to submit verification request: "
               (result (json r))), []).
Proof.
  intros H. apply is_not_indexed_inv in H as [H1 [st [H2 H3]]].
  unfold verification_result. rewrite H1, H2. cbn. now rewrite H3.
Qed.

Lemma verification_result_accepted (r : response) (rest : list response) :
  is_indexed r = true ->
  verification_result url api_key silent r rest
  = after ((if silent then [] else [Print Submitted]) ++ [Sleep 10])
      (poll_status url (params_status api_key (result (json r))) silent rest).
Proof.
  intros H. apply is_indexed_inv in H as [H1 H2].
  unfold verification_result. rewrite H1, H2.
  destruct (poll_status url (params_status api_key (result (json r))) silent rest)
    as [o tr].
  destruct silent; destruct o; reflexivity.
Qed.

End Failures.

(** X3: an HTTP status other than 200 is fatal wherever it arrives, in
    the indexing loop, in reply to the POST or in the status loop:
    [publish_source] raises [ConnectionError] with that status, the URL and
    the body, and the failed request is its last one; nothing is retried. *)
Theorem http_error_is_fatal (env : environment) (self : container)
    (address : string) (silent : bool) (url api_key : string)
    (contract_info : verification_info) (bad : response) :
  api_credentials env = inr (url, api_key) ->
  fst (get_verification_info self) = inr contract_info ->
  is_http_error bad = true ->
  let failure := ConnectionError (status_code bad) url (text bad) in
  (forall waits rest,
      forallb is_not_indexed waits = true -> (List.length waits <= 10)%nat ->
      let run := publish_source env self address silent (waits ++ bad :: rest) in
      fst run = Raised failure /\
      requests (snd run) = S (List.length waits)) /\
  (forall waits listed constructor_arguments rest,
      forallb is_not_indexed waits = true -> (List.length waits <= 10)%nat ->
      is_indexed listed = true ->
      constructor_arguments_of (json listed) contract_info = inr constructor_arguments ->
      let run := publish_source env self address silent
                   (waits ++ listed :: bad :: rest) in
      fst run = Raised failure /\
      requests (snd run) = (List.length waits + 2)%nat) /\
  (forall waits listed constructor_arguments accepted pendings rest,
      forallb is_not_indexed waits = true -> (List.length waits <= 10)%nat ->
      is_indexed listed = true ->
      constructor_arguments_of (json listed) contract_info = inr constructor_arguments ->
      is_indexed accepted = true ->
      forallb is_pending pendings = true ->
      let run := publish_source env self address silent
                   (waits ++ listed :: accepted :: pendings ++ bad :: rest) in
      fst run = Raised failure /\
      requests (snd run) = (List.length waits + List.length pendings + 3)%nat).
Proof.
  intros Hcred Hinfo Hbad failure.
  destruct (info_flattener self contract_info Hinfo) as [fl [Hflat _]].
  split; [|split].
  - intros waits rest Hwaits Hlen. cbv zeta.
    destruct (await_indexing_waits url (params_tx api_key address) silent waits
                (bad :: rest) 0 Hwaits ltac:(lia)) as [E1 [E2 _]].
    cbv zeta in E1, E2.
    rewrite await_indexing_http_error in E1, E2 by assumption.
    cbn [fst snd] in E1, E2.
    rewrite (publish_source_not_indexed env self address silent url api_key
               contract_info fl Hcred Hinfo Hflat _ _ E1).
    cbn [fst snd]. split; [reflexivity|]. rewrite E2. cbn. lia.
  - intros waits listed constructor_arguments rest Hwaits Hlen Hlisted Hargs.
    cbv zeta.
    destruct (publish_source_listed env self address silent url api_key contract_info fl
                Hcred Hinfo Hflat waits listed (bad :: rest) constructor_arguments
                Hwaits Hlen Hlisted Hargs) as [polled [payload [E [R _]]]].
    rewrite E, verification_result_http_error by assumption.
    unfold after; cbn [fst snd]. split; [reflexivity|].
    rewrite app_nil_r, requests_app, R. cbn. lia.
  - intros waits listed constructor_arguments accepted pendings rest
      Hwaits Hlen Hlisted Hargs Haccepted Hpendings.
    cbv zeta.
    destruct (publish_source_listed env self address silent url api_key contract_info fl
                Hcred Hinfo Hflat waits listed (accepted :: pendings ++ bad :: rest)
                constructor_arguments Hwaits Hlen Hlisted Hargs)
      as [polled [payload [E [R _]]]].
    rewrite E, verification_result_accepted by assumption.
    destruct (poll_status_pendings url
                (params_status api_key (result (json accepted))) silent
                pendings (bad :: rest) Hpendings) as [P1 [P2 _]].
    cbv zeta in P1, P2.
    rewrite poll_status_http_error in P1, P2 by assumption.
    cbn [fst snd] in P1, P2.
    unfold after; cbn [fst snd]. split; [exact P1|].
    rewrite !requests_app, R, P2. destruct silent; cbn; lia.
Qed.

Lemma http_error_is_fatal_witness :
  fst (publish_source (etherscan_env "https://api.etherscan.io/api" (Some "K"))
         (sample_container "Solidity") "0xabc" false
         ([not_found] ++ found "0xaaaaaaaaaabeef"
            :: {| status_code := 502; text := "Bad Gateway";
                  json := {| status := EmptyString; message := EmptyString;
                             result := PStr EmptyString |} |} :: []))
  = Raised (ConnectionError 502 "https://api.etherscan.io/api" "Bad Gateway").
Proof.
  refine (proj1 (proj1 (proj2 (http_error_is_fatal
            (etherscan_env "https://api.etherscan.io/api" (Some "K"))
            (sample_container "Solidity") "0xabc" false
            "https://api.etherscan.io/api" "K" sample_info
            {| status_code := 502; text := "Bad Gateway";
               json := {| status := EmptyString; message := EmptyString;
                          result := PStr EmptyString |} |}
            eq_refl eq_refl eq_refl))
            [not_found] (found "0xaaaaaaaaaabeef") "beef" []
            eq_refl _ eq_refl eq_refl)).
  simpl; lia.
Defined.

(** X4: a POST answered with HTTP 200 but a status other than 1 ends
    [publish_source] with the explorer's [result] in a [ValueError]; the
    POST is the last request, no status query follows.  A status that is no
    integer literal is an error of [int()] at the reply that carries it. *)
Theorem submission_rejected (env : environment) (self : container)
    (address : string) (silent : bool) (url api_key : string)
    (contract_info : verification_info) (waits : list response)
    (listed : response) (constructor_arguments : string) :
  api_credentials env = inr (url, api_key) ->
  fst (get_verification_info self) = inr contract_info ->
  forallb is_not_indexed waits = true -> (List.length waits <= 10)%nat ->
  is_indexed listed = true ->
  constructor_arguments_of (json listed) contract_info = inr constructor_arguments ->
  (forall rejected rest,
      is_rejected rejected = true ->
      let run := publish_source env self address silent
                   (waits ++ listed :: rejected :: rest) in
      fst run = Raised (ValueErrorWith "Failed to submit verification request: "
                          (result (json rejected))) /\
      requests (snd run) = (List.length waits + 2)%nat /\
      exists polled payload,
        http (snd run) = (polled ++ [PostVerify url payload])%list) /\
  (forall garbled rest,
      status_code garbled = 200 -> Py.int (status (json garbled)) = None ->
      fst (publish_source env self address silent (waits ++ garbled :: rest))
      = Raised (InvalidLiteral (status (json garbled))) /\
      fst (publish_source env self address silent
             (waits ++ listed :: garbled :: rest))
      = Raised (InvalidLiteral (status (json garbled)))).
Proof.
  intros Hcred Hinfo Hwaits Hlen Hlisted Hargs.
  destruct (info_flattener self contract_info Hinfo) as [fl [Hflat _]].
  split.
  - intros rejected rest Hrej. cbv zeta.
    destruct (publish_source_listed env self address silent url api_key contract_info fl
                Hcred Hinfo Hflat waits listed (rejected :: rest) constructor_arguments
                Hwaits Hlen Hlisted Hargs) as [polled [payload [E [R _]]]].
    rewrite E, verification_result_rejected by assumption.
    unfold after; cbn [fst snd]. split; [reflexivity|].
    rewrite app_nil_r. split.
    + rewrite requests_app, R. cbn. lia.
    + exists (http polled), payload. now rewrite http_app.
  - intros garbled rest H200 Hint. split.
    + destruct (await_indexing_waits url (params_tx api_key address) silent waits
                  (garbled :: rest) 0 Hwaits ltac:(lia)) as [E1 _].
      cbv zeta in E1. cbn [await_indexing] in E1.
      rewrite H200, Hint in E1. cbn [fst negb Z.eqb Pos.eqb after raise] in E1.
      now rewrite (publish_source_not_indexed env self address silent url api_key
                     contract_info fl Hcred Hinfo Hflat _ _ E1).
    + destruct (publish_source_listed env self address silent url api_key
                  contract_info fl Hcred Hinfo Hflat waits listed (garbled :: rest)
                  constructor_arguments Hwaits Hlen Hlisted Hargs)
        as [polled [payload [E _]]].
      rewrite E. unfold verification_result. now rewrite H200, Hint.
Qed.

Lemma submission_rejected_witness :
  fst (publish_source (etherscan_env "https://api.etherscan.io/api" (Some "K"))
         (sample_container "Solidity") "0xabc" true
         ([] ++ found "0xaaaaaaaaaabeef"
             :: reply 200 "0" "NOTOK" (PStr "Contract source code already verified")
             :: []))
  = Raised (ValueErrorWith "Failed to submit verification request: "
              (PStr "Contract source code already verified")).
Proof.
  refine (proj1 (proj1 (submission_rejected
            (etherscan_env "https://api.etherscan.io/api" (Some "K"))
            (sample_container "Solidity") "0xabc" true
            "https://api.etherscan.io/api" "K" sample_info
            [] (found "0xaaaaaaaaaabeef") "beef"
            eq_refl eq_refl eq_refl _ eq_refl eq_refl)
            (reply 200 "0" "NOTOK" (PStr "Contract source code already verified"))
            [] eq_refl)).
  simpl; lia.
Defined.

Section Soundness.

Local Open Scope run_scope.
Local Open Scope list_scope.

Lemma await_indexing_returns (url : string) (params : txlist_params) (silent : bool)
    (script script' : list response) (i : Z) (data : api_data) :
  fst (await_indexing url params silent i script) = Returned (data, script') ->
  exists waits listed,
    script = waits ++ listed :: script' /\
    forallb is_not_indexed waits = true /\
    is_indexed listed = true /\
    data = json listed /\
    i + Z.of_nat (List.length waits) <= Z.max i 10.
Proof.
  revert i; induction script as [|r script IH]; intros i; [discriminate|].
  cbn [await_indexing].
  destruct (status_code r =? 200) eqn:E200; [|discriminate]. cbn [negb].
  destruct (Py.int (status (json r))) as [st|] eqn:Eint; [|discriminate].
  destruct (st =? 1) eqn:E1.
  - cbn. intros [= <- <-]. exists [], r. cbn.
    unfold is_indexed, status_is_one. rewrite E200, Eint. cbn. rewrite E1.
    repeat split; lia.
  - destruct (i >=? 10) eqn:Ei; [discriminate|].
    rewrite Z.geb_leb in Ei. apply Z.leb_gt in Ei.
    specialize (IH (i + 1)).
    destruct (await_indexing url params silent (i + 1) script) as [o tr].
    intros H.
    assert (Ho : o = Returned (data, script')).
    { destruct ((i =? 0) && negb silent); destruct o; cbn in H;
        solve [discriminate | exact H]. }
    destruct (IH Ho) as [waits [listed [-> [Hw [Hl [Hd Hn]]]]]].
    exists (r :: waits), listed. cbn [app forallb List.length].
    unfold is_not_indexed at 1, status_is_one. rewrite E200, Eint. cbn [option_map andb].
    rewrite E1. cbn [negb andb]. repeat split; try assumption. lia.
Qed.

Lemma poll_status_returns (url : string) (params : status_params) (silent : bool)
    (script : list response) (b : bool) :
  fst (poll_status url params silent script) = Returned b ->
  exists pendings final rest,
    script = pendings ++ final :: rest /\
    forallb is_pending pendings = true /\
    is_terminal final = true /\
    b = String.eqb (message (json final)) "OK".
Proof.
  induction script as [|r script IH]; [discriminate|].
  cbn [poll_status].
  destruct (status_code r =? 200) eqn:E200; [|discriminate]. cbn [negb].
  destruct (pyval_eq_str (result (json r)) "Pending in queue") eqn:Ep.
  - destruct (poll_status url params silent script) as [o tr].
    intros H.
    assert (Ho : o = Returned b).
    { destruct silent; destruct o; cbn in H; solve [discriminate | exact H]. }
    destruct (IH Ho) as [pendings [final [rest [-> [Hp [Hf Hb]]]]]].
    exists (r :: pendings), final, rest. cbn [app forallb].
    unfold is_pending at 1. rewrite E200, Ep. now repeat split.
  - intros H. exists [], r, script. cbn [app forallb].
    unfold is_terminal. rewrite E200, Ep.
    destruct silent; cbn in H; injection H as <-; now repeat split.
Qed.

Lemma get_verification_info_solidity (self : container) (contract_info : verification_info) :
  fst (get_verification_info self) = inr contract_info ->
  language (_build self) = "Solidity".
Proof.
  unfold get_verification_info.
  destruct (String.eqb (language (_build self)) "Vyper"); [discriminate|].
  destruct (String.eqb_spec (language (_build self)) "Solidity"); [easy | discriminate].
Qed.

(** X5: [publish_source] returns a value only after the whole exchange
    has taken place: the build is in Solidity, the credentials are there,
    and the replies were at most 10 that were not yet indexed, one that
    listed the transaction, one that accepted the POST, any number of
    pending ones and a final one; the value is whether the message of that
    final reply is "OK".  In particular it never returns [True] unless the
    explorer said "OK". *)
Theorem returns_only_after_verdict (env : environment) (self : container)
    (address : string) (silent : bool) (script : list response) (b : bool) :
  fst (publish_source env self address silent script) = Returned b ->
  language (_build self) = "Solidity" /\
  (exists url api_key, api_credentials env = inr (url, api_key)) /\
  exists waits listed accepted pendings final rest,
    script = waits ++ listed :: accepted :: pendings ++ final :: rest /\
    forallb is_not_indexed waits = true /\
    (List.length waits <= 10)%nat /\
    is_indexed listed = true /\
    is_indexed accepted = true /\
    forallb is_pending pendings = true /\
    is_terminal final = true /\
    b = String.eqb (message (json final)) "OK".
Proof.
  intros H.
  destruct (api_credentials env) as [e|[url api_key]] eqn:Hcred.
  { unfold publish_source in H. rewrite Hcred in H. discriminate. }
  destruct (fst (get_verification_info self)) as [e|contract_info] eqn:Hinfo.
  { unfold publish_source in H. rewrite Hcred in H. cbn [lift] in H.
    unfold ret at 1 in H. rewrite bind_returned, after_nil, Hinfo in H.
    discriminate. }
  split; [exact (get_verification_info_solidity _ _ Hinfo)|].
  split; [now exists url, api_key|].
  destruct (info_flattener self contract_info Hinfo) as [fl [Hflat _]].
  rewrite (publish_source_unfold env self address silent url api_key contract_info fl
             Hcred Hinfo Hflat) in H.
  destruct (await_indexing url (params_tx api_key address) silent 0 script)
    as [[[data script']| e |] tr] eqn:Hix; try discriminate.
  rewrite bind_returned in H. cbn [fst snd after] in H.
  destruct (constructor_arguments_of data contract_info) as [e|args];
    [discriminate|].
  cbn [lift] in H. unfold ret at 1 in H. rewrite bind_returned, after_nil in H.
  unfold post in H. rewrite bind_after in H. cbn [fst after] in H.
  destruct script' as [|accepted rest]; [discriminate|].
  unfold ret in H. rewrite bind_returned, after_nil in H. cbn [fst snd] in H.
  pose proof (f_equal fst Hix) as Hix'. cbn [fst] in Hix'.
  destruct (await_indexing_returns _ _ _ _ _ _ _ Hix')
    as [waits [listed [-> [Hw [Hl [_ Hn]]]]]].
  unfold verification_result in H.
  destruct (status_code accepted =? 200) eqn:E200; [|discriminate].
  cbn [negb] in H. unfold ret at 1 in H. rewrite bind_returned, after_nil in H.
  cbv zeta in H.
  destruct (Py.int (status (json accepted))) as [st|] eqn:Eint; [|discriminate].
  cbn [lift] in H. unfold ret at 1 in H. rewrite bind_returned, after_nil in H.
  destruct (st =? 1) eqn:E1; [|discriminate].
  cbn [negb] in H. unfold ret at 1 in H. rewrite bind_returned, after_nil in H.
  assert (Hp : fst (poll_status url (params_status api_key (result (json accepted)))
                      silent rest) = Returned b).
  { destruct (poll_status url (params_status api_key (result (json accepted)))
                silent rest) as [o tr'].
    destruct silent; destruct o; cbn in H; solve [discriminate | exact H]. }
  destruct (poll_status_returns _ _ _ _ _ Hp)
    as [pendings [final [rest' [-> [Hpend [Hfinal Hb]]]]]].
  exists waits, listed, accepted, pendings, final, rest'.
  repeat split; try assumption; try lia.
  unfold is_indexed, status_is_one. rewrite E200, Eint. cbn. exact E1.
Qed.

Lemma returns_only_after_verdict_witness :
  exists final,
    In final [found "0xaaaaaaaaaabeef"; reply 200 "1" "OK" (PStr "guid");
              reply 200 "0" "NOTOK" (PStr "Fail - Unable to verify")] /\
    is_terminal final = true /\
    false = String.eqb (message (json final)) "OK".
Proof.
  destruct (returns_only_after_verdict
              (etherscan_env "https://api.etherscan.io/api" (Some "K"))
              (sample_container "Solidity") "0xabc" true
              [found "0xaaaaaaaaaabeef"; reply 200 "1" "OK" (PStr "guid");
               reply 200 "0" "NOTOK" (PStr "Fail - Unable to verify")]
              false eq_refl)
    as [_ [_ [waits [listed [accepted [pendings [final [rest
         [E [_ [_ [_ [_ [_ [Hf Hb]]]]]]]]]]]]]]].
  exists final. split; [|split; assumption].
  rewrite E. apply in_or_app. right. right. right.
  apply in_or_app. right. now left.
Defined.

End Soundness.

Section Payload.

Local Open Scope run_scope.
Local Open Scope list_scope.

(** What [get_verification_info] gives when it succeeds. *)
Lemma get_verification_info_inr (self : container) (contract_info : verification_info) :
  fst (get_verification_info self) = inr contract_info ->
  exists fl,
    (forall f, _flattener self = Some f -> fl = f) /\
    (_flattener self = None -> Flattener self = inr fl) /\
    contract_info
    = {| info_standard_json_input := standard_input_json fl;
         info_contract_name := contractName (_build self);
         info_compiler_version := version (compiler (_build self));
         info_optimizer_enabled := optimizer_enabled (compiler (_build self));
         info_optimizer_runs := optimizer_runs (compiler (_build self));
         license_identifier := license fl;
         bytecode_len := PyStr.len (bytecode (_build self)) |} /\
    snd (get_verification_info self)
    = {| _build := _build self;
         _flattener := Some fl;
         Flattener := Flattener self |}.
Proof.
  unfold get_verification_info.
  destruct (String.eqb (language (_build self)) "Vyper"); [discriminate|].
  destruct (String.eqb (language (_build self)) "Solidity"); [|discriminate].
  destruct (_flattener self) as [f|] eqn:Ef.
  - cbn [fst snd]. intros [= <-]. exists f. repeat split; congruence.
  - destruct (Flattener self) as [e|f] eqn:Eb; [discriminate|].
    cbn [fst snd]. intros [= <-]. exists f. repeat split; congruence.
Qed.

(** X6: whatever [publish_source] posts is put together from the
    container and the environment alone: the API key of the environment,
    the contract address, the flattener's source document and license (the
    cached flattener if there is one, else the one built for the
    container), the compiler version with a leading "v", the optimizer flag
    as 1 or 0 and its runs, and the contract name as file:name. *)
Theorem posted_payload (env : environment) (self : container) (address : string)
    (silent : bool) (script : list response) (url api_key : string)
    (payload : verification_payload) :
  api_credentials env = inr (url, api_key) ->
  In payload (posts (snd (publish_source env self address silent script))) ->
  exists fl,
    (forall f, _flattener self = Some f -> fl = f) /\
    (_flattener self = None -> Flattener self = inr fl) /\
    let build_json := _build self in
    apikey payload = api_key /\
    module_ payload = "contract" /\
    action payload = "verifysourcecode" /\
    contractaddress payload = address /\
    sourceCode payload = standard_input_json fl /\
    codeformat payload = "solidity-standard-json-input" /\
    contractname payload = (contract_file fl ++ ":" ++ contract_name fl)%string /\
    compilerversion payload = ("v" ++ version (compiler build_json))%string /\
    optimizationUsed payload
    = (if optimizer_enabled (compiler build_json) then 1 else 0) /\
    runs payload = optimizer_runs (compiler build_json) /\
    licenseType payload = license_code (license fl).
Proof.
  intros Hcred Hin.
  destruct (fst (get_verification_info self)) as [e|contract_info] eqn:Hinfo.
  { unfold publish_source in Hin. rewrite Hcred in Hin. cbn [lift] in Hin.
    unfold ret at 1 in Hin. rewrite bind_returned, after_nil, Hinfo in Hin.
    destruct Hin. }
  destruct (get_verification_info_inr self contract_info Hinfo)
    as [fl [Hcached [Hbuilt [Ei Es]]]].
  assert (Hflat : flattener_of (snd (get_verification_info self)) = inr fl)
    by now rewrite Es.
  destruct (await_indexing url (params_tx api_key address) silent 0 script)
    as [o tr] eqn:Hix.
  pose proof (await_indexing_posts silent url (params_tx api_key address) script 0)
    as Hnone.
  rewrite Hix in Hnone. cbn [snd] in Hnone.
  assert (Hposts :
            posts (snd (publish_source env self address silent script)) = []
            \/ exists args,
                posts (snd (publish_source env self address silent script))
                = [payload_verification api_key address fl contract_info args
                     (license_code (license_identifier contract_info))]).
  { destruct o as [[data script']| e |].
    - destruct (constructor_arguments_of data contract_info) as [e|args] eqn:Hargs.
      + left. rewrite (publish_source_unfold env self address silent url api_key
                         contract_info fl Hcred Hinfo Hflat), Hix.
        rewrite bind_returned. cbn [fst snd]. rewrite Hargs.
        cbn [lift raise bind after fst snd]. now rewrite app_nil_r.
      + right. exists args.
        apply (publish_source_posts env self address silent url api_key contract_info fl
                 Hcred Hinfo Hflat script script' data args); [now rewrite Hix | exact Hargs].
    - left. rewrite (publish_source_unfold env self address silent url api_key
                       contract_info fl Hcred Hinfo Hflat), Hix. exact Hnone.
    - left. rewrite (publish_source_unfold env self address silent url api_key
                       contract_info fl Hcred Hinfo Hflat), Hix. exact Hnone. }
  destruct Hposts as [Hp | [args Hp]]; rewrite Hp in Hin; [destruct Hin|].
  destruct Hin as [<- | []].
  exists fl. split; [exact Hcached|]. split; [exact Hbuilt|].
  rewrite Ei. cbn. repeat split.
Qed.

Lemma posted_payload_witness :
  let payload := payload_verification "K" "0xabc" sample_flattener sample_info "beef" 3 in
  In payload
     (posts (snd (publish_source
                    (etherscan_env "https://api.etherscan.io/api" (Some "K"))
                    (sample_container "Solidity") "0xabc" true
                    [found "0xaaaaaaaaaabeef"]))) /\
  licenseType payload = license_code "MIT".
Proof.
  split; [now left|].
  destruct (posted_payload
              (etherscan_env "https://api.etherscan.io/api" (Some "K"))
              (sample_container "Solidity") "0xabc" true [found "0xaaaaaaaaaabeef"]
              "https://api.etherscan.io/api" "K"
              (payload_verification "K" "0xabc" sample_flattener sample_info "beef" 3)
              eq_refl (or_introl eq_refl))
    as [fl [_ [Hbuilt Hfields]]].
  specialize (Hbuilt eq_refl). injection Hbuilt as <-.
  exact (proj2 (proj2 (proj2 (proj2 (proj2 (proj2 (proj2 (proj2 (proj2 (proj2
           Hfields)))))))))).
Defined.

(** X7: for a Solidity build, a flattener that is cached in the
    container is used and never rebuilt: [get_verification_info] succeeds
    and leaves the container as it is.  A missing one is built: if
    building raises, so does [get_verification_info], and the container
    stays without flattener (the next call builds again); if it succeeds,
    the flattener is stored and the build left alone.  After a call that
    succeeded, another call gives the same answer and changes nothing. *)
Theorem flattener_is_cached (self : container) :
  language (_build self) = "Solidity" ->
  let first := get_verification_info self in
  let self' := snd first in
  (forall f, _flattener self = Some f ->
             (exists contract_info, fst first = inr contract_info) /\ self' = self) /\
  (_flattener self = None ->
   (forall e, Flattener self = inl e -> first = (inl e, self)) /\
   (forall fl, Flattener self = inr fl ->
               (exists contract_info, fst first = inr contract_info) /\
               _flattener self' = Some fl /\
               _build self' = _build self /\
               Flattener self' = Flattener self)) /\
  (forall contract_info,
      fst first = inr contract_info ->
      get_verification_info self' = (inr contract_info, self')).
Proof.
  intros Hlang. cbv zeta. unfold get_verification_info.
  rewrite Hlang. cbn [String.eqb Ascii.eqb Bool.eqb].
  split; [|split].
  - intros f Hf. rewrite Hf. cbn [fst snd]. split; [now eexists|].
    destruct self. cbn in *. now subst.
  - intros Hnone. rewrite Hnone. split.
    + intros e He. now rewrite He.
    + intros fl Hfl. rewrite Hfl. cbn [fst snd _flattener _build Flattener].
      split; [now eexists|]. now repeat split.
  - intros contract_info.
    destruct (match _flattener self with
              | Some f => inr f
              | None => Flattener self
              end) as [e|fl]; [discriminate|].
    cbn [fst snd _build _flattener Flattener]. intros [= <-].
    rewrite Hlang. cbn [String.eqb Ascii.eqb Bool.eqb]. reflexivity.
Qed.

Lemma flattener_is_cached_witness :
  _flattener (snd (get_verification_info (sample_container "Solidity")))
  = Some sample_flattener.
Proof.
  exact (proj1 (proj2 (proj2 (proj1 (proj2
           (flattener_is_cached (sample_container "Solidity") eq_refl))
           eq_refl) sample_flattener eq_refl))).
Defined.

End Payload.

Section Credentials.

Local Open Scope list_scope.

Lemma find_first {A} (f : A -> bool) (l : list A) (x : A) :
  find f l = Some x <->
  exists pre post,
    l = pre ++ x :: post /\ f x = true /\ forall y, In y pre -> f y = false.
Proof.
  split.
  - induction l as [|a l IH]; [discriminate|]. cbn [find].
    destruct (f a) eqn:E.
    + intros [= ->]. exists [], l. now repeat split.
    + intros H. destruct (IH H) as [pre [post [-> [Hx Hpre]]]].
      exists (a :: pre), post. repeat split; [assumption|].
      intros y [<- | Hy]; [assumption | now apply Hpre].
  - intros [pre [post [-> [Hx Hpre]]]].
    induction pre as [|a pre IH]; cbn [app find]; [now rewrite Hx|].
    rewrite (Hpre a (or_introl eq_refl)). apply IH.
    intros y Hy. apply Hpre. now right.
Qed.

Lemma find_nothing {A} (f : A -> bool) (l : list A) :
  find f l = None <-> forall y, In y l -> f y = false.
Proof.
  induction l as [|a l IH]; cbn [find]; [easy|].
  destruct (f a) eqn:E; split.
  - discriminate.
  - intros H. specialize (H a (or_introl eq_refl)). congruence.
  - intros H y [<- | Hy]; [assumption | now apply IH].
  - intros H. apply IH. intros y Hy. apply H. now right.
Qed.

(** X8: [publish_source] gets past its first checks exactly when the
    network has an explorer URL, some fragment of the table occurs in it,
    and the variable named by the first such fragment, in table order, is
    set to a non-empty value; that value is the API key.  An empty value
    counts as missing. *)
Theorem credentials_resolved (env : environment) (url api_key : string) :
  api_credentials env = inr (url, api_key) <->
  explorer env = Some url /\
  api_key <> EmptyString /\
  exists pre fragment env_token post,
    _explorer_tokens env = pre ++ (fragment, env_token) :: post /\
    PyStr.contains fragment url = true /\
    (forall kv, In kv pre -> PyStr.contains (fst kv) url = false) /\
    getenv env env_token = Some api_key.
Proof.
  unfold api_credentials, resolve_env_token. split.
  - destruct (explorer env) as [u|]; [|discriminate].
    destruct (find (fun kv => PyStr.contains (fst kv) u) (_explorer_tokens env))
      as [[fragment env_token]|] eqn:F; cbn [option_map snd]; [|discriminate].
    apply find_first in F as [pre [post [E [Hk Hpre]]]].
    destruct (getenv env env_token) as [[|c key]|] eqn:G;
      try (destruct (Url.urlparse_netloc u) as [e|host]; [discriminate|];
           destruct (PyStr.index_char "." host); discriminate).
    intros [= -> <-]. split; [reflexivity|]. split; [discriminate|].
    now exists pre, fragment, env_token, post.
  - intros [-> [Hne [pre [fragment [env_token [post [E [Hk [Hpre G]]]]]]]]].
    assert (F : find (fun kv => PyStr.contains (fst kv) url) (_explorer_tokens env)
                = Some (fragment, env_token)).
    { apply find_first. now exists pre, post. }
    rewrite F. cbn [option_map snd]. rewrite G.
    destruct api_key; [congruence | reflexivity].
Qed.

Lemma credentials_resolved_witness :
  api_credentials (etherscan_env "https://api.etherscan.io/api" (Some "K"))
  = inr ("https://api.etherscan.io/api", "K").
Proof.
  apply (proj2 (credentials_resolved
                  (etherscan_env "https://api.etherscan.io/api" (Some "K"))
                  "https://api.etherscan.io/api" "K")).
  split; [reflexivity|]. split; [discriminate|].
  exists [], "etherscan", "ETHERSCAN_TOKEN", [("bscscan", "BSCSCAN_TOKEN")].
  split; [reflexivity|]. split; [reflexivity|]. split; [intros kv []|reflexivity].
Defined.

Lemma contains_refl (w : string) : PyStr.contains w w = true.
Proof.
  destruct w; cbn; [reflexivity|].
  now rewrite Ascii.eqb_refl, PyStrFacts.startswith_refl.
Qed.

Lemma startswith_app_l (w a b : string) :
  PyStr.startswith w a = true -> PyStr.startswith w (a ++ b)%string = true.
Proof.
  intros H. destruct (PyStrFacts.startswith_split _ _ H) as [r ->].
  rewrite PyStrFacts.append_assoc. apply PyStrFacts.startswith_app.
Qed.

Lemma contains_app_l (w a b : string) :
  PyStr.contains w a = true -> PyStr.contains w (a ++ b)%string = true.
Proof.
  induction a as [|x a IH]; intros H.
  - destruct w; [now destruct b | discriminate].
  - rewrite PyStrFacts.contains_cons in H. apply orb_true_iff in H as [H|H].
    + change (String x a ++ b)%string with (String x (a ++ b)%string).
      rewrite PyStrFacts.contains_cons.
      change (String x (a ++ b)%string) with (String x a ++ b)%string.
      now rewrite (startswith_app_l _ _ _ H).
    + change (String x a ++ b)%string with (String x (a ++ b)%string).
      rewrite PyStrFacts.contains_cons, (IH H). apply orb_true_r.
Qed.

Lemma contains_app_r (w a b : string) :
  PyStr.contains w b = true -> PyStr.contains w (a ++ b)%string = true.
Proof.
  intros H. induction a as [|x a IH]; [exact H|].
  change (String x a ++ b)%string with (String x (a ++ b)%string).
  rewrite PyStrFacts.contains_cons, IH. apply orb_true_r.
Qed.

Lemma contains_concat (sep w : string) (names : list string) :
  In w names -> PyStr.contains w (String.concat sep names) = true.
Proof.
  induction names as [|x names IH]; intros H; [destruct H|].
  destruct names as [|y names].
  - destruct H as [<- | []]. apply contains_refl.
  - change (String.concat sep (x :: y :: names))
      with (x ++ sep ++ String.concat sep (y :: names))%string.
    destruct H as [<- | H].
    + apply contains_app_l, contains_refl.
    + do 2 apply contains_app_r. now apply IH.
Qed.

(** X9: without an explorer URL for the active network, or with one in
    which no fragment of the table occurs, [publish_source] raises a
    [ValueError] before it looks at the contract or sends anything; in the
    second case the message lists every explorer of the table. *)
Theorem explorer_must_be_known (env : environment) (self : container)
    (address : string) (silent : bool) (script : list response) :
  (explorer env = None ->
   publish_source env self address silent script
   = (Raised (ValueError "Explorer API not set for this network"), [])) /\
  (forall url,
      explorer env = Some url ->
      (forall kv, In kv (_explorer_tokens env) -> PyStr.contains (fst kv) url = false) ->
      exists msg,
        publish_source env self address silent script = (Raised (ValueError msg), []) /\
        forall kv, In kv (_explorer_tokens env) -> PyStr.contains (fst kv) msg = true).
Proof.
  split.
  - intros H. unfold publish_source, api_credentials. now rewrite H.
  - intros url Hurl Hnone. eexists. split.
    + unfold publish_source, api_credentials, resolve_env_token. rewrite Hurl.
      apply find_nothing in Hnone. rewrite Hnone. reflexivity.
    + intros kv Hkv. apply contains_app_r, contains_app_l, contains_concat.
      now apply in_map.
Qed.

Lemma explorer_must_be_known_witness :
  exists msg,
    publish_source (etherscan_env "https://blockscout.com/api" (Some "K"))
      (sample_container "Vyper") "0xabc" false []
    = (Raised (ValueError msg), []) /\
    PyStr.contains "bscscan" msg = true.
Proof.
  destruct (proj2 (explorer_must_be_known
                     (etherscan_env "https://blockscout.com/api" (Some "K"))
                     (sample_container "Vyper") "0xabc" false [])
              "https://blockscout.com/api" eq_refl) as [msg [E Hall]].
  - intros kv [<- | [<- | []]]; reflexivity.
  - exists msg. split; [exact E|].
    apply (Hall ("bscscan", "BSCSCAN_TOKEN")). right. now left.
Defined.

Lemma index_char_first (c : ascii) (label rest : string) :
  PyStr.mem c label = false ->
  PyStr.index_char c (label ++ String c rest)
  = Some (Z.of_nat (String.length label)).
Proof.
  induction label as [|a label IH]; intros H.
  - cbn. now rewrite Ascii.eqb_refl.
  - cbn [PyStr.mem] in H. apply orb_false_iff in H as [Ha Hl].
    change (String a label ++ String c rest)%string
      with (String a (label ++ String c rest)%string).
    cbn [PyStr.index_char]. rewrite Ha, (IH Hl). cbn [option_map String.length].
    f_equal. lia.
Qed.

Lemma drop_first (c : ascii) (label rest : string) :
  PyStr.drop (S (String.length label)) (label ++ String c rest) = rest.
Proof. induction label as [|a label IH]; [reflexivity | exact IH]. Qed.

(** X21: with the token variable unset or empty and an explorer host
    that has a dot (and no square bracket), the error tells where to get a
    token by dropping the first label of the host, whatever is left: for
    api.etherscan.io the hint is https://etherscan.io/, for a host of two
    labels it is the top-level domain alone.  The message names the
    variable, and nothing is requested. *)
Theorem token_hint_drops_first_label (env : environment) (url env_token : string)
    (label rest : string) (self : container) (address : string) (silent : bool)
    (script : list response) :
  explorer env = Some url ->
  resolve_env_token (_explorer_tokens env) url = Some env_token ->
  getenv env env_token = None \/ getenv env env_token = Some EmptyString ->
  let host := Url.netloc url in
  host = (label ++ "." ++ rest)%string ->
  PyStr.mem "." label = false ->
  PyStr.mem "[" host = false ->
  PyStr.mem "]" host = false ->
  publish_source env self address silent script
  = (Raised (ValueError
               ("An API token is required to verify contract source code. "
                ++ "Visit https://" ++ rest ++ "/ to obtain a token, and then store "
                ++ "it as the environment variable $" ++ env_token)), []).
Proof.
  intros Hurl Htok Henv host Hhost Hlabel Hopen Hclose.
  assert (Hparse : Url.urlparse_netloc url = inr (label ++ String "." rest)%string).
  { unfold Url.urlparse_netloc. fold host. now rewrite Hopen, Hclose, Hhost. }
  unfold publish_source, api_credentials. rewrite Hurl, Htok.
  assert (Hmsg :
            match Url.urlparse_netloc url with
            | inl e => inl e
            | inr host =>
                match PyStr.index_char "." host with
                | Some i =>
                    inl (ValueError
                           (token_required_message (PyStr.slice_from (i + 1) host)
                              env_token))
                | None => inl (ValueError "substring not found")
                end
            end
            = @inl exn (string * string)
                (ValueError (token_required_message rest env_token))).
  { rewrite Hparse, (index_char_first _ _ _ Hlabel).
    unfold PyStr.slice_from.
    replace (Z.to_nat (Z.of_nat (String.length label) + 1))
      with (S (String.length label)) by lia.
    now rewrite drop_first. }
  destruct Henv as [-> | ->]; rewrite Hmsg; reflexivity.
Qed.

Lemma token_hint_drops_first_label_witness :
  publish_source (etherscan_env "https://etherscan.io/api" None)
    (sample_container "Solidity") "0xabc" false []
  = (Raised (ValueError
               ("An API token is required to verify contract source code. "
                ++ "Visit https://io/ to obtain a token, and then store "
                ++ "it as the environment variable $ETHERSCAN_TOKEN")), []).
Proof.
  apply (token_hint_drops_first_label
           (etherscan_env "https://etherscan.io/api" None)
           "https://etherscan.io/api" "ETHERSCAN_TOKEN" "etherscan" "io");
    try reflexivity.
  now left.
Defined.

End Credentials.

(** * Further properties of the license classification *)

Section Licenses.

Import PyStr.

Lemma lower_char_idempotent (c : ascii) : lower_char (lower_char c) = lower_char c.
Proof. destruct c as [[] [] [] [] [] [] [] []]; reflexivity. Qed.

Lemma lower_idempotent (s : string) : lower (lower s) = lower s.
Proof.
  induction s as [|c s IH]; [reflexivity|].
  cbn [lower]. now rewrite lower_char_idempotent, IH.
Qed.

(** A word that occurs, occurs without its first character too. *)
Lemma contains_tail (a : ascii) (w s : string) :
  contains (String a w) s = true -> contains w s = true.
Proof.
  induction s as [|c s IH]; intros H.
  - cbn in H. discriminate.
  - rewrite PyStrFacts.contains_cons in H. apply orb_true_iff in H as [H|H].
    + cbn [startswith] in H. apply andb_true_iff in H as [_ H].
      rewrite PyStrFacts.contains_cons.
      assert (C : contains w s = true).
      { destruct (PyStrFacts.startswith_split _ _ H) as [r ->].
        apply contains_app_l, contains_refl. }
      rewrite C. apply orb_true_r.
    + rewrite PyStrFacts.contains_cons, (IH H). apply orb_true_r.
Qed.

(** X10: the license code is always one of 1 to 13, and it depends on
    the identifier only up to the case of its letters: lowercasing the
    identifier first changes nothing. *)
Theorem license_code_range (license_identifier : string) :
  1 <= license_code license_identifier <= 13 /\
  license_code (lower license_identifier) = license_code license_identifier.
Proof.
  split.
  - unfold license_code. cbv zeta. split_on_guards; lia.
  - unfold license_code. now rewrite lower_idempotent.
Qed.

(** X11: the code 13 of AGPL is given only with the literal 3.0; an
    identifier of the AGPL family without it (and without "unlicensed",
    "mit" and "lgpl") is classified by the branch of GPL, as 4 with 2.0 and
    as the default 1 otherwise. *)
Theorem agpl_needs_version (license_identifier : string) :
  let identifier := lower license_identifier in
  (license_code license_identifier = 13 ->
   contains "agpl" identifier = true /\ contains "3.0" identifier = true) /\
  (contains "unlicensed" identifier = false ->
   contains "mit" identifier = false ->
   contains "lgpl" identifier = false ->
   contains "agpl" identifier = true ->
   contains "3.0" identifier = false ->
   license_code license_identifier
   = if contains "2.0" identifier then 4 else 1).
Proof.
  unfold license_code. cbv zeta.
  generalize (lower license_identifier) as identifier; intros identifier. split.
  - destruct (contains "agpl" identifier); destruct (contains "3.0" identifier);
      [now split | | |]; cbn [andb]; split_on_guards; discriminate.
  - intros -> -> Hl Ha ->. rewrite Hl, Ha, (contains_tail _ _ _ Ha). reflexivity.
Qed.

Lemma agpl_needs_version_witness :
  license_code "AGPL-1.0-only" = 1 /\ license_code "AGPL-2.0" = 4.
Proof.
  split.
  - apply (proj2 (agpl_needs_version "AGPL-1.0-only")); reflexivity.
  - apply (proj2 (agpl_needs_version "AGPL-2.0")); reflexivity.
Defined.

End Licenses.

Lemma governance_whitelists_witness :
  map (fun t => (tx_from t, tx_nonce t))
    (skipn 22 (sent (snd (main sample_create (fun k => k) sample_settings
                            (initial_world sample_counts EmptyString)))))
  = map (fun k => ("0xG", Z.of_nat k)) (seq 0 12).
Proof.
  exact (proj1 (governance_whitelists sample_create (fun k => k) sample_settings
                  sample_counts EmptyString "0xD" "0xG" "0xT" [] eq_refl eq_refl)).
Defined.

Lemma constructor_wiring_witness :
  exists proxy lensHubImpl,
    nth_error (sent (snd (main sample_create (fun k => k) sample_settings
                            (initial_world sample_counts EmptyString)))) 7
    = Some proxy /\
    tx_what proxy
    = Create "TransparentUpgradeableProxy"
        [Addr lensHubImpl; Addr "0xD";
         Encoded "initialize" [LENS_HUB_NFT_NAME; LENS_HUB_NFT_SYMBOL; "0xG"]]
        false.
Proof.
  destruct (proj2 (constructor_wiring sample_create (fun k => k) sample_settings
                     sample_counts EmptyString "0xD" "0xG" "0xT" [] eq_refl eq_refl))
    as [proxy [impl [H7 [_ Hp]]]].
  exists proxy, impl. now split.
Defined.

Lemma address_registry_witness :
  exists lenshubAddresses,
    lenshubAddresses_file
      (snd (main sample_create (fun k => k) sample_settings
              (initial_world sample_counts EmptyString)))
    = Some ("build/lenshubAddresses-live.json", lenshubAddresses) /\
    List.length lenshubAddresses = 21%nat.
Proof.
  destruct (address_registry sample_create (fun k => k) sample_settings
              sample_counts EmptyString "0xD" "0xG" "0xT" [] eq_refl eq_refl)
    as [registry [Hfile Hall]].
  exists registry. split; [exact Hfile|].
  now rewrite (Forall2_length Hall).
Defined.

Lemma verification_flags_witness :
  exists t args,
    In t (sent (snd (main sample_create (fun k => k) sample_settings
                       (initial_world sample_counts EmptyString)))) /\
    tx_what t = Create "LensHub" args false.
Proof.
  apply (proj2 (verification_flags sample_create (fun k => k) sample_settings
                  sample_counts EmptyString "0xD" "0xG" "0xT" [] eq_refl eq_refl)
           "LensHub").
  do 4 right. left. reflexivity.
Defined.

Lemma main_needs_connection_and_accounts_witness :
  sent (snd (main sample_create (fun k => k) two_account_settings
               (initial_world sample_counts EmptyString))) = [].
Proof.
  apply (proj2 (proj2 (proj2
           (main_needs_connection_and_accounts sample_create (fun k => k)
              two_account_settings sample_counts EmptyString)))).
  right. cbn. lia.
Defined.

Lemma node_accounts_take_the_roles_witness :
  exists t,
    hd_error (sent (snd (main sample_create (fun k => k) keyed_settings
                           (initial_world sample_counts EmptyString)))) = Some t /\
    tx_from t = "0xD" /\
    tx_what t = Create "ModuleGlobals" [Addr "0xG"; Addr "0xT"; Int 50] false.
Proof.
  eexists. split; [reflexivity|]. split; [|reflexivity].
  eapply (proj1 (node_accounts_take_the_roles sample_create (fun k => k)
                   keyed_settings sample_counts EmptyString "0xD" "0xG" "0xT" []
                   eq_refl _ (or_introl eq_refl))).
  reflexivity.
Defined.

Lemma roles_from_three_keys_witness :
  exists t,
    hd_error (sent (snd (main sample_create (fun k => k) keys_only_settings
                           (initial_world sample_counts EmptyString)))) = Some t /\
    tx_from t = "0xD".
Proof.
  eexists. split; [reflexivity|].
  eapply (proj1 (proj2 (proj2
            (roles_from_three_keys sample_create (fun k => k) keys_only_settings
               sample_counts EmptyString eq_refl))
            "0xD" "0xG" _ eq_refl eq_refl (or_introl eq_refl))).
  reflexivity.
Defined.

(** * Further properties of the deployment *)

Section Rerun.

Variable get_deployment_address : string -> Z -> string.
Variable address_of_key : string -> string.

Lemma patched_has_no_placeholder (a1 a2 a3 bytecode : string) (lib : library) :
  is_address a1 = true -> is_address a2 = true -> is_address a3 = true ->
  PyStr.contains (token lib) (patch_libraries a1 a2 a3 bytecode) = false.
Proof.
  intros H1 H2 H3. unfold patch_libraries.
  change PublishingLogic_token with (token PublishingLogic).
  change InteractionLogic_token with (token InteractionLogic).
  change ProfileTokenURILogic_token with (token ProfileTokenURILogic).
  destruct lib.
  - do 2 (apply replace_keeps_absent; [assumption|]). now apply replace_removes.
  - apply replace_keeps_absent; [assumption|]. now apply replace_removes.
  - now apply replace_removes.
Qed.

(** X19: the placeholders are patched once.  A later run that finds
    the artifact left by an earlier one leaves its bytecode as it is: the
    libraries it deploys, at whatever addresses, are not linked, and the
    artifact keeps the addresses of the first run. *)
Theorem rerun_does_not_relink (cfg cfg' : settings) (counts counts' : string -> Z)
    (deployedBytecode : string)
    (deployer governance treasury deployer' governance' treasury' : string)
    (others others' : list string) :
  is_connected cfg = true ->
  fold_left (accounts_add address_of_key)
    [DEPLOYER_PRIVATE_KEY cfg; GOVERNANCE_PRIVATE_KEY cfg; TREASURY_PRIVATE_KEY cfg]
    (network_accounts cfg)
  = deployer :: governance :: treasury :: others ->
  is_connected cfg' = true ->
  fold_left (accounts_add address_of_key)
    [DEPLOYER_PRIVATE_KEY cfg'; GOVERNANCE_PRIVATE_KEY cfg'; TREASURY_PRIVATE_KEY cfg']
    (network_accounts cfg')
  = deployer' :: governance' :: treasury' :: others' ->
  (forall k, k = 1 \/ k = 2 \/ k = 3 ->
             is_address (get_deployment_address deployer (counts deployer + k)) = true) ->
  let first := main get_deployment_address address_of_key cfg
                 (initial_world counts deployedBytecode) in
  let artifact := LensHub_deployedBytecode (snd first) in
  let second := main get_deployment_address address_of_key cfg'
                  (initial_world counts' artifact) in
  fst second = inr tt /\
  LensHub_deployedBytecode (snd second) = artifact.
Proof.
  intros Hc Hacc Hc' Hacc' Haddr first artifact second.
  split; [now apply (main_returns get_deployment_address address_of_key cfg' counts'
                       artifact deployer' governance' treasury' others')|].
  subst second.
  rewrite (main_patches_LensHub get_deployment_address address_of_key cfg' counts'
             artifact deployer' governance' treasury' others' Hc' Hacc').
  cbv zeta. subst artifact first.
  rewrite (main_patches_LensHub get_deployment_address address_of_key cfg counts
             deployedBytecode deployer governance treasury others Hc Hacc).
  cbv zeta.
  set (a1 := get_deployment_address deployer (counts deployer + 1)).
  set (a2 := get_deployment_address deployer (counts deployer + 2)).
  set (a3 := get_deployment_address deployer (counts deployer + 3)).
  assert (H1 : is_address a1 = true) by (apply Haddr; tauto).
  assert (H2 : is_address a2 = true) by (apply Haddr; tauto).
  assert (H3 : is_address a3 = true) by (apply Haddr; tauto).
  assert (Hfree : forall lib,
             PyStr.contains (token lib) (patch_libraries a1 a2 a3 deployedBytecode)
             = false)
    by (intros lib; now apply patched_has_no_placeholder).
  generalize (patch_libraries a1 a2 a3 deployedBytecode), Hfree.
  intros patched Hp. unfold patch_libraries.
  change PublishingLogic_token with (token PublishingLogic).
  change InteractionLogic_token with (token InteractionLogic).
  change ProfileTokenURILogic_token with (token ProfileTokenURILogic).
  rewrite (replace_absent PublishingLogic _ patched (Hp _)).
  rewrite (replace_absent InteractionLogic _ patched (Hp _)).
  now rewrite (replace_absent ProfileTokenURILogic _ patched (Hp _)).
Qed.

End Rerun.

Lemma rerun_does_not_relink_witness :
  let first := main sample_address (fun k => k) sample_settings
                 (initial_world sample_counts PublishingLogic_token) in
  let artifact := LensHub_deployedBytecode (snd first) in
  artifact = "00000000000000000000000000000000000000a8" /\
  LensHub_deployedBytecode
    (snd (main sample_address (fun k => k) sample_settings
            (initial_world (fun _ => 40) artifact)))
  = artifact.
Proof.
  split; [reflexivity|].
  apply (rerun_does_not_relink sample_address (fun k => k) sample_settings
           sample_settings sample_counts (fun _ => 40) PublishingLogic_token
           "0xD" "0xG" "0xT" "0xD" "0xG" "0xT" [] [] eq_refl eq_refl eq_refl eq_refl).
  intros k [-> | [-> | ->]]; reflexivity.
Defined.

(** * The module-level configuration *)

Section Configuration.

Local Open Scope list_scope.

Variable getenv : string -> option string.
Variable connected : bool.
Variable node_accounts : list string.

Lemma existsb_eqb_In (x : string) (l : list string) :
  existsb (String.eqb x) l = true <-> In x l.
Proof.
  rewrite existsb_exists. split.
  - intros [y [Hy E]]. apply String.eqb_eq in E. now subst.
  - intros H. exists x. split; [assumption | apply String.eqb_refl].
Qed.

Lemma strtobool_spec (val : string) :
  match strtobool val with
  | inr b => if b then In (PyStr.lower val) truthy
             else In (PyStr.lower val) falsy /\ ~ In (PyStr.lower val) truthy
  | inl (InvalidTruthValue v) =>
      v = PyStr.lower val /\ ~ In v (truthy ++ falsy)
  end.
Proof.
  unfold strtobool. cbv zeta.
  destruct (existsb (String.eqb (PyStr.lower val)) truthy) eqn:T.
  - now apply existsb_eqb_In.
  - assert (NT : ~ In (PyStr.lower val) truthy).
    { intros H. apply existsb_eqb_In in H. congruence. }
    destruct (existsb (String.eqb (PyStr.lower val)) falsy) eqn:F.
    + split; [now apply existsb_eqb_In | exact NT].
    + split; [reflexivity|]. intros H. apply in_app_or in H as [H|H].
      * now apply NT.
      * apply existsb_eqb_In in H. congruence.
Qed.

(** X20: verification is on only for a network type that is set and
    is not "local", and then exactly when CONTRACT_VERIFICATION is unset or
    one of y, yes, t, true, on, 1 in any case; with NETWORK_TYPE unset the
    default "local" turns it off.  A value of CONTRACT_VERIFICATION that is
    no truth word at all stops the script with a ValueError while it is
    loaded, on a local network too, since the value is read before the
    network type is looked at.  NETWORK_ID defaults to "live". *)
Theorem verification_needs_remote_network :
  (forall cfg,
      module_settings getenv connected node_accounts = inr cfg ->
      NETWORK_ID cfg = getenv_default getenv "NETWORK_ID" "live" /\
      (CONTRACT_VERIFICATION cfg = true <->
       (exists network_type,
           getenv "NETWORK_TYPE" = Some network_type /\ network_type <> "local") /\
       (forall value,
           getenv "CONTRACT_VERIFICATION" = Some value ->
           In (PyStr.lower value) truthy))) /\
  (forall val,
      module_settings getenv connected node_accounts = inl (InvalidTruthValue val) <->
      exists value,
        getenv "CONTRACT_VERIFICATION" = Some value /\
        val = PyStr.lower value /\
        ~ In val (truthy ++ falsy)).
Proof.
  unfold module_settings, getenv_default. cbv zeta. split.
  - intros cfg.
    pose proof (strtobool_spec
                  match getenv "CONTRACT_VERIFICATION" with
                  | Some value => value
                  | None => "True"
                  end) as S.
    destruct (strtobool _) as [e|b]; [discriminate|].
    intros [= <-]. cbn [NETWORK_ID CONTRACT_VERIFICATION].
    split; [reflexivity|].
    destruct (getenv "NETWORK_TYPE") as [nt|].
    + destruct (String.eqb nt "local") eqn:E.
      * apply String.eqb_eq in E. split; [discriminate|].
        intros [[nt' [[= <-] N]] _]. congruence.
      * apply String.eqb_neq in E. split.
        -- intros ->. split; [now exists nt|].
           intros value Hv. now rewrite Hv in S.
        -- intros [_ H]. destruct b; [reflexivity|]. exfalso.
           destruct (getenv "CONTRACT_VERIFICATION") as [value|].
           ++ destruct S as [_ S]. apply S. now apply H.
           ++ destruct S as [_ S]. apply S. cbn. tauto.
    + cbn. split; [discriminate|]. intros [[nt' [[=] _]] _].
  - intros val.
    pose proof (strtobool_spec
                  match getenv "CONTRACT_VERIFICATION" with
                  | Some value => value
                  | None => "True"
                  end) as S.
    destruct (strtobool _) as [[v]|b].
    + destruct S as [-> S]. split.
      * intros [= <-]. destruct (getenv "CONTRACT_VERIFICATION") as [value|].
        -- now exists value.
        -- exfalso. apply S. cbn. tauto.
      * intros [value [Hv [-> _]]]. now rewrite Hv.
    + split; [discriminate|]. intros [value [Hv [-> N]]]. exfalso.
      rewrite Hv in S. apply N, in_or_app.
      destruct b; [now left | right; tauto].
Qed.

End Configuration.

Lemma verification_needs_remote_network_witness :
  (exists cfg,
      module_settings (sample_getenv (Some "testnet") (Some "YES")) true []
      = inr cfg /\ CONTRACT_VERIFICATION cfg = true) /\
  module_settings (sample_getenv None (Some "maybe")) true []
  = inl (InvalidTruthValue "maybe").
Proof.
  split.
  - eexists. split; [reflexivity|].
    apply (proj1 (verification_needs_remote_network
                    (sample_getenv (Some "testnet") (Some "YES")) true []) _ eq_refl).
    split.
    + exists "testnet". split; [reflexivity | discriminate].
    + intros value [= <-]. cbn. tauto.
  - apply (proj2 (verification_needs_remote_network
                    (sample_getenv None (Some "maybe")) true [])).
    exists "maybe". split; [reflexivity|]. split; [reflexivity|].
    cbn. intros H. repeat (destruct H as [H|H]; [discriminate|]). exact H.
Defined.
